(** * Pentagon Pizza Index: normalisation, scoring, aggregation, correlation

    A shallow embedding of the scoring pipeline of the repository:
    - [dashboard.py]: [get_live_popularity], [get_market_data],
      [generate_simulated_historical_data], [get_data], and the JavaScript
      helpers [getAnomalyClass], [getAnomalyText], [updateAlertBanner]
      of its HTML template;
    - [test_scraper.py]: [calculate_trend] and the composite section of
      [generate_report];
    - [robust_scraper_poc.py]: the signal section of [fetch_sensor_data].

    Python [int] is [Z]; Python [float] and JavaScript numbers are IEEE 754
    binary64, here Rocq's primitive [float]; [None]/[null] is [option]. *)

From Stdlib Require Import ZArith List Bool String Floats Lia.
Import ListNotations.

Set Implicit Arguments.

(* ================================================================== *)
(** * Python values *)
(* ================================================================== *)

Module Py.

(** [float(z)]: the binary64 nearest to the integer [z] (exact for
    [|z| <= 2^53], far above the 0..100 busyness scale). *)
Definition of_Z (z : Z) : float :=
  SF2Prim (binary_normalize prec emax z 0 false).

(** [a / b] on two [int]s: true division, a [float].  Callers guard
    [b > 0], so Python's ZeroDivisionError does not arise. *)
Definition truediv (a b : Z) : float := (of_Z a / of_Z b)%float.

(** [sum(xs)]: a left fold from the integer [0]. *)
Definition sum (xs : list float) : float :=
  fold_left PrimFloat.add xs (of_Z 0).

(** [len(xs)]. *)
Definition len {A} (xs : list A) : Z := Z.of_nat (List.length xs).

(** [sum(xs) / len(xs)]. *)
Definition mean (xs : list float) : float :=
  (sum xs / of_Z (len xs))%float.

(** [range(start, stop, -1)] for [stop <= start + 1], on naturals:
    [start, start-1, ..., stop+1]; given as the lowest element and the
    number of elements. *)
Definition range_down (lowest count : nat) : list nat :=
  rev (seq lowest count).

(** [x if x is not None else d]. *)
Definition get {A} (o : option A) (d : A) : A :=
  match o with Some a => a | None => d end.

(** [min(a, b)] and [max(a, b)] of Python: the first argument unless the
    second is strictly smaller (larger). *)
Definition min (a b : float) : float := if (b <? a)%float then b else a.
Definition max (a b : float) : float := if (a <? b)%float then b else a.

End Py.

(* ================================================================== *)
(** * Exceptions *)
(* ================================================================== *)

(** A computation that returns a value or raises an exception carrying a
    message; [try_except body handler] is
    [try: body except Exception as e: handler(e)]. *)
Module Exn.

Inductive t (A : Type) : Type :=
| Return (a : A)
| Raise (msg : string).
Arguments Return {A} a.
Arguments Raise {A} msg.

Definition bind {A B} (m : t A) (k : A -> t B) : t B :=
  match m with
  | Return a => k a
  | Raise e => Raise e
  end.

Definition try_except {A} (body : t A) (handler : string -> t A) : t A :=
  match body with
  | Return a => Return a
  | Raise e => handler e
  end.

End Exn.

Notation "x <- m ;; k" := (Exn.bind m (fun x => k))
  (at level 61, m at next level, right associativity).

(* ================================================================== *)
(** * External collaborators *)
(* ================================================================== *)

(** What [livepopulartimes.get_populartimes_by_address] returns for one
    venue and what [yfinance]'s [Ticker.history] returns for one ticker. *)
Module Provider.

(** One entry of [populartimes]; [day_data] is its ['data'] key. *)
Record day_entry := { day_data : option (list Z) }.

Record place := {
  place_id : option string;
  name : option string;
  rating : option float;
  current_popularity : option Z;
  populartimes : option (list day_entry)
}.

(** The provider call: it raises, returns nothing ([None] or an empty
    dict, both falsy), or returns a place. *)
Definition outcome : Type := Exn.t (option place).

(** One row of a price history frame. *)
Record bar := { date : string; open : float; close : float }.

(** [populartimes[d].get('data', [])] under the guard
    [populartimes and len(populartimes) > d]; [None] when the guard
    fails. *)
Definition day_series (pt : option (list day_entry)) (d : nat)
  : option (list Z) :=
  match pt with
  | None => None
  | Some days =>
      match nth_error days d with
      | Some entry => Some (Py.get (day_data entry) [])
      | None => None
      end
  end.

End Provider.

(** The libraries the pipeline calls and does not define: the clock
    ([datetime]), [numpy]'s legacy global random generator and [corrcoef],
    and Python's [round]. *)
Class External := {
  datetime : Type;
  weekday : datetime -> nat;
  hour_of : datetime -> nat;
  isoformat : datetime -> string;
(** [(now - timedelta(days=i)).strftime("%Y-%m-%d")] *)
date_days_ago : datetime -> nat -> string;
(** the state of [np.random] *)
rng : Type;
(** [np.random.seed(n)]: the state after seeding *)
seed : Z -> rng;
(** one draw of [np.random.normal(loc, scale)] *)
normal : float -> float -> rng -> float * rng;
(** one draw of [np.random.uniform(low, high)] *)
uniform : float -> float -> rng -> float * rng;
(** [round(x, ndigits)] *)
round : float -> Z -> float;
(** [np.corrcoef(x, y)[0, 1]] *)
corrcoef : list float -> list float -> float
}.

(* ================================================================== *)
(** * dashboard.py *)
(* ================================================================== *)

Module Dashboard.

(** ** Configuration *)

Record sensor := { name : string; address : string; role : string }.

(** [SENSORS] (the display icon is left out). *)
Definition SENSORS : list sensor := [
  (* Primary Pizza Indicators *)
  {| name := "Domino's Pizza";
     address := "Domino's Pizza Crystal City Arlington VA";
     role := "Primary" |};
  {| name := "Little Caesars";
     address := "Little Caesars Pizza Arlington VA";
     role := "Primary" |};
  {| name := "Wiseguy Pizza";
     address := "Wiseguy Pizza Pentagon City Arlington VA";
     role := "Primary" |};
  {| name := "Pete's Apizza";
     address := "Pete's New Haven Style Apizza Arlington VA";
     role := "Primary" |};
  {| name := "We The Pizza";
     address := "We The Pizza Capitol Hill Washington DC";
     role := "Primary" |};
  {| name := "Mia's Italian";
     address := "Mia's Italian Kitchen Arlington VA";
     role := "Secondary" |};
  (* Fast Food (Late Night Indicators) *)
  {| name := "McDonald's Pentagon";
     address := "McDonald's Pentagon City Arlington VA";
     role := "LateNight" |};
  (* Inverse Indicators (Bars - Empty = Working Late) *)
  {| name := "Freddie's Beach Bar";
     address := "Freddie's Beach Bar Crystal City Arlington VA";
     role := "Inverse" |};
  {| name := "Crystal City Sports Pub";
     address := "Crystal City Sports Pub Arlington VA";
     role := "Inverse" |}
].

(** ** [get_live_popularity] *)

(** A [for h in <hours>:] loop whose body is
    [if h < len(data) and data[h] > 0: <record data[h], h>; break]. *)
Fixpoint scan (data : list Z) (hours : list nat) : option (Z * nat) :=
  match hours with
  | [] => None
  | h :: rest =>
      match nth_error data h with
      | Some v => if (0 <? v)%Z then Some (v, h) else scan data rest
      | None => scan data rest      (* h >= len(data) *)
      end
  end.

(** The locals the fallback section leaves behind. *)
Record fallback_state := {
  current_pop : option Z;
  is_using_fallback : bool;
  fallback_hour : option nat
}.

(** The section between [# FALLBACK] and the [return]: [prev] is the
    previous day's series when [populartimes and len(populartimes) >
    prev_day] holds, and [None] otherwise. *)
Definition fallback (current : option Z) (today_data : list Z)
    (hour : nat) (prev : option (list Z)) : fallback_state :=
  match current, today_data with
  | None, _ :: _ =>                 (* current_pop is None and today_data *)
      let today_hit := scan today_data (Py.range_down 0 (S hour)) in
      let hit :=
        match today_hit with
        | Some found => Some found
        | None =>
            match prev with
            | Some prev_data => scan prev_data (Py.range_down 18 6)
            | None => None
            end
        end in
      match hit with
      | Some (v, h) =>
          {| current_pop := Some v;
             is_using_fallback := true;
             fallback_hour := Some h |}
      | None =>
          {| current_pop := None;
             is_using_fallback := false;
             fallback_hour := None |}
      end
  | _, _ =>
      {| current_pop := current;
         is_using_fallback := false;
         fallback_hour := None |}
  end.

(** The dict [get_live_popularity] returns when [has_data] is true. *)
Record reading := {
  current_popularity : option Z;
  usual_popularity : option Z;
  today_hourly : list Z;
  place_name : option string;
  rating : option float;
  is_fallback : bool;
  reading_fallback_hour : option nat
}.

(** The returned dict: [{"has_data": False, "error": ...}] or a reading. *)
Inductive popularity :=
| NoData (error : string)
| HasData (r : reading).

(** [(day_of_week - 1) % 7] *)
Definition prev_day (day_of_week : nat) : nat :=
  Z.to_nat ((Z.of_nat day_of_week - 1) mod 7).

(** The [try] body once the provider has returned [data]. *)
Definition read_place (data : option Provider.place)
    (day_of_week hour : nat) : popularity :=
  match data with
  | None => NoData "No data returned"
  | Some d =>
      let populartimes := Provider.populartimes d in
      let today_data :=
        Py.get (Provider.day_series populartimes day_of_week) [] in
      let usual_pop := nth_error today_data hour in
      let st := fallback (Provider.current_popularity d) today_data hour
                  (Provider.day_series populartimes (prev_day day_of_week)) in
      HasData {| current_popularity := current_pop st;
                 usual_popularity := usual_pop;
                 today_hourly := today_data;
                 place_name := Provider.name d;
                 rating := Provider.rating d;
                 is_fallback := is_using_fallback st;
                 reading_fallback_hour := fallback_hour st |}
  end.

(** [get_live_popularity(address)]: [fetched] is what the provider call
    for [address] does, [day_of_week] and [hour] are read off
    [datetime.now()]. *)
Definition get_live_popularity (fetched : Provider.outcome)
    (day_of_week hour : nat) : Exn.t popularity :=
  Exn.try_except
    (data <- fetched ;;
     Exn.Return (read_place data day_of_week hour))
    (fun e => Exn.Return (NoData e)).

(** ** [get_market_data] *)

(** The [result] dict; an absent [vix_change]/[gold_change] key is
    [None]. *)
Record market_result := {
  vix : option float;
  gold : option float;
  vix_change : option float;
  gold_change : option float;
  vix_history : list (string * float);
  gold_history : list (string * float)
}.

(** The returned dict: [{"has_data": False}] or the result. *)
Inductive market :=
| MarketNoData
| MarketData (r : market_result).

Section Market.
Context {E : External}.

(** [round(hist['Close'].iloc[-1], 2)] *)
Definition last_close (last : Provider.bar) : float :=
  round (Provider.close last) 2.

(** [round((Close[-1] - Open[-1]) / Open[-1] * 100, 2)] *)
Definition day_change (last : Provider.bar) : float :=
  round ((Provider.close last - Provider.open last)
           / Provider.open last * 100)%float 2.

(** [[{"date": ..., "value": round(val, 2)} for idx, val in ...]] *)
Definition history_points (hist : list Provider.bar)
  : list (string * float) :=
  map (fun b => (Provider.date b, round (Provider.close b) 2)) hist.

(** The inner [try] for ["^VIX"]: [except Exception: pass] leaves
    [result] as it was. *)
Definition fetch_vix (history : Exn.t (list Provider.bar))
    (result : market_result) : Exn.t market_result :=
  Exn.try_except
    (vix_hist <- history ;;
     match rev vix_hist with
     | [] => Exn.Return result                    (* vix_hist.empty *)
     | last :: _ =>
         Exn.Return
           {| vix := Some (last_close last);
              gold := gold result;
              vix_change := Some (day_change last);
              gold_change := gold_change result;
              vix_history := history_points vix_hist;
              gold_history := gold_history result |}
     end)
    (fun _ => Exn.Return result).

(** The inner [try] for ["GC=F"]. *)
Definition fetch_gold (history : Exn.t (list Provider.bar))
    (result : market_result) : Exn.t market_result :=
  Exn.try_except
    (gold_hist <- history ;;
     match rev gold_hist with
     | [] => Exn.Return result                    (* gold_hist.empty *)
     | last :: _ =>
         Exn.Return
           {| vix := vix result;
              gold := Some (last_close last);
              vix_change := vix_change result;
              gold_change := Some (day_change last);
              vix_history := vix_history result;
              gold_history := history_points gold_hist |}
     end)
    (fun _ => Exn.Return result).

(** [get_market_data()]: [yfinance] is what [import yfinance] does,
    the two histories what [Ticker(...).history(period="1mo")] does for
    each ticker. *)
Definition get_market_data (yfinance : Exn.t unit)
    (vix_1mo gold_1mo : Exn.t (list Provider.bar)) : Exn.t market :=
  Exn.try_except
    (_ <- yfinance ;;
     let result := {| vix := None; gold := None;
                      vix_change := None; gold_change := None;
                      vix_history := []; gold_history := [] |} in
     result <- fetch_vix vix_1mo result ;;
     result <- fetch_gold gold_1mo result ;;
     Exn.Return (MarketData result))
    (fun _ => Exn.Return MarketNoData).

End Market.

(** ** [generate_simulated_historical_data] *)

(** The returned dict; [vix_series] and [gold_series] are its ["vix"] and
    ["gold"] keys. *)
Record historical := {
  dates : list string;
  pizza_index : list float;
  vix_series : list float;
  gold_series : list float
}.

(** [a[i] += d] on an array; every index used below is inside the 30
    entries, so the IndexError of an index outside never arises. *)
Fixpoint add_at (a : list float) (i : nat) (d : float) : list float :=
  match a, i with
  | [], _ => []
  | x :: rest, O => (x + d)%float :: rest
  | x :: rest, S j => x :: add_at rest j d
  end.

(** [np.cumsum] *)
Fixpoint cumsum_from (acc : float) (xs : list float) : list float :=
  match xs with
  | [] => []
  | x :: rest => let s := (acc + x)%float in s :: cumsum_from s rest
  end.

Definition cumsum (xs : list float) : list float :=
  match xs with
  | [] => []
  | x :: rest => x :: cumsum_from x rest
  end.

Section Simulation.
Context {E : External}.

(** An array of [n] draws, filled in order. *)
Fixpoint draws (n : nat) (draw : rng -> float * rng) (g : rng)
  : list float * rng :=
  match n with
  | O => ([], g)
  | S k =>
      let (x, g1) := draw g in
      let (xs, g2) := draws k draw g1 in
      (x :: xs, g2)
  end.

(** [np.random] is one generator for the whole process, and the server
    answers requests on threads ([app.run(..., threaded=True)]): between
    two calls an invocation makes to the generator, other requests may
    have seeded it or drawn from it.  [others k g] is the state they leave
    when call number [k] of this invocation (its seeding is call 0) left
    [g].  [call others k f] is call number [k], [f], on the shared
    generator. *)
Definition call {A} (others : nat -> rng -> rng) (k : nat)
    (f : rng -> A * rng) (g : rng) : A * rng :=
  let (x, g1) := f g in (x, others k g1).

(** No other request uses the generator meanwhile. *)
Definition alone : nat -> rng -> rng := fun _ g => g.

(** The body of [for day in crisis_days]; the state carries the number of
    the next call to the generator. *)
Definition crisis_day (others : nat -> rng -> rng)
    (st : list float * rng * nat) (day : nat) : list float * rng * nat :=
  let '(pizza_base, g, k) := st in
  let (a, g1) := call others k (uniform 30 60) g in
  let pizza_base := add_at pizza_base day a in
  if (day + 1 <? 30)%nat
  then let (b, g2) := call others (k + 1) (uniform 10 25) g1 in
       (add_at pizza_base (day + 1) b, g2, (k + 2)%nat)
  else (add_at pizza_base (day + 1) (Py.of_Z 0), g1, (k + 1)%nat).

(** The body of the first [for i in range(1, 30)]; [0.15] is the
    binary64 nearest to it. *)
Definition vix_day (pizza_base vix_base : list float) (i : nat)
  : list float :=
  let yesterday := nth (i - 1) pizza_base 0%float in
  if (25 <? yesterday)%float
  then add_at vix_base i ((yesterday - 25) * 0x1.3333333333333p-3)%float
  else vix_base.

(** The body of the second [for i in range(1, 30)]. *)
Definition gold_day (vix_base gold_base : list float) (i : nat)
  : list float :=
  let fear := nth i vix_base 0%float in
  if (20 <? fear)%float
  then add_at gold_base i ((fear - 20) * 8)%float
  else gold_base.

(** [generate_simulated_historical_data()]: [now] is the clock, [g] the
    state of [np.random] when it is called and [others] what the other
    requests do to that state between the calls made here (call 0 the
    seeding, call 1 the 30 normal draws, calls 2 to 7 the uniform draws,
    call 8 the noise of the VIX, call 9 the steps of gold; an array of
    draws is one call); the state left is returned with the dict. *)
Definition generate_simulated_historical_data
    (others : nat -> rng -> rng) (now : datetime)
    (g : rng) : historical * rng :=
  let g := others 0%nat (seed 42) in            (* np.random.seed(42) *)
  let dates := map (date_days_ago now) (Py.range_down 0 30) in
  let (pizza_base, g) := call others 1 (draws 30 (normal 0 15)) g in
  let '(pizza_base, g, k) := fold_left (crisis_day others) [5; 12; 22]%nat
                               (pizza_base, g, 2%nat) in
  let (noise, g) := call others k (draws 30 (normal 0 2)) g in
  let vix_base := map (fun x => (18 + x)%float) noise in
  let vix_base := fold_left (vix_day pizza_base) (seq 1 29) vix_base in
  let (steps, g) := call others (k + 1) (draws 30 (normal 5 15)) g in
  let gold_base := map (fun x => (2650 + x)%float) (cumsum steps) in
  let gold_base := fold_left (gold_day vix_base) (seq 1 29) gold_base in
  ({| dates := dates;
      pizza_index :=
        map (fun v => round (Py.max (-50) (Py.min 100 v)) 1) pizza_base;
      vix_series :=
        map (fun v => round (Py.max 10 (Py.min 40 v)) 2) vix_base;
      gold_series := map (fun v => round v 2) gold_base |},
   g).

End Simulation.

(** ** [get_data] *)

(** One entry of [sensors_data]. *)
Record sensor_row := {
  row_name : string;
  row_role : string;
  current : option Z;
  usual : option Z;
  row_today_hourly : list Z;
  row_is_fallback : bool;
  row_fallback_hour : option nat
}.

(** The dict built from [sensor] and [data = get_live_popularity(...)];
    [data.get(key)] is [None] (or the given default) on a dict without
    [key]. *)
Definition sensor_entry (sensor : sensor) (data : popularity)
  : sensor_row :=
  match data with
  | HasData r =>
      {| row_name := name sensor;
         row_role := role sensor;
         current := current_popularity r;
         usual := usual_popularity r;
         row_today_hourly := today_hourly r;
         row_is_fallback := is_fallback r;
         row_fallback_hour := reading_fallback_hour r |}
  | NoData _ =>
      {| row_name := name sensor;
         row_role := role sensor;
         current := None;
         usual := None;
         row_today_hourly := [];
         row_is_fallback := false;
         row_fallback_hour := None |}
  end.

(** The condition of the comprehension that builds [active]:
    [s['current'] is not None and s['usual'] and s['usual'] > 0]. *)
Definition is_active (s : sensor_row) : bool :=
  match current s with
  | None => false
  | Some _ =>
      match usual s with
      | None => false
      | Some u => negb (u =? 0)%Z && (0 <? u)%Z
      end
  end.

(** [((current - usual) / usual) * 100] *)
Definition pct (current usual : Z) : float :=
  (Py.truediv (current - usual) usual * 100)%float.

(** The [for s in active] loop that fills [scores]; every sensor of
    [active] has both values, so the last case is never taken. *)
Fixpoint scores_of (active : list sensor_row) : list float :=
  match active with
  | [] => []
  | s :: rest =>
      match current s, usual s with
      | Some c, Some u => pct c u :: scores_of rest
      | _, _ => scores_of rest
      end
  end.

(** The section [# Calculate composite score]. *)
Definition composite_score (sensors_data : list sensor_row)
  : option float :=
  match filter is_active sensors_data with
  | [] => None
  | active =>
      let scores := scores_of active in
      Some (Py.sum scores / Py.of_Z (Py.len scores))%float
  end.

(** [sum(1 for v in xs if v > 30)] *)
Definition count_spikes (xs : list float) : Z :=
  fold_left Z.add (map (fun _ => 1%Z) (filter (fun v => (30 <? v)%float) xs))
    0%Z.

Section Analyzer.
Context {E : External}.

(** [np.array(historical['pizza_index'][:-1])] *)
Definition pizza_arr (h : historical) : list float :=
  removelast (pizza_index h).

(** [np.array(historical['vix'][1:])] *)
Definition vix_arr (h : historical) : list float :=
  tl (vix_series h).

(** [np.corrcoef(pizza_arr, vix_arr)[0, 1]] *)
Definition correlation (h : historical) : float :=
  corrcoef (pizza_arr h) (vix_arr h).

Definition spike_count (h : historical) : Z :=
  count_spikes (pizza_index h).

End Analyzer.

(** The JSON body of [/api/data]; [correlation_3] is its ["correlation"]
    key, [round(correlation, 3)]. *)
Record response := {
  timestamp : string;
  current_hour : nat;
  sensors : list sensor_row;
  market_data : market;
  response_composite_score : option float;
  response_historical : historical;
  correlation_3 : float;
  response_spike_count : Z;
  accuracy : Z;
  lead_time : string
}.

Section GetData.
Context {E : External}.

(** Everything one request reads from outside: the clock at each of
    its readings, the providers, the state of [np.random], and what the
    requests served on other threads do to that state meanwhile. *)
Record world := {
  request_time : datetime;
  populartimes_by_address : string -> Provider.outcome;
  fetch_time : string -> datetime;
  yfinance : Exn.t unit;
  vix_1mo : Exn.t (list Provider.bar);
  gold_1mo : Exn.t (list Provider.bar);
  simulation_time : datetime;
  np_random : rng;
  other_requests : nat -> rng -> rng
}.

(** The [for sensor in SENSORS] loop. *)
Fixpoint fetch_sensors (w : world) (todo : list sensor)
  : Exn.t (list sensor_row) :=
  match todo with
  | [] => Exn.Return []
  | sensor :: rest =>
      let now := fetch_time w (address sensor) in
      data <- get_live_popularity
                (populartimes_by_address w (address sensor))
                (weekday now) (hour_of now) ;;
      rows <- fetch_sensors w rest ;;
      Exn.Return (sensor_entry sensor data :: rows)
  end.

(** [get_data()], with the state of [np.random] it leaves. *)
Definition get_data (w : world) : Exn.t (response * rng) :=
  let timestamp := request_time w in
  sensors_data <- fetch_sensors w SENSORS ;;
  market_data <- get_market_data (yfinance w) (vix_1mo w) (gold_1mo w) ;;
  let composite_score := composite_score sensors_data in
  let (historical, g) :=
    generate_simulated_historical_data (other_requests w)
      (simulation_time w) (np_random w) in
  let correlation := correlation historical in
  let spike_count := spike_count historical in
  Exn.Return
    ({| timestamp := isoformat timestamp;
        current_hour := hour_of timestamp;
        sensors := sensors_data;
        market_data := market_data;
        response_composite_score := composite_score;
        response_historical := historical;
        correlation_3 := round correlation 3;
        response_spike_count := spike_count;
        accuracy := 78;
        lead_time := "~18h" |},
     g).

(** The two figures of the correlation panel, when a response is
    returned. *)
Definition correlation_figures (answer : Exn.t (response * rng))
  : option (float * Z) :=
  match answer with
  | Exn.Return (r, _) => Some (correlation_3 r, response_spike_count r)
  | Exn.Raise _ => None
  end.




End GetData.

(** ** The JavaScript of the page *)

(** [((current - usual) / usual) * 100] on JavaScript numbers. *)
Definition js_pct (current usual : Z) : float :=
  ((Py.of_Z current - Py.of_Z usual) / Py.of_Z usual * 100)%float.

(** [getAnomalyClass(current, usual)] *)
Definition getAnomalyClass (current usual : option Z) : string :=
  match current with
  | None => "anomaly-closed"
  | Some c =>
      match usual with
      | None => "anomaly-normal"
      | Some u =>
          if (u =? 0)%Z then "anomaly-normal"
          else
            let pct := js_pct c u in
            if (50 <? pct)%float then "anomaly-spike"
            else if (25 <? pct)%float then "anomaly-high"
            else if (pct <? -25)%float then "anomaly-low"
            else "anomaly-normal"
      end
  end.

(** What [getAnomalyText(current, usual)] renders: ['CLOSED'], the
    current value followed by [%], or the signed percentage with no
    decimals. *)
Inductive anomaly_text :=
| TextClosed
| TextCurrent (current : Z)
| TextPct (pct : float).

Definition getAnomalyText (current usual : option Z) : anomaly_text :=
  match current with
  | None => TextClosed
  | Some c =>
      match usual with
      | None => TextCurrent c
      | Some u => if (u =? 0)%Z then TextCurrent c else TextPct (js_pct c u)
      end
  end.

(** The class and the title [updateAlertBanner(score)] gives the
    banner. *)
Record banner := { className : string; title : string }.

Definition updateAlertBanner (score : option float) : banner :=
  match score with
  | None =>
      {| className := "normal"; title := "SENSORS OFFLINE" |}
  | Some score =>
      if (50 <? score)%float then
        {| className := "critical";
           title := "RED ALERT - ANOMALY DETECTED" |}
      else if (25 <? score)%float then
        {| className := "elevated"; title := "ELEVATED ACTIVITY" |}
      else
        {| className := "normal"; title := "NORMAL OPERATIONS" |}
  end.

(** ** More of the page: [refreshData] and the charts *)

(** The value [refreshData] draws on the gauge:
    [data.composite_score !== null ? data.composite_score : 0]. *)
Definition pizzaScore (composite_score : option float) : float :=
  match composite_score with
  | Some score => score
  | None => 0%float
  end.

(** The sentence under the gauge: 'Normal activity levels', 'Sensors
    offline (locations closed)', 'SPIKE! Unusual late-night activity',
    'Elevated activity detected' or 'Below-normal activity'. *)
Inductive interpretation_text :=
| NormalActivity
| SensorsOffline
| SpikeActivity
| ElevatedActivity
| BelowNormalActivity.

Definition interpretation (composite_score : option float)
  : interpretation_text :=
  match composite_score with
  | None => SensorsOffline
  | Some score =>
      if (50 <? score)%float then SpikeActivity
      else if (25 <? score)%float then ElevatedActivity
      else if (score <? -25)%float then BelowNormalActivity
      else NormalActivity
  end.

(** [renderCorrelationChart]: the [forEach] that collects the spike
    events, from index [i] on; [data.dates[i]] is [undefined] past the end
    of [dates]. *)
Fixpoint spike_events (dates : list string) (i : nat)
    (pizza_index : list float) : list (option string * float) :=
  match pizza_index with
  | [] => []
  | val :: rest =>
      if (30 <? val)%float
      then (nth_error dates i, val) :: spike_events dates (S i) rest
      else spike_events dates (S i) rest
  end.

Definition spikeX (data : historical) : list (option string) :=
  map fst (spike_events (dates data) 0 (pizza_index data)).

Definition spikeY (data : historical) : list float :=
  map snd (spike_events (dates data) 0 (pizza_index data)).

(** [renderHourlyChart]: [colors], one per bar from index [i] on; [true]
    is the highlight colour, given when [i === currentHour]. *)
Fixpoint colors_from (i : nat) (hourlyData : list Z)
    (currentHour : option nat) : list bool :=
  match hourlyData with
  | [] => []
  | _ :: rest =>
      match currentHour with
      | Some h => Nat.eqb i h
      | None => false
      end :: colors_from (S i) rest currentHour
  end.

Definition colors (hourlyData : list Z) (currentHour : option nat)
  : list bool :=
  colors_from 0 hourlyData currentHour.

(** [layout.annotations]: the hour and height of the NOW mark,
    [hourlyData[currentHour] || 0], when [currentHour !== null]. *)
Definition annotations (hourlyData : list Z) (currentHour : option nat)
  : list (nat * Z) :=
  match currentHour with
  | Some h => [(h, Py.get (nth_error hourlyData h) 0%Z)]
  | None => []
  end.

(** The data [refreshData] hands to [renderHourlyChart]: the first
    sensor's [today_hourly] when it is not empty; [None] stands for the
    random placeholder drawn otherwise. *)
Definition hourly_chart_data (sensors : list sensor_row)
  : option (list Z) :=
  match sensors with
  | first :: _ =>
      match row_today_hourly first with
      | [] => None
      | hourly => Some hourly
      end
  | [] => None
  end.

End Dashboard.

(* ================================================================== *)
(** * test_scraper.py *)
(* ================================================================== *)

Module TestScraper.

(** ** [calculate_trend] *)

Inductive trend_level :=
| SPIKE | ELEVATED | ABOVE_NORMAL | VERY_LOW | BELOW_NORMAL | NORMAL.

(** What the returned string says: ["CLOSED/NO DATA"],
    ["Live: {current} (no baseline)"], or the percentage (printed with
    no decimals) followed by its level. *)
Inductive trend :=
| CLOSED_NO_DATA
| LIVE_NO_BASELINE (current : Z)
| TREND (pct_change : float) (level : trend_level).

Definition calculate_trend (current usual : option Z) : trend :=
  match current with
  | None => CLOSED_NO_DATA
  | Some c =>
      match usual with
      | None => LIVE_NO_BASELINE c
      | Some u =>
          if (u =? 0)%Z then LIVE_NO_BASELINE c
          else
            let pct_change := (Py.truediv (c - u) u * 100)%float in
            TREND pct_change
              (if (50 <? pct_change)%float then SPIKE
               else if (25 <? pct_change)%float then ELEVATED
               else if (10 <? pct_change)%float then ABOVE_NORMAL
               else if (pct_change <? -25)%float then VERY_LOW
               else if (pct_change <? -10)%float then BELOW_NORMAL
               else NORMAL)
      end
  end.

(** ** The composite section of [generate_report] *)

(** One entry of [sensor_results]; an entry recorded after a failed
    fetch has neither [current], [usual] nor [indicator_type]. *)
Record sensor_result := {
  sensor : string;
  role : string;
  current : option Z;
  usual : option Z;
  indicator_type : option string
}.

Inductive alert := RED_ALERT | ELEVATED_ALERT | WATCH | QUIET | NORMAL_ALERT.

(** What the section prints: one of the two "Cannot calculate" notices,
    or the score and its status. *)
Inductive composite :=
| NoLiveData
| NoBaselineData
| Composite (avg_anomaly : float) (status : alert).

(** [s.get('current') is not None] *)
Definition has_current (s : sensor_result) : bool :=
  match current s with Some _ => true | None => false end.

(** [s.get('indicator_type') == 'inverse'] *)
Definition is_inverse (s : sensor_result) : bool :=
  match indicator_type s with
  | Some t => String.eqb t "inverse"
  | None => false
  end.

(** The body of [for s in active_sensors]: the percentage appended to
    [pizza_anomaly_scores], or [None] when the [if] skips the sensor.
    A sensor of [active_sensors] has a current value. *)
Definition anomaly_pct (s : sensor_result) : option float :=
  match usual s, current s with
  | Some u, Some c =>
      if negb (u =? 0)%Z && (0 <? u)%Z then
        let pct := (Py.truediv (c - u) u * 100)%float in
        Some (if is_inverse s then (- pct)%float else pct)
      else None
  | _, _ => None
  end.

Fixpoint pizza_anomaly_scores (active_sensors : list sensor_result)
  : list float :=
  match active_sensors with
  | [] => []
  | s :: rest =>
      match anomaly_pct s with
      | Some pct => pct :: pizza_anomaly_scores rest
      | None => pizza_anomaly_scores rest
      end
  end.

Definition status_of (avg_anomaly : float) : alert :=
  if (50 <? avg_anomaly)%float then RED_ALERT
  else if (25 <? avg_anomaly)%float then ELEVATED_ALERT
  else if (10 <? avg_anomaly)%float then WATCH
  else if (avg_anomaly <? -25)%float then QUIET
  else NORMAL_ALERT.

Definition composite_index (sensor_results : list sensor_result)
  : composite :=
  match filter has_current sensor_results with
  | [] => NoLiveData
  | active_sensors =>
      match pizza_anomaly_scores active_sensors with
      | [] => NoBaselineData
      | scores =>
          let avg_anomaly :=
            (Py.sum scores / Py.of_Z (Py.len scores))%float in
          Composite avg_anomaly (status_of avg_anomaly)
      end
  end.

(** The printed [COMPOSITE ANOMALY SCORE], when there is one. *)
Definition avg_anomaly_of (c : composite) : option float :=
  match c with
  | Composite avg _ => Some avg
  | _ => None
  end.

(** ** [get_live_popularity] *)

(** One entry of [SENSORS]. *)
Module Sensor.
Record t := {
  name : string;
  place_id : string;
  address : option string;
  role : string;
  indicator_type : string
}.
End Sensor.

Definition SENSORS : list Sensor.t := [
  {| Sensor.name := "Domino's Pizza (Crystal City)";
     Sensor.place_id := "ChIJiRsMcTKxt4kRb9rj3ZyTt-M";
     Sensor.address :=
       Some "Domino's Pizza Crystal City Arlington VA"%string;
     Sensor.role := "Primary";
     Sensor.indicator_type := "pizza_spike" |};
  {| Sensor.name := "Freddie's Beach Bar";
     Sensor.place_id := "ChIJlxXYvim3t4kR4MCE7Wn3AqI";
     Sensor.address :=
       Some "Freddie's Beach Bar Crystal City Arlington VA"%string;
     Sensor.role := "Inverse";
     Sensor.indicator_type := "inverse" |}
].

(** The dict returned with [has_data] true (the address the provider
    gives is left out). *)
Record reading := {
  current_popularity : option Z;
  usual_popularity : option Z;
  place_name : option string;
  rating : option float;
  day : option string;
  hour : nat
}.

Inductive popularity :=
| NoData (error : string)
| HasData (r : reading).

(** [populartimes[day_of_week]['name'] if populartimes else None]: an
    index past the end of a non-empty list raises IndexError, an entry
    without the key raises KeyError.  [day_name] is the ['name'] key of an
    entry, [None] when the entry has no such key. *)
Definition day_entry_of (day_name : Provider.day_entry -> option string)
    (populartimes : option (list Provider.day_entry))
    (day_of_week : nat) : Exn.t (option string) :=
  match populartimes with
  | None | Some [] => Exn.Return None
  | Some days =>
      match nth_error days day_of_week with
      | Some entry =>
          match day_name entry with
          | Some n => Exn.Return (Some n)
          | None => Exn.Raise "'name'"
          end
      | None => Exn.Raise "list index out of range"
      end
  end.

(** The [try] body after the provider has answered. *)
Definition read_place (day_name : Provider.day_entry -> option string)
    (data : option Provider.place)
    (day_of_week hour : nat) : Exn.t popularity :=
  match data with
  | None => Exn.Return (NoData "No data returned from API")
  | Some d =>
      let current_pop := Provider.current_popularity d in
      let populartimes := Provider.populartimes d in
      let usual_pop :=
        match Provider.day_series populartimes day_of_week with
        | Some day_data => nth_error day_data hour
        | None => None
        end in
      day <- day_entry_of day_name populartimes day_of_week ;;
      Exn.Return
        (HasData {| current_popularity := current_pop;
                    usual_popularity := usual_pop;
                    place_name := Provider.name d;
                    rating := Provider.rating d;
                    day := day;
                    hour := hour |})
  end.

(** [get_live_popularity(place_id, address)]: [livepopulartimes] is what
    the import does (a failure is the ImportError), [fetch] the provider,
    called only when [address] is a non-empty string. *)
Definition get_live_popularity
    (day_name : Provider.day_entry -> option string)
    (livepopulartimes : Exn.t unit)
    (fetch : string -> Provider.outcome) (address : option string)
    (day_of_week hour : nat) : Exn.t popularity :=
  match livepopulartimes with
  | Exn.Raise _ => Exn.Return (NoData "livepopulartimes not installed")
  | Exn.Return _ =>
      Exn.try_except
        (match address with
         | Some query =>
             if String.eqb query "" then
               Exn.Return
                 (NoData "No address provided and API key required for Place ID lookup")
             else
               data <- fetch query ;;
               read_place day_name data day_of_week hour
         | None =>
             Exn.Return
               (NoData "No address provided and API key required for Place ID lookup")
         end)
        (fun e => Exn.Return (NoData e))
  end.

(** The entry [generate_report] appends to [sensor_results] for one
    sensor. *)
Definition sensor_entry (s : Sensor.t) (data : popularity)
  : sensor_result :=
  match data with
  | HasData r =>
      {| sensor := Sensor.name s;
         role := Sensor.role s;
         current := current_popularity r;
         usual := usual_popularity r;
         indicator_type := Some (Sensor.indicator_type s) |}
  | NoData _ =>
      {| sensor := Sensor.name s;
         role := Sensor.role s;
         current := None;
         usual := None;
         indicator_type := None |}
  end.

(** The [for sensor in SENSORS] loop of [generate_report]; the clock is
    read inside each call. *)
Fixpoint collect_sensor_results
    (day_name : Provider.day_entry -> option string)
    (livepopulartimes : Exn.t unit)
    (fetch : string -> Provider.outcome) (clock : string -> nat * nat)
    (todo : list Sensor.t) : Exn.t (list sensor_result) :=
  match todo with
  | [] => Exn.Return []
  | s :: rest =>
      let now := clock (Sensor.name s) in
      data <- get_live_popularity day_name livepopulartimes fetch
                (Sensor.address s) (fst now) (snd now) ;;
      results <- collect_sensor_results day_name livepopulartimes fetch clock
                   rest ;;
      Exn.Return (sensor_entry s data :: results)
  end.

(** ** [get_market_data] *)

Record market_result := {
  vix : option float;
  gold : option float;
  vix_change : option float;
  gold_change : option float;
  errors : list string
}.

Inductive market :=
| MarketNoData (error : string)
| MarketData (r : market_result).

Section Market.
Context {E : External}.

(** [round(hist['Close'].iloc[-1], 2)] *)
Definition last_close (last : Provider.bar) : float :=
  round (Provider.close last) 2.

(** [round((Close[-1] - Open[0]) / Open[0] * 100, 2)] *)
Definition day_change (first last : Provider.bar) : float :=
  round ((Provider.close last - Provider.open first)
           / Provider.open first * 100)%float 2.

(** The inner [try] for ["^VIX"]. *)
Definition fetch_vix (history : Exn.t (list Provider.bar))
    (result : market_result) : Exn.t market_result :=
  Exn.try_except
    (vix_hist <- history ;;
     match vix_hist, rev vix_hist with
     | first :: _, last :: _ =>
         Exn.Return
           {| vix := Some (last_close last);
              gold := gold result;
              vix_change := Some (day_change first last);
              gold_change := gold_change result;
              errors := errors result |}
     | _, _ => Exn.Return result                     (* vix_hist.empty *)
     end)
    (fun e =>
       Exn.Return
         {| vix := vix result;
            gold := gold result;
            vix_change := vix_change result;
            gold_change := gold_change result;
            errors := errors result ++ [("VIX: " ++ e)%string] |}).

(** The inner [try] for ["GC=F"]. *)
Definition fetch_gold (history : Exn.t (list Provider.bar))
    (result : market_result) : Exn.t market_result :=
  Exn.try_except
    (gold_hist <- history ;;
     match gold_hist, rev gold_hist with
     | first :: _, last :: _ =>
         Exn.Return
           {| vix := vix result;
              gold := Some (last_close last);
              vix_change := vix_change result;
              gold_change := Some (day_change first last);
              errors := errors result |}
     | _, _ => Exn.Return result                     (* gold_hist.empty *)
     end)
    (fun e =>
       Exn.Return
         {| vix := vix result;
            gold := gold result;
            vix_change := vix_change result;
            gold_change := gold_change result;
            errors := errors result ++ [("Gold: " ++ e)%string] |}).

(** [get_market_data()]: [yfinance] is what the import does, the two
    histories what [Ticker(...).history(period="1d")] does. *)
Definition get_market_data (yfinance : Exn.t unit)
    (vix_1d gold_1d : Exn.t (list Provider.bar)) : Exn.t market :=
  match yfinance with
  | Exn.Raise _ => Exn.Return (MarketNoData "yfinance not installed")
  | Exn.Return _ =>
      Exn.try_except
        (let result := {| vix := None; gold := None; vix_change := None;
                          gold_change := None; errors := [] |} in
         result <- fetch_vix vix_1d result ;;
         result <- fetch_gold gold_1d result ;;
         Exn.Return (MarketData result))
        (fun e => Exn.Return (MarketNoData e))
  end.

End Market.

End TestScraper.

(* ================================================================== *)
(** * robust_scraper_poc.py *)
(* ================================================================== *)

Module RobustScraper.

Record target := {
  id : string;
  name : string;
  address_query : string;
  role : string;
  type : string
}.

Definition TARGETS : list target := [
  {| id := "A"; name := "Domino's Pizza (Eads St)";
     address_query := "Domino's Pizza 1500 S Eads St Arlington VA 22202";
     role := "Primary"; type := "pizza" |};
  {| id := "B"; name := "Papa John's Pizza (Columbia Pike)";
     address_query :=
       "Papa John's Pizza 3405 Columbia Pike Arlington VA 22204";
     role := "Secondary"; type := "pizza" |};
  {| id := "C"; name := "Freddie's Beach Bar";
     address_query := "Freddie's Beach Bar 555 23rd St S Arlington VA 22202";
     role := "Inverse"; type := "bar" |}
].

(** The [signal] string: the three deviation signals carry the change
    they print (with no decimals). *)
Inductive signal :=
| NORMAL
| SPIKE_DETECTED (change : float)
| ELEVATED (change : float)
| LOW_ACTION (change : float)
| NO_LIVE_SIGNAL.

(** The section [# Determine signal]: the signal and [percent_change]. *)
Definition determine_signal (current : option Z) (historical : Z)
  : signal * float :=
  match current with
  | Some c =>
      if (0 <? historical)%Z then
        let change := (Py.truediv (c - historical) historical * 100)%float in
        (if (50 <? change)%float then SPIKE_DETECTED change
         else if (25 <? change)%float then ELEVATED change
         else if (change <? -25)%float then LOW_ACTION change
         else NORMAL,
         change)
      else (NORMAL, Py.of_Z 0)
  | None => (NO_LIVE_SIGNAL, Py.of_Z 0)
  end.

(** The dict returned with status ["ONLINE"]; a [live] of [None] is the
    string ["N/A"]. *)
Record online := {
  place_id : option string;
  official_name : option string;
  live : option Z;
  historical : Z;
  online_signal : signal;
  rating : option float
}.

Inductive result :=
| OFFLINE (reason : string)
| ONLINE (r : online)
| ERROR (reason : string).

(** [historical]: today's value for this hour, [0] without one. *)
Definition historical_average (populartimes : option (list Provider.day_entry))
    (day_idx hour_idx : nat) : Z :=
  match Provider.day_series populartimes day_idx with
  | Some day_data => Py.get (nth_error day_data hour_idx) 0%Z
  | None => 0%Z
  end.

(** [fetch_sensor_data(target)]: [fetched] is what the provider call for
    [target['address_query']] does. *)
Definition fetch_sensor_data (target : target) (fetched : Provider.outcome)
    (day_idx hour_idx : nat) : Exn.t result :=
  Exn.try_except
    (data <- fetched ;;
     match data with
     | None => Exn.Return (OFFLINE "No data returned by Google")
     | Some d =>
         let current := Provider.current_popularity d in
         let historical :=
           historical_average (Provider.populartimes d) day_idx hour_idx in
         Exn.Return
           (ONLINE {| place_id := Provider.place_id d;
                      official_name := Provider.name d;
                      live := current;
                      historical := historical;
                      online_signal :=
                        fst (determine_signal current historical);
                      rating := Provider.rating d |})
     end)
    (fun e => Exn.Return (ERROR e)).

(** ** [fetch_market_data] *)

(** [bool(x)] of a float: only a zero is falsy. *)
Definition truthy (x : float) : bool := negb (x =? 0)%float.

(** The returned dict: the two rounded prices, or ["Error"] twice with
    the message. *)
Inductive market_report :=
| Prices (vix gold : float)
| MarketError (msg : string).

(** [t.history(period='1d')['Close'].iloc[-1]]; on an empty frame
    [iloc[-1]] raises IndexError. *)
Definition last_close (history : Exn.t (list Provider.bar)) : Exn.t float :=
  hist <- history ;;
  match rev hist with
  | last :: _ => Exn.Return (Provider.close last)
  | [] => Exn.Raise "single positional indexer is out-of-bounds"
  end.

(** [t.info.get('regularMarketPrice') or <last close>]: the history is
    fetched only when the quoted price is missing or zero. *)
Definition market_price (info : Exn.t (option float))
    (history : Exn.t (list Provider.bar)) : Exn.t float :=
  quoted <- info ;;
  match quoted with
  | Some price => if truthy price then Exn.Return price
                  else last_close history
  | None => last_close history
  end.

Section Market.
Context {E : External}.

Definition fetch_market_data
    (vix_info : Exn.t (option float)) (vix_1d : Exn.t (list Provider.bar))
    (gold_info : Exn.t (option float)) (gold_1d : Exn.t (list Provider.bar))
  : Exn.t market_report :=
  Exn.try_except
    (vix_price <- market_price vix_info vix_1d ;;
     gold_price <- market_price gold_info gold_1d ;;
     Exn.Return (Prices (round vix_price 2) (round gold_price 2)))
    (fun e => Exn.Return (MarketError e)).

End Market.

(** ** [main] and [print_report] *)

(** The [for target in TARGETS] loop of [main] (the delay between two
    fetches is left out); the clock is read inside each call. *)
Fixpoint fetch_all (fetch : string -> Provider.outcome)
    (clock : string -> nat * nat) (todo : list target)
  : Exn.t (list result) :=
  match todo with
  | [] => Exn.Return []
  | t :: rest =>
      let now := clock (address_query t) in
      res <- fetch_sensor_data t (fetch (address_query t))
               (fst now) (snd now) ;;
      results <- fetch_all fetch clock rest ;;
      Exn.Return (res :: results)
  end.

(** The loop of [print_report]: result [i] is printed under
    [TARGETS[i]], an index past the end of [TARGETS] raising
    IndexError. *)
Fixpoint report_entries (i : nat) (sensor_results : list result)
  : Exn.t (list (target * result)) :=
  match sensor_results with
  | [] => Exn.Return []
  | res :: rest =>
      match nth_error TARGETS i with
      | Some t =>
          entries <- report_entries (S i) rest ;;
          Exn.Return ((t, res) :: entries)
      | None => Exn.Raise "list index out of range"
      end
  end.

(** What [main] prints in the sensor report. *)
Definition main_report (fetch : string -> Provider.outcome)
    (clock : string -> nat * nat) : Exn.t (list (target * result)) :=
  results <- fetch_all fetch clock TARGETS ;;
  report_entries 0 results.

End RobustScraper.

(* ================================================================== *)
(** * The specification's components, in its own words *)
(* ================================================================== *)

(** These definitions follow sections 3 and 4 of the specification, not the
    code; the theorems below compare the code with them. *)
Module Spec.

Inductive polarity := Normal | Inverse.
Inductive provenance := live | imputed | unavailable.
Inductive label := spike | elevated | normal | low | closed.
Inductive tier := critical | tier_elevated | tier_normal | offline.

(** ** 4.1 Reading Normalizer *)

(** Scan [series] backward over [steps] indices starting at [from]; the
    first strictly positive value found, with its index. *)
Fixpoint scan_back (series : list Z) (from steps : nat)
  : option (Z * nat) :=
  match steps with
  | O => None
  | S k =>
      match nth_error series from with
      | Some v =>
          if (0 <? v)%Z then Some (v, from)
          else scan_back series (Nat.pred from) k
      | None => scan_back series (Nat.pred from) k
      end
  end.

Definition normalize (current : option Z) (hourly_series : list Z)
    (current_hour : nat) (previous_day_evening : option (list Z))
  : option Z * provenance * option nat :=
  match current with
  | Some c => (Some c, live, None)
  | None =>
      (* current_hour down to 0 inclusive *)
      match scan_back hourly_series current_hour (S current_hour) with
      | Some (v, h) => (Some v, imputed, Some h)
      | None =>
          match previous_day_evening with
          | Some evening =>
              (* hours 23 down to 18 inclusive *)
              match scan_back evening 23 6 with
              | Some (v, h) => (Some v, imputed, Some h)
              | None => (None, unavailable, None)
              end
          | None => (None, unavailable, None)
          end
      end
  end.

(** ** 4.2 Anomaly Scorer *)

(** [pct = (current - baseline) / baseline * 100], negated for an
    inverse indicator. *)
Definition percentage (current baseline : Z) (p : polarity) : float :=
  let pct := (Py.truediv (current - baseline) baseline * 100)%float in
  match p with
  | Inverse => (- pct)%float
  | Normal => pct
  end.

(** [>50 -> spike], [>25 -> elevated], [<-25 -> low], else [normal]. *)
Definition classify (pct : float) : label :=
  if (50 <? pct)%float then spike
  else if (25 <? pct)%float then elevated
  else if (pct <? -25)%float then low
  else normal.

Record anomaly_result := {
  reported_current : option Z;
  anomaly_pct : option float;
  anomaly_label : label
}.

Definition score (current baseline : option Z) (p : polarity)
  : anomaly_result :=
  match current with
  | None =>
      {| reported_current := None; anomaly_pct := None;
         anomaly_label := closed |}
  | Some c =>
      match baseline with
      | None =>
          {| reported_current := Some c; anomaly_pct := None;
             anomaly_label := normal |}
      | Some b =>
          if (b =? 0)%Z then
            {| reported_current := Some c; anomaly_pct := None;
               anomaly_label := normal |}
          else
            {| reported_current := Some c;
               anomaly_pct := Some (percentage c b p);
               anomaly_label := classify (percentage c b p) |}
      end
  end.

(** ** 4.3 Composite Aggregator *)

Record sensor := {
  current : option Z;
  baseline : option Z;
  polarity_of : polarity
}.

(** The percentages of the sensors with [current is not None and
    baseline is not None and baseline > 0], in order. *)
Fixpoint included (sensors : list sensor) : list float :=
  match sensors with
  | [] => []
  | s :: rest =>
      match current s, baseline s with
      | Some c, Some b =>
          if (0 <? b)%Z
          then percentage c b (polarity_of s) :: included rest
          else included rest
      | _, _ => included rest
      end
  end.

(** Absent when nothing is included, else the arithmetic mean. *)
Definition aggregate (sensors : list sensor) : option float :=
  match included sensors with
  | [] => None
  | pcts => Some (Py.mean pcts)
  end.

(** ** 4.4 Correlation Analyzer *)

(** [signal_series[0 : n-lag]] and [proxy_series[lag : n]]. *)
Definition aligned (signal_series proxy_series : list float) (lag : nat)
  : list float * list float :=
  (firstn (List.length signal_series - lag) signal_series,
   skipn lag proxy_series).

End Spec.

(* ================================================================== *)
(** * Reading the code's results in the specification's vocabulary *)
(* ================================================================== *)

Module Reading.

(** The provenance of what the fallback section leaves: imputed when
    [is_fallback] is set, else live or unavailable by whether there is a
    current value. *)
Definition provenance (st : Dashboard.fallback_state) : Spec.provenance :=
  if Dashboard.is_using_fallback st then Spec.imputed
  else match Dashboard.current_pop st with
       | Some _ => Spec.live
       | None => Spec.unavailable
       end.

Definition normalized (st : Dashboard.fallback_state)
  : option Z * Spec.provenance * option nat :=
  (Dashboard.current_pop st, provenance st, Dashboard.fallback_hour st).

(** The alert tier a banner shows. *)
Definition tier (b : Dashboard.banner) : Spec.tier :=
  if String.eqb (Dashboard.title b) "SENSORS OFFLINE" then Spec.offline
  else if String.eqb (Dashboard.className b) "critical" then Spec.critical
  else if String.eqb (Dashboard.className b) "elevated"
       then Spec.tier_elevated
  else Spec.tier_normal.

(** The label a signal of [fetch_sensor_data] stands for. *)
Definition label (s : RobustScraper.signal) : Spec.label :=
  match s with
  | RobustScraper.NORMAL => Spec.normal
  | RobustScraper.SPIKE_DETECTED _ => Spec.spike
  | RobustScraper.ELEVATED _ => Spec.elevated
  | RobustScraper.LOW_ACTION _ => Spec.low
  | RobustScraper.NO_LIVE_SIGNAL => Spec.closed
  end.

(** The percentage and the current value an anomaly text shows. *)
Definition text_pct (t : Dashboard.anomaly_text) : option float :=
  match t with Dashboard.TextPct pct => Some pct | _ => None end.

Definition text_current (t : Dashboard.anomaly_text) : option Z :=
  match t with Dashboard.TextCurrent c => Some c | _ => None end.

(** The percentage and the current value a trend string shows. *)
Definition trend_pct (t : TestScraper.trend) : option float :=
  match t with TestScraper.TREND pct _ => Some pct | _ => None end.

Definition trend_current (t : TestScraper.trend) : option Z :=
  match t with TestScraper.LIVE_NO_BASELINE c => Some c | _ => None end.

(** The signal of a result of [fetch_sensor_data], when it is online. *)
Definition signal_of (r : Exn.t RobustScraper.result)
  : option RobustScraper.signal :=
  match r with
  | Exn.Return (RobustScraper.ONLINE o) => Some (RobustScraper.online_signal o)
  | _ => None
  end.

(** A coefficient that is undefined (NaN) or lies in [-1, 1]. *)
Definition undefined_or_unit (r : float) : Prop :=
  (r =? r)%float = false \/
  ((-1 <=? r)%float = true /\ (r <=? 1)%float = true).

(** The polarity a role or an indicator type configures. *)
Definition role_of (p : Spec.polarity) : string :=
  match p with Spec.Inverse => "Inverse" | Spec.Normal => "Primary" end.

Definition indicator_type_of (p : Spec.polarity) : string :=
  match p with Spec.Inverse => "inverse" | Spec.Normal => "pizza_spike" end.

(** The same sensor read as a normal indicator. *)
Definition forget_polarity (s : Spec.sensor) : Spec.sensor :=
  {| Spec.current := Spec.current s;
     Spec.baseline := Spec.baseline s;
     Spec.polarity_of := Spec.Normal |}.

(** A sensor as an entry of [dashboard.py]'s [sensors_data]. *)
Definition dashboard_row (s : Spec.sensor) : Dashboard.sensor_row :=
  {| Dashboard.row_name := "sensor";
     Dashboard.row_role := role_of (Spec.polarity_of s);
     Dashboard.current := Spec.current s;
     Dashboard.usual := Spec.baseline s;
     Dashboard.row_today_hourly := [];
     Dashboard.row_is_fallback := false;
     Dashboard.row_fallback_hour := None |}.

(** A sensor as an entry of [test_scraper.py]'s [sensor_results]. *)
Definition scraper_result (s : Spec.sensor) : TestScraper.sensor_result :=
  {| TestScraper.sensor := "sensor";
     TestScraper.role := role_of (Spec.polarity_of s);
     TestScraper.current := Spec.current s;
     TestScraper.usual := Spec.baseline s;
     TestScraper.indicator_type :=
       Some (indicator_type_of (Spec.polarity_of s)) |}.

(** A target of [robust_scraper_poc.py] with the given polarity. *)
Definition target (p : Spec.polarity) : RobustScraper.target :=
  {| RobustScraper.id := "C";
     RobustScraper.name := "sensor";
     RobustScraper.address_query := "sensor";
     RobustScraper.role := role_of p;
     RobustScraper.type :=
       match p with Spec.Inverse => "bar" | Spec.Normal => "pizza" end |}.

(** A provider answer whose current value is [current] and whose value
    for day 0, hour 0 is [historical]. *)
Definition place (current : option Z) (historical : Z) : Provider.place :=
  {| Provider.place_id := None;
     Provider.name := None;
     Provider.rating := None;
     Provider.current_popularity := current;
     Provider.populartimes :=
       Some [ {| Provider.day_data := Some [historical] |} ] |}.

(** The label a trend of [calculate_trend] stands for: the two finer
    levels around normal count as normal. *)
Definition trend_label (t : TestScraper.trend) : Spec.label :=
  match t with
  | TestScraper.CLOSED_NO_DATA => Spec.closed
  | TestScraper.LIVE_NO_BASELINE _ => Spec.normal
  | TestScraper.TREND _ TestScraper.SPIKE => Spec.spike
  | TestScraper.TREND _ TestScraper.ELEVATED => Spec.elevated
  | TestScraper.TREND _ TestScraper.VERY_LOW => Spec.low
  | TestScraper.TREND _ _ => Spec.normal
  end.

(** The label a class of [getAnomalyClass] stands for. *)
Definition class_label (c : string) : Spec.label :=
  if String.eqb c "anomaly-closed" then Spec.closed
  else if String.eqb c "anomaly-spike" then Spec.spike
  else if String.eqb c "anomaly-high" then Spec.elevated
  else if String.eqb c "anomaly-low" then Spec.low
  else Spec.normal.

(** A provider call that gives no reading: it raises or returns
    nothing. *)
Definition no_reading (o : Provider.outcome) : bool :=
  match o with
  | Exn.Raise _ | Exn.Return None => true
  | Exn.Return (Some _) => false
  end.

(** Every pair of a current value [0..100] and a baseline [1..100]
    passes the check [ok]. *)
Definition on_busyness_scale (ok : Z -> Z -> bool) : bool :=
  forallb (fun c => forallb (fun u => ok (Z.of_nat c) (Z.of_nat u))
                      (seq 1 100))
          (seq 0 101).

End Reading.

(* ================================================================== *)
(** * A runnable instance of the external collaborators *)
(* ================================================================== *)

(** [numpy]'s [corrcoef] for two one-dimensional arrays, as its source
    computes entry [0, 1] (covariance with [ddof=1], division by the two
    standard deviations, clipping to [-1, 1]), with sums taken left to
    right; and small stand-ins for the clock, the generator and [round].
    They serve to run the definitions above on concrete data, and the
    Pearson to state what a series without variance yields. *)
Module Numpy.

Definition mean (xs : list float) : float :=
  (fold_left PrimFloat.add xs 0 / Py.of_Z (Py.len xs))%float.

Definition dot (xs ys : list float) : float :=
  fold_left PrimFloat.add
    (map (fun p => (fst p * snd p)%float) (combine xs ys)) 0%float.

(** [np.clip(x, lo, hi)]; a NaN passes through. *)
Definition clip (lo hi x : float) : float :=
  if (x <? lo)%float then lo else if (hi <? x)%float then hi else x.

(** [fact] is [N - ddof]; [cov] replaces a value that is not positive by
    [0.0], with a warning. *)
Definition corrcoef_0_1 (xs ys : list float) : float :=
  let mx := mean xs in
  let my := mean ys in
  let dx := map (fun x => (x - mx)%float) xs in
  let dy := map (fun y => (y - my)%float) ys in
  let fact := if (Py.len xs - 1 <=? 0)%Z then 0%float
              else Py.of_Z (Py.len xs - 1) in
  let cov (a b : list float) := (dot a b * (1 / fact))%float in
  clip (-1) 1 (cov dx dy / sqrt (cov dx dx) / sqrt (cov dy dy))%float.






(** A linear congruential generator standing in for [np.random]. *)
Definition next (g : Z) : Z := ((g * 75 + 74) mod 65537)%Z.

Definition unit_draw (g : Z) : float :=
  (Py.of_Z (g mod 64) / 64)%float.

#[export] Instance standin : External := {|
  datetime := nat * nat;
  weekday := fst;
  hour_of := snd;
  isoformat := fun _ => "now"%string;
  date_days_ago := fun _ _ => "day"%string;
  rng := Z;
  seed := fun n => n;
  normal := fun loc scale g =>
    ((loc + scale * (2 * unit_draw g - 1))%float, next g);
  uniform := fun low high g =>
    ((low + (high - low) * unit_draw g)%float, next g);
  round := fun x _ => x;
  corrcoef := corrcoef_0_1
|}.

End Numpy.

(* ================================================================== *)
(** * find_places.py *)
(* ================================================================== *)

Module FindPlaces.

(** One entry of [SEARCH_LOCATIONS]. *)
Record location := { name : string; query : string }.

Definition SEARCH_LOCATIONS : list location := [
  (* Pizza Chains *)
  {| name := "Domino's Pizza Crystal City";
     query := "Domino's Pizza Crystal City Arlington VA" |};
  {| name := "Domino's Pizza Pentagon City";
     query := "Domino's Pizza Pentagon City Arlington VA" |};
  {| name := "Papa John's Columbia Pike";
     query := "Papa John's Pizza Columbia Pike Arlington VA" |};
  {| name := "Papa John's Pentagon City";
     query := "Papa John's Pentagon City Arlington VA" |};
  {| name := "Pizza Hut Arlington";
     query := "Pizza Hut Arlington VA Pentagon" |};
  {| name := "Little Caesars Arlington";
     query := "Little Caesars Pizza Arlington VA" |};
  (* Local Pizza Shops *)
  {| name := "Wiseguy Pizza Pentagon";
     query := "Wiseguy Pizza Pentagon City Arlington VA" |};
  {| name := "Pete's New Haven Pizza";
     query := "Pete's New Haven Style Apizza Arlington VA" |};
  {| name := "Mia's Italian Kitchen";
     query := "Mia's Italian Kitchen Arlington VA" |};
  {| name := "Pupatella Pentagon";
     query := "Pupatella Neapolitan Pizza Arlington VA" |};
  {| name := "We The Pizza Capitol Hill";
     query := "We The Pizza Capitol Hill Washington DC" |};
  (* Late Night Food Options *)
  {| name := "McDonald's Pentagon City";
     query := "McDonald's Pentagon City Arlington VA" |};
  {| name := "Taco Bell Crystal City";
     query := "Taco Bell Crystal City Arlington VA" |};
  {| name := "Five Guys Pentagon";
     query := "Five Guys Pentagon City Arlington VA" |};
  (* Bars (Inverse Indicators) *)
  {| name := "Freddie's Beach Bar";
     query := "Freddie's Beach Bar Crystal City Arlington VA" |};
  {| name := "Crystal City Sports Pub";
     query := "Crystal City Sports Pub Arlington VA" |}
].

(** The keys of the provider's dict [search_place] reads. *)
Record place := {
  place_name : option string;
  place_address : option string;
  place_rating : option float;
  place_populartimes : option (list Provider.day_entry)
}.

(** The truth value of [data.get('name')] and of
    [data.get('populartimes')]. *)
Definition has_name (d : place) : bool :=
  match place_name d with
  | Some n => negb (String.eqb n "")
  | None => false
  end.

Definition has_times (d : place) : bool :=
  match place_populartimes d with
  | Some (_ :: _) => true
  | _ => false
  end.

(** The dict [search_place] returns. *)
Inductive search_result :=
| Failure (error : string)
| Success (found_name : option string) (address : option string)
          (rating : option float) (has_populartimes : bool).

(** [search_place(query)]: [fetched] is what the provider call for
    [query] does. *)
Definition search_place (fetched : Exn.t (option place))
  : Exn.t search_result :=
  Exn.try_except
    (data <- fetched ;;
     match data with
     | Some d =>
         if has_name d && has_times d then
           Exn.Return (Success (place_name d) (place_address d)
                         (place_rating d) true)
         else if has_name d then
           Exn.Return (Success (place_name d) (place_address d)
                         (place_rating d) false)
         else Exn.Return (Failure "No data")
     | None => Exn.Return (Failure "No data")
     end)
    (fun e => Exn.Return (Failure e)).

(** One entry of [discovered]. *)
Record discovery := {
  search_name : string;
  search_query : string;
  found_name : option string;
  address : option string;
  rating : option float;
  has_populartimes : bool
}.

(** The [for location in SEARCH_LOCATIONS] loop of [main]. *)
Fixpoint discover (provider : string -> Exn.t (option place))
    (todo : list location) : Exn.t (list discovery) :=
  match todo with
  | [] => Exn.Return []
  | loc :: rest =>
      result <- search_place (provider (query loc)) ;;
      discovered <- discover provider rest ;;
      match result with
      | Success n a r t =>
          Exn.Return
            ({| search_name := name loc; search_query := query loc;
                found_name := n; address := a; rating := r;
                has_populartimes := t |} :: discovered)
      | Failure _ => Exn.Return discovered
      end
  end.

(** What [main] saves, and the sensors whose configuration it prints
    ([valid_sensors[:10]]). *)
Record output := {
  total_searched : Z;
  total_found : Z;
  valid_sensors : Z;
  locations : list discovery;
  printed : list discovery
}.

Definition main (provider : string -> Exn.t (option place))
  : Exn.t output :=
  discovered <- discover provider SEARCH_LOCATIONS ;;
  let valid := filter has_populartimes discovered in
  Exn.Return
    {| total_searched := Py.len SEARCH_LOCATIONS;
       total_found := Py.len discovered;
       valid_sensors := Py.len valid;
       locations := discovered;
       printed := firstn 10 valid |}.

End FindPlaces.

(* ================================================================== *)
(** * setup_env.py *)
(* ================================================================== *)

(** The Python installation the script runs in: which modules import,
    and what [pip install] does to it ([false] is the
    CalledProcessError of a failed run). *)
Class System := {
  installation : Type;
  importable : installation -> string -> bool;
  pip_install : string -> installation -> bool * installation
}.

Module SetupEnv.

Section Setup.
Context {S : System}.

(** [check_package(package_name, import_name)]; an [import_name] that is
    [None] or empty stands for [package_name]. *)
Definition check_package (env : installation) (package_name : string)
    (import_name : option string) : bool :=
  let import_name :=
    match import_name with
    | Some n => if String.eqb n "" then package_name else n
    | None => package_name
    end in
  importable env import_name.

(** [install_package(package_name)], with the installation it leaves. *)
Definition install_package (env : installation) (package_name : string)
  : bool * installation :=
  pip_install package_name env.

Definition required_packages : list (string * string) :=
  [ ("livepopulartimes", "livepopulartimes");
    ("yfinance", "yfinance");
    ("requests", "requests") ]%string.

(** What the loop of [main] carries: the installation, [all_success],
    and the packages handed to pip so far. *)
Record progress := {
  env : installation;
  all_success : bool;
  installed : list string
}.

(** The body of [for pip_name, import_name in required_packages]. *)
Definition step (st : progress) (package : string * string) : progress :=
  let (pip_name, import_name) := package in
  if check_package (env st) pip_name (Some import_name) then st
  else
    let (ok, env') := install_package (env st) pip_name in
    if negb ok then
      {| env := env'; all_success := false;
         installed := installed st ++ [pip_name] |}
    else if check_package env' pip_name (Some import_name) then
      {| env := env'; all_success := all_success st;
         installed := installed st ++ [pip_name] |}
    else
      {| env := env'; all_success := false;
         installed := installed st ++ [pip_name] |}.

Definition run (start : installation) : progress :=
  fold_left step required_packages
    {| env := start; all_success := true; installed := [] |}.

(** [main()]: the exit code. *)
Definition main (start : installation) : Z :=
  if all_success (run start) then 0%Z else 1%Z.

End Setup.

(** A small installation to run the script on: the modules that import,
    pip adding the package it is given unless it is ["broken"]. *)
#[export] Instance listed : System := {|
  installation := list string;
  importable := fun env m => existsb (String.eqb m) env;
  pip_install := fun p env =>
    if String.eqb p "broken" then (false, env) else (true, p :: env)
|}.

End SetupEnv.

(* ================================================================== *)
(** * The order of binary64 numbers *)
(* ================================================================== *)

Module FloatOrder.

(** The comparison of two finite numbers of the same sign is the
    lexicographic comparison of exponent and mantissa. *)
Definition lex (e1 : Z) (m1 : positive) (e2 : Z) (m2 : positive)
  : comparison :=
  match (e1 ?= e2)%Z with
  | Eq => (m1 ?= m2)%positive
  | c => c
  end.

End FloatOrder.

Section FloatOrderFacts.
Import FloatOrder.

Lemma SFcompare_swap (a b : spec_float) (c : comparison) :
  SFcompare a b = Some c -> SFcompare b a = Some (CompOpp c).
Proof.
  destruct a as [sa | sa | | sa ma ea], b as [sb | sb | | sb mb eb];
    simpl; try discriminate;
    try (destruct sa); try (destruct sb); simpl;
    intros H; inversion H; subst; clear H; simpl; try reflexivity.
  - rewrite (Z.compare_antisym ea eb).
    destruct (ea ?= eb)%Z; simpl; try reflexivity.
    rewrite CompOpp_involutive.
    f_equal. rewrite Pos.compare_cont_antisym. reflexivity.
  - rewrite (Z.compare_antisym ea eb).
    destruct (ea ?= eb)%Z; simpl; try reflexivity.
    f_equal. rewrite Pos.compare_cont_antisym. reflexivity.
Qed.

Lemma SFcompare_defined (a b : spec_float) :
  SFeqb a a = true -> SFeqb b b = true -> exists c, SFcompare a b = Some c.
Proof.
  unfold SFeqb.
  destruct a as [sa | sa | | sa ma ea], b as [sb | sb | | sb mb eb];
    simpl; try discriminate; intros _ _; eexists; reflexivity.
Qed.

Lemma lex_Lt e1 m1 e2 m2 :
  lex e1 m1 e2 m2 = Lt <-> (e1 < e2)%Z \/ (e1 = e2 /\ (m1 < m2)%positive).
Proof.
  unfold lex. destruct (Z.compare_spec e1 e2).
  - rewrite Pos.compare_lt_iff. intuition lia.
  - intuition lia.
  - intuition (try discriminate; lia).
Qed.

Lemma lex_Gt e1 m1 e2 m2 :
  lex e1 m1 e2 m2 = Gt <-> (e2 < e1)%Z \/ (e1 = e2 /\ (m2 < m1)%positive).
Proof.
  unfold lex. destruct (Z.compare_spec e1 e2).
  - rewrite Pos.compare_gt_iff. intuition lia.
  - intuition (try discriminate; lia).
  - intuition lia.
Qed.

Lemma lex_cases e1 m1 e2 m2 :
  lex e1 m1 e2 m2 = Lt \/ lex e1 m1 e2 m2 = Gt \/ (e1 = e2 /\ m1 = m2).
Proof.
  unfold lex. destruct (Z.compare_spec e1 e2); auto.
  destruct (Pos.compare_spec m1 m2); auto.
Qed.

Lemma lex_trans_Lt e1 m1 e2 m2 e3 m3 :
  lex e1 m1 e2 m2 <> Gt -> lex e2 m2 e3 m3 = Lt -> lex e1 m1 e3 m3 = Lt.
Proof.
  intros H1 H2. apply lex_Lt. apply lex_Lt in H2.
  destruct (lex_cases e1 m1 e2 m2) as [H | [H | [-> ->]]].
  - apply lex_Lt in H. lia.
  - contradiction.
  - exact H2.
Qed.

Lemma lex_trans_Gt e1 m1 e2 m2 e3 m3 :
  lex e1 m1 e2 m2 <> Lt -> lex e2 m2 e3 m3 = Gt -> lex e1 m1 e3 m3 = Gt.
Proof.
  intros H1 H2. apply lex_Gt. apply lex_Gt in H2.
  destruct (lex_cases e1 m1 e2 m2) as [H | [H | [-> ->]]].
  - contradiction.
  - apply lex_Gt in H. lia.
  - exact H2.
Qed.

Lemma SFcompare_pos e1 m1 e2 m2 :
  SFcompare (S754_finite false m1 e1) (S754_finite false m2 e2)
  = Some (lex e1 m1 e2 m2).
Proof. simpl. unfold lex. destruct (e1 ?= e2)%Z; reflexivity. Qed.

Lemma SFcompare_neg e1 m1 e2 m2 :
  SFcompare (S754_finite true m1 e1) (S754_finite true m2 e2)
  = Some (CompOpp (lex e1 m1 e2 m2)).
Proof. simpl. unfold lex. destruct (e1 ?= e2)%Z; reflexivity. Qed.

Lemma SFleb_ltb_trans (a b c : spec_float) :
  SFleb a b = true -> SFltb b c = true -> SFltb a c = true.
Proof.
  unfold SFleb, SFltb.
  destruct a as [sa | sa | | sa ma ea], b as [sb | sb | | sb mb eb],
           c as [sc | sc | | sc mc ec];
    try (simpl; discriminate);
    try (destruct sa); try (destruct sb); try (destruct sc);
    try (simpl; discriminate); try (simpl; reflexivity).
  - rewrite !SFcompare_neg. intros H1 H2.
    rewrite (@lex_trans_Gt ea ma eb mb ec mc); [reflexivity | |].
    + intros E. rewrite E in H1. discriminate.
    + destruct (lex eb mb ec mc); try discriminate; reflexivity.
  - rewrite !SFcompare_pos. intros H1 H2.
    rewrite (@lex_trans_Lt ea ma eb mb ec mc); [reflexivity | |].
    + intros E. rewrite E in H1. discriminate.
    + destruct (lex eb mb ec mc); try discriminate; reflexivity.
Qed.

(** [x <= y] excludes [y < x]. *)
Lemma leb_ltb_false (x y : float) :
  (x <=? y)%float = true -> (y <? x)%float = false.
Proof.
  rewrite leb_spec, ltb_spec. unfold SFleb, SFltb.
  destruct (SFcompare (Prim2SF x) (Prim2SF y)) as [c|] eqn:Hc;
    [|discriminate].
  rewrite (SFcompare_swap _ _ Hc).
  destruct c; simpl; congruence.
Qed.

(** Two numbers that are not NaN are comparable. *)
Lemma ltb_false_leb (x y : float) :
  (x =? x)%float = true -> (y =? y)%float = true ->
  (x <? y)%float = false -> (y <=? x)%float = true.
Proof.
  rewrite !eqb_spec, leb_spec, ltb_spec. intros Hx Hy.
  destruct (SFcompare_defined _ _ Hx Hy) as [c Hc].
  unfold SFleb, SFltb. rewrite Hc, (SFcompare_swap _ _ Hc).
  destruct c; simpl; congruence.
Qed.

Lemma leb_ltb_trans (x y z : float) :
  (x <=? y)%float = true -> (y <? z)%float = true -> (x <? z)%float = true.
Proof. rewrite leb_spec, !ltb_spec. apply SFleb_ltb_trans. Qed.

Lemma ltb_leb (x y : float) :
  (x <? y)%float = true -> (x <=? y)%float = true.
Proof.
  rewrite leb_spec, ltb_spec. unfold SFleb, SFltb.
  destruct (SFcompare (Prim2SF x) (Prim2SF y)) as [[]|]; congruence.
Qed.

(** A score of at most 25 does not exceed 50. *)
Lemma leb_25_not_gt_50 (x : float) :
  (x <=? 25)%float = true -> (50 <? x)%float = false.
Proof.
  intros H. apply leb_ltb_false, ltb_leb.
  apply (leb_ltb_trans H). reflexivity.
Qed.

End FloatOrderFacts.

(* ================================================================== *)
(** * The Reading Normalizer: [get_live_popularity]'s fallback *)
(* ================================================================== *)

Section Normalizer.
Import Dashboard.

Lemma range_down_S (lowest count : nat) :
  Py.range_down lowest (S count)
  = (lowest + count)%nat :: Py.range_down lowest count.
Proof.
  unfold Py.range_down. rewrite seq_S, rev_app_distr. reflexivity.
Qed.

Lemma In_range_down (lowest count h : nat) :
  In h (Py.range_down lowest count) <-> (lowest <= h < lowest + count)%nat.
Proof.
  unfold Py.range_down. rewrite <- in_rev, in_seq. reflexivity.
Qed.

(** What a hit of the loop is: an hour of the range whose entry exists and
    is strictly positive. *)
Lemma scan_Some (data : list Z) (hours : list nat) (v : Z) (h : nat) :
  scan data hours = Some (v, h) ->
  In h hours /\ nth_error data h = Some v /\ (0 < v)%Z.
Proof.
  induction hours as [| h0 rest IH]; simpl; [discriminate|].
  destruct (nth_error data h0) as [v0|] eqn:Hn.
  - destruct (0 <? v0)%Z eqn:Hpos.
    + intros H. inversion H; subst. apply Z.ltb_lt in Hpos. auto.
    + intros H. destruct (IH H) as (? & ? & ?). auto.
  - intros H. destruct (IH H) as (? & ? & ?). auto.
Qed.

(** What a miss is: no hour of the range has a strictly positive entry. *)
Lemma scan_None (data : list Z) (hours : list nat) :
  scan data hours = None <->
  (forall h v, In h hours -> nth_error data h = Some v -> (v <= 0)%Z).
Proof.
  induction hours as [| h0 rest IH]; simpl.
  - split; [intros _ h v [] | reflexivity].
  - destruct (nth_error data h0) as [v0|] eqn:Hn.
    + destruct (0 <? v0)%Z eqn:Hpos.
      * split; [discriminate|]. intros H.
        apply Z.ltb_lt in Hpos. specialize (H h0 v0 (or_introl eq_refl) Hn).
        lia.
      * rewrite IH. apply Z.ltb_ge in Hpos. split.
        -- intros H h v [<- | Hin] Hv; [congruence | eauto].
        -- intros H h v Hin. apply H. auto.
    + rewrite IH. split.
      * intros H h v [<- | Hin] Hv; [congruence | eauto].
      * intros H h v Hin. apply H. auto.
Qed.

(** The hit of a descending range is the latest positive hour of it. *)
Lemma scan_latest (data : list Z) (lowest count : nat) (v : Z) (h : nat) :
  scan data (Py.range_down lowest count) = Some (v, h) ->
  forall h' v', (h < h' < lowest + count)%nat ->
                nth_error data h' = Some v' -> (v' <= 0)%Z.
Proof.
  induction count as [| n IH]; [discriminate|].
  rewrite range_down_S. simpl.
  destruct (nth_error data (lowest + n)) as [v0|] eqn:Hn.
  - destruct (0 <? v0)%Z eqn:Hpos.
    + intros H h' v' Hh. inversion H; subst. lia.
    + intros H h' v' Hh Hv. apply Z.ltb_ge in Hpos.
      destruct (Nat.eq_dec h' (lowest + n)) as [-> | Hne].
      * congruence.
      * apply (IH H h' v'); [lia | exact Hv].
  - intros H h' v' Hh Hv.
    destruct (Nat.eq_dec h' (lowest + n)) as [-> | Hne].
    + congruence.
    + apply (IH H h' v'); [lia | exact Hv].
Qed.

(** The loop over a descending range is the specification's backward
    scan. *)
Lemma scan_scan_back (data : list Z) (lowest count : nat) :
  scan data (Py.range_down lowest count)
  = Spec.scan_back data (lowest + count - 1) count.
Proof.
  induction count as [| n IH]; [reflexivity|].
  rewrite range_down_S. simpl.
  replace (lowest + S n - 1)%nat with (lowest + n)%nat by lia.
  replace (Nat.pred (lowest + n)) with (lowest + n - 1)%nat by lia.
  rewrite IH. reflexivity.
Qed.

(** C2, as stated, fails: with no current value and an empty series for
    today, the previous day's evening is never looked at.  The
    specification's normalizer imputes 50 from hour 20 of the previous day;
    the code returns no value. *)
Lemma previous_day_skipped_when_today_is_empty :
  let evening := repeat 0%Z 20 ++ [50%Z] in
  Reading.normalized (fallback None [] 12 (Some evening))
  = (None, Spec.unavailable, None) /\
  Spec.normalize None [] 12 (Some evening)
  = (Some 50%Z, Spec.imputed, Some 20%nat).
Proof. split; reflexivity. Qed.

(** C2 (amended): a present current value is returned unchanged as live;
    with no current value and a non-empty hourly series, the series is
    scanned backward from the current hour down to 0 and then, when
    supplied, the previous day from hour 23 down to 18, the first strictly
    positive value being returned as imputed with its hour; otherwise, and
    whenever the hourly series is empty, the result is
    (None, unavailable, None). *)
Theorem fallback_refines_normalize
    (current : option Z) (today_data : list Z) (hour : nat)
    (prev : option (list Z)) :
  Reading.normalized (fallback current today_data hour prev)
  = match current, today_data with
    | None, [] => (None, Spec.unavailable, None)
    | _, _ => Spec.normalize current today_data hour prev
    end.
Proof.
  destruct current as [c|]; [destruct today_data; reflexivity|].
  destruct today_data as [| x rest]; [reflexivity|].
  unfold fallback, Spec.normalize, Reading.normalized, Reading.provenance.
  rewrite (scan_scan_back (x :: rest) 0 (S hour)).
  replace (0 + S hour - 1)%nat with hour by lia.
  destruct (Spec.scan_back (x :: rest) hour (S hour)) as [[v h]|];
    [reflexivity|].
  destruct prev as [p|]; [|reflexivity].
  rewrite (scan_scan_back p 18 6). simpl (18 + 6 - 1)%nat.
  destruct (Spec.scan_back p 23 6) as [[v h]|]; reflexivity.
Qed.

(** The fallback either keeps the current value it was given or, when
    there is none and today's series is not empty, takes a hit of one of
    the two loops. *)
Lemma fallback_imputed_inv
    (current : option Z) (today_data : list Z) (hour : nat)
    (prev : option (list Z)) :
  is_using_fallback (fallback current today_data hour prev) = true ->
  exists v h,
    fallback current today_data hour prev
    = {| current_pop := Some v; is_using_fallback := true;
         fallback_hour := Some h |} /\
    (scan today_data (Py.range_down 0 (S hour)) = Some (v, h) \/
     exists evening, prev = Some evening /\
                     scan evening (Py.range_down 18 6) = Some (v, h)).
Proof.
  unfold fallback.
  destruct current as [c|]; [destruct today_data; discriminate|].
  destruct today_data as [| x rest]; [discriminate|].
  destruct (scan (x :: rest) (Py.range_down 0 (S hour))) as [[v h]|] eqn:Ht.
  - intros _. exists v, h. auto.
  - destruct prev as [p|]; [|discriminate].
    destruct (scan p (Py.range_down 18 6)) as [[v h]|] eqn:Hp; [|discriminate].
    intros _. exists v, h. split; [reflexivity|]. right. exists p. auto.
Qed.

Lemma fallback_unavailable
    (today_data : list Z) (hour : nat) (prev : option (list Z)) :
  (forall h v, (h <= hour)%nat -> nth_error today_data h = Some v ->
               (v <= 0)%Z) ->
  (forall evening h v, prev = Some evening -> (18 <= h <= 23)%nat ->
                       nth_error evening h = Some v -> (v <= 0)%Z) ->
  Reading.normalized (fallback None today_data hour prev)
  = (None, Spec.unavailable, None).
Proof.
  intros Htoday Hprev. unfold fallback.
  destruct today_data as [| x rest]; [reflexivity|].
  replace (scan (x :: rest) (Py.range_down 0 (S hour))) with (@None (Z * nat)).
  - destruct prev as [p|]; [|reflexivity].
    replace (scan p (Py.range_down 18 6)) with (@None (Z * nat));
      [reflexivity|].
    symmetry. apply scan_None. intros h v Hin Hv.
    apply In_range_down in Hin. apply (Hprev p h v eq_refl); [lia | exact Hv].
  - symmetry. apply scan_None. intros h v Hin Hv.
    apply In_range_down in Hin. apply (Htoday h v); [lia | exact Hv].
Qed.

(** C5: whenever the provenance is imputed, the value is strictly positive
    and is the entry, at the reported hour, of today's series (at or
    before the current hour) or of the previous day's evening window
    (hours 18 to 23); when there is no current value and no such strictly
    positive entry, in particular for an all-zero series and no previous
    day, the value is absent and the provenance unavailable; an imputed 0
    is never produced. *)
Theorem imputed_value_is_a_positive_entry
    (current : option Z) (today_data : list Z) (hour : nat)
    (prev : option (list Z)) :
  let st := fallback current today_data hour prev in
  (Reading.provenance st = Spec.imputed ->
   exists v h,
     current_pop st = Some v /\ fallback_hour st = Some h /\ (0 < v)%Z /\
     ((h <= hour)%nat /\ nth_error today_data h = Some v \/
      exists evening, prev = Some evening /\ (18 <= h <= 23)%nat /\
                      nth_error evening h = Some v)) /\
  (current = None ->
   (forall h v, (h <= hour)%nat -> nth_error today_data h = Some v ->
                (v <= 0)%Z) ->
   (forall evening h v, prev = Some evening -> (18 <= h <= 23)%nat ->
                        nth_error evening h = Some v -> (v <= 0)%Z) ->
   Reading.normalized st = (None, Spec.unavailable, None)) /\
  (current = None -> Forall (fun v => v = 0%Z) today_data -> prev = None ->
   Reading.normalized st = (None, Spec.unavailable, None)) /\
  ~ (Reading.provenance st = Spec.imputed /\ current_pop st = Some 0%Z).
Proof.
  assert (Himp : forall st : fallback_state,
             Reading.provenance st = Spec.imputed ->
             is_using_fallback st = true).
  { intros st. unfold Reading.provenance.
    destruct (is_using_fallback st); [reflexivity|].
    destruct (current_pop st); discriminate. }
  cbv zeta. repeat split.
  - intros Hprov. apply Himp in Hprov.
    destruct (fallback_imputed_inv _ _ _ _ Hprov) as (v & h & -> & Hhit).
    exists v, h. simpl.
    destruct Hhit as [Ht | (p & -> & Hp)].
    + apply scan_Some in Ht. destruct Ht as (Hin & Hv & Hpos).
      apply In_range_down in Hin. repeat split; auto. left. split; [lia|auto].
    + apply scan_Some in Hp. destruct Hp as (Hin & Hv & Hpos).
      apply In_range_down in Hin. repeat split; auto. right.
      exists p. repeat split; auto; lia.
  - intros ->. apply fallback_unavailable.
  - intros -> Hzero ->. apply fallback_unavailable.
    + intros h v _ Hv. apply nth_error_In in Hv.
      rewrite Forall_forall in Hzero. rewrite (Hzero v Hv). lia.
    + discriminate.
  - intros [Hprov Hzero]. apply Himp in Hprov.
    destruct (fallback_imputed_inv _ _ _ _ Hprov) as (v & h & Heq & Hhit).
    rewrite Heq in Hzero. simpl in Hzero. inversion Hzero; subst.
    destruct Hhit as [Ht | (p & _ & Hp)].
    + apply scan_Some in Ht. lia.
    + apply scan_Some in Hp. lia.
Qed.

(** The hour an imputed value comes from is the latest one with a strictly
    positive entry: no later hour of the scanned range has one. *)
Lemma imputed_hour_is_the_latest
    (today_data : list Z) (hour : nat) (prev : option (list Z)) (v : Z)
    (h : nat) :
  scan today_data (Py.range_down 0 (S hour)) = Some (v, h) ->
  Reading.normalized (fallback None today_data hour prev)
  = (Some v, Spec.imputed, Some h) /\
  forall h' v', (h < h' <= hour)%nat -> nth_error today_data h' = Some v' ->
                (v' <= 0)%Z.
Proof.
  intros Hscan. split.
  - unfold fallback. destruct today_data as [| x rest].
    + destruct (scan_Some _ _ Hscan) as (_ & Hn & _).
      destruct h; discriminate.
    + rewrite Hscan. reflexivity.
  - intros h' v' Hh. apply (scan_latest _ _ _ Hscan). lia.
Qed.

End Normalizer.

(* ================================================================== *)
(** * The Composite Aggregator *)
(* ================================================================== *)

Section Aggregator.
Import Dashboard.

Lemma is_active_iff (s : sensor_row) :
  is_active s = true <->
  exists c u, current s = Some c /\ usual s = Some u /\ (0 < u)%Z.
Proof.
  unfold is_active. destruct (current s) as [c|], (usual s) as [u|].
  - rewrite andb_true_iff, negb_true_iff, Z.eqb_neq, Z.ltb_lt. split.
    + intros [_ Hu]. exists c, u. auto.
    + intros (c' & u' & _ & Hu & Hpos). inversion Hu; subst. lia.
  - split; [discriminate | intros (? & ? & _ & ? & _); discriminate].
  - split; [discriminate | intros (? & ? & ? & _); discriminate].
  - split; [discriminate | intros (? & ? & ? & _); discriminate].
Qed.

Lemma filter_empty_iff {A} (f : A -> bool) (l : list A) :
  filter f l = [] <-> forall x, In x l -> f x = false.
Proof.
  induction l as [| a l IH]; simpl.
  - split; [intros _ x [] | reflexivity].
  - destruct (f a) eqn:Ha.
    + split; [discriminate|]. intros H.
      rewrite (H a (or_introl eq_refl)) in Ha. discriminate.
    + rewrite IH. split.
      * intros H x [<- | Hin]; auto.
      * intros H x Hin. apply H. auto.
Qed.

Lemma composite_score_None (sensors_data : list sensor_row) :
  composite_score sensors_data = None <-> filter is_active sensors_data = [].
Proof.
  unfold composite_score.
  destruct (filter is_active sensors_data); split; congruence.
Qed.

(** C6: the composite is absent, and the banner reads offline, exactly
    when no sensor has both a current value and a baseline strictly
    greater than 0; a score above 50 is critical, one above 25 and at most
    50 is elevated, one of at most 25 is normal. *)
Theorem composite_absent_iff_no_usable_sensor
    (sensors_data : list sensor_row) :
  (composite_score sensors_data = None <->
   ~ exists s c u, In s sensors_data /\ current s = Some c /\
                   usual s = Some u /\ (0 < u)%Z) /\
  (Reading.tier (updateAlertBanner (composite_score sensors_data))
   = Spec.offline <-> composite_score sensors_data = None) /\
  (forall score : float,
     ((50 <? score)%float = true ->
      Reading.tier (updateAlertBanner (Some score)) = Spec.critical) /\
     ((25 <? score)%float = true -> (score <=? 50)%float = true ->
      Reading.tier (updateAlertBanner (Some score)) = Spec.tier_elevated) /\
     ((score <=? 25)%float = true ->
      Reading.tier (updateAlertBanner (Some score)) = Spec.tier_normal)).
Proof.
  split; [|split].
  - rewrite composite_score_None, filter_empty_iff. split.
    + intros H (s & c & u & Hin & Hc & Hu & Hpos).
      assert (Ha : is_active s = true)
        by (apply is_active_iff; exists c, u; auto).
      rewrite (H s Hin) in Ha. discriminate.
    + intros H s Hin. destruct (is_active s) eqn:Ha; [|reflexivity].
      exfalso. apply H. apply is_active_iff in Ha.
      destruct Ha as (c & u & ? & ? & ?). exists s, c, u. auto.
  - destruct (composite_score sensors_data) as [score|].
    + split; [|discriminate]. unfold updateAlertBanner.
      destruct (50 <? score)%float; [discriminate|].
      destruct (25 <? score)%float; discriminate.
    + split; reflexivity.
  - intros score. unfold updateAlertBanner. repeat split.
    + intros ->. reflexivity.
    + intros H25 H50. rewrite (leb_ltb_false H50), H25. reflexivity.
    + intros H25. rewrite (leb_25_not_gt_50 H25), (leb_ltb_false H25).
      reflexivity.
Qed.

(** The scores of the sensors that pass the filter are the percentages
    the specification includes, polarity left aside. *)
Lemma dashboard_scores (sensors : list Spec.sensor) :
  scores_of (filter is_active (map Reading.dashboard_row sensors))
  = Spec.included (map Reading.forget_polarity sensors).
Proof.
  induction sensors as [| s rest IH]; [reflexivity|].
  cbn [map filter]. unfold is_active at 1. cbn [Spec.included].
  destruct s as [[c|] [b|] p]; cbn; auto.
  destruct (Z.eqb_spec b 0) as [-> | Hb]; cbn; auto.
  destruct (0 <? b)%Z; cbn; auto.
  rewrite IH. reflexivity.
Qed.

(** What [get_data] computes: the mean of the raw percentages of the
    included sensors, whatever their polarity. *)
Lemma dashboard_composite_is_raw_mean (sensors : list Spec.sensor) :
  composite_score (map Reading.dashboard_row sensors)
  = Spec.aggregate (map Reading.forget_polarity sensors).
Proof.
  unfold composite_score, Spec.aggregate.
  rewrite <- dashboard_scores.
  destruct (filter is_active (map Reading.dashboard_row sensors))
    as [| a l] eqn:Hf; [reflexivity|].
  destruct (scores_of (a :: l)) as [| x xs] eqn:Hs; [|reflexivity].
  exfalso.
  assert (Ha : is_active a = true).
  { assert (Hin : In a (filter is_active (map Reading.dashboard_row sensors)))
      by (rewrite Hf; left; reflexivity).
    apply filter_In in Hin. tauto. }
  apply is_active_iff in Ha. destruct Ha as (c & u & Hc & Hu & _).
  simpl in Hs. rewrite Hc, Hu in Hs. discriminate.
Qed.

Lemma scraper_scores (sensors : list Spec.sensor) :
  TestScraper.pizza_anomaly_scores
    (filter TestScraper.has_current (map Reading.scraper_result sensors))
  = Spec.included sensors.
Proof.
  induction sensors as [| s rest IH]; [reflexivity|].
  cbn [map filter]. unfold TestScraper.has_current at 1.
  cbn [Spec.included].
  destruct s as [[c|] [b|] p]; cbn; auto;
    unfold TestScraper.anomaly_pct; cbn; auto.
  destruct (Z.eqb_spec b 0) as [-> | Hb]; cbn; auto.
  destruct (0 <? b)%Z; cbn; auto.
  rewrite IH. destruct p; reflexivity.
Qed.

(** What [generate_report] computes: the specification's composite, the
    mean of the polarity-adjusted percentages of the included sensors. *)
Lemma scraper_composite_is_mean (sensors : list Spec.sensor) :
  TestScraper.avg_anomaly_of
    (TestScraper.composite_index (map Reading.scraper_result sensors))
  = Spec.aggregate sensors.
Proof.
  unfold TestScraper.composite_index, Spec.aggregate.
  rewrite <- scraper_scores.
  destruct (filter TestScraper.has_current
              (map Reading.scraper_result sensors)) as [| a l];
    [reflexivity|].
  destruct (TestScraper.pizza_anomaly_scores (a :: l)); reflexivity.
Qed.

(** The aggregator example of the specification: the second sensor is
    excluded and the composite is exactly 50.0, in both programs; the
    banner then reads elevated. *)
Lemma composite_example :
  let sensors :=
    [ {| Spec.current := Some 150%Z; Spec.baseline := Some 100%Z;
         Spec.polarity_of := Spec.Normal |};
      {| Spec.current := None; Spec.baseline := Some 50%Z;
         Spec.polarity_of := Spec.Normal |} ] in
  composite_score (map Reading.dashboard_row sensors) = Some 50%float /\
  TestScraper.avg_anomaly_of
    (TestScraper.composite_index (map Reading.scraper_result sensors))
  = Some 50%float /\
  Reading.tier (updateAlertBanner (Some 50%float)) = Spec.tier_elevated.
Proof. repeat split; vm_compute; reflexivity. Qed.

(** C1: on an inverse indicator the two programs disagree.  For one
    sensor configured as inverse with current 40 and baseline 80,
    [generate_report] negates the percentage and reports +50.0, the mean
    the claim describes, while [get_data] reports -50.0. *)
Theorem dashboard_composite_ignores_polarity :
  let bar := {| Spec.current := Some 40%Z; Spec.baseline := Some 80%Z;
                Spec.polarity_of := Spec.Inverse |} in
  composite_score [Reading.dashboard_row bar] = Some (-50)%float /\
  TestScraper.avg_anomaly_of
    (TestScraper.composite_index [Reading.scraper_result bar])
  = Some 50%float /\
  Spec.aggregate [bar] = Some 50%float.
Proof. repeat split; vm_compute; reflexivity. Qed.

End Aggregator.

(* ================================================================== *)
(** * The Anomaly Scorer *)
(* ================================================================== *)

Section Scorer.

(** C3, as stated, fails on the label: no program classifies the negated
    percentage.  For the inverse indicator with current 40 and baseline 80
    the negated percentage is +50.0, which the claim labels elevated;
    [fetch_sensor_data] and [getAnomalyClass] label the raw -50.0 low. *)
Lemma label_ignores_polarity :
  option_map Reading.label
    (Reading.signal_of
       (RobustScraper.fetch_sensor_data (Reading.target Spec.Inverse)
          (Exn.Return (Some (Reading.place (Some 40%Z) 80%Z))) 0 0))
  = Some Spec.low /\
  Dashboard.getAnomalyClass (Some 40%Z) (Some 80%Z) = "anomaly-low"%string /\
  Spec.anomaly_pct (Spec.score (Some 40%Z) (Some 80%Z) Spec.Inverse)
  = Some 50%float /\
  Spec.anomaly_label (Spec.score (Some 40%Z) (Some 80%Z) Spec.Inverse)
  = Spec.elevated.
Proof. repeat split; vm_compute; reflexivity. Qed.

(** The signal of an online result is the one [determine_signal] gives
    the provider's current value and today's value for the hour; the
    target plays no part in it. *)
Lemma fetch_sensor_data_signal
    (target : RobustScraper.target) (current : option Z) (historical : Z) :
  Reading.signal_of
    (RobustScraper.fetch_sensor_data target
       (Exn.Return (Some (Reading.place current historical))) 0 0)
  = Some (fst (RobustScraper.determine_signal current historical)).
Proof. reflexivity. Qed.

(** C3 (amended): for a present current value and a baseline strictly
    greater than 0, the percentage entering the composite is
    (current - baseline) / baseline * 100, negated when the polarity is
    inverse; the label of a sensor is computed from the percentage before
    any negation: spike above 50, elevated above 25, low below -25, normal
    otherwise; score(120, 80, normal) is 50.0, score(40, 80, normal) is
    -50.0 and score(40, 80, inverse) is 50.0. *)
Theorem scorer_percentage_and_label
    (current baseline : Z) (p : Spec.polarity) :
  (0 < baseline)%Z ->
  let raw := (Py.truediv (current - baseline) baseline * 100)%float in
  let s := {| Spec.current := Some current; Spec.baseline := Some baseline;
              Spec.polarity_of := p |} in
  TestScraper.anomaly_pct (Reading.scraper_result s)
  = Some (match p with
          | Spec.Inverse => (- raw)%float
          | Spec.Normal => raw
          end) /\
  option_map Reading.label
    (Reading.signal_of
       (RobustScraper.fetch_sensor_data (Reading.target p)
          (Exn.Return (Some (Reading.place (Some current) baseline))) 0 0))
  = Some (if (50 <? raw)%float then Spec.spike
          else if (25 <? raw)%float then Spec.elevated
          else if (raw <? -25)%float then Spec.low
          else Spec.normal) /\
  Spec.percentage 120 80 Spec.Normal = 50%float /\
  Spec.percentage 40 80 Spec.Normal = (-50)%float /\
  Spec.percentage 40 80 Spec.Inverse = 50%float.
Proof.
  intros Hpos. cbv zeta. split; [|split].
  - unfold TestScraper.anomaly_pct. cbn.
    assert (Hne : (baseline =? 0)%Z = false) by (apply Z.eqb_neq; lia).
    assert (Hlt : (0 <? baseline)%Z = true) by (apply Z.ltb_lt; lia).
    rewrite Hne, Hlt. cbn. destruct p; reflexivity.
  - rewrite fetch_sensor_data_signal.
    unfold RobustScraper.determine_signal.
    assert (Hlt : (0 <? baseline)%Z = true) by (apply Z.ltb_lt; lia).
    rewrite Hlt. cbn [fst option_map].
    destruct (50 <? _)%float; [reflexivity|].
    destruct (25 <? _)%float; [reflexivity|].
    destruct (_ <? -25)%float; reflexivity.
  - repeat split; vm_compute; reflexivity.
Qed.

Lemma scorer_percentage_and_label_witness :
  (0 < 80)%Z /\
  TestScraper.anomaly_pct
    (Reading.scraper_result
       {| Spec.current := Some 40%Z; Spec.baseline := Some 80%Z;
          Spec.polarity_of := Spec.Inverse |})
  = Some 50%float.
Proof.
  split; [lia|].
  exact (proj1 (@scorer_percentage_and_label 40 80 Spec.Inverse eq_refl)).
Defined.

(** The percentage entering the composite is the specification's. *)
Lemma scraper_percentage_is_spec
    (current baseline : Z) (p : Spec.polarity) :
  (0 < baseline)%Z ->
  TestScraper.anomaly_pct
    (Reading.scraper_result
       {| Spec.current := Some current; Spec.baseline := Some baseline;
          Spec.polarity_of := p |})
  = Spec.anomaly_pct (Spec.score (Some current) (Some baseline) p).
Proof.
  intros Hpos. unfold TestScraper.anomaly_pct, Spec.score. cbn.
  assert (Hne : (baseline =? 0)%Z = false) by (apply Z.eqb_neq; lia).
  assert (Hlt : (0 <? baseline)%Z = true) by (apply Z.ltb_lt; lia).
  rewrite Hne, Hlt. cbn. destruct p; reflexivity.
Qed.

(** C4: with no current value the label is closed and there is no
    percentage; with a current value and a baseline that is absent or 0
    there is no percentage either, the current value is what is shown, and
    the label is normal, not closed.  The label is closed only when the
    current value is absent, and the percentage is missing only in these
    cases. *)
Theorem closed_and_no_baseline_have_no_percentage :
  (forall usual : option Z,
     Dashboard.getAnomalyClass None usual = "anomaly-closed"%string /\
     Dashboard.getAnomalyText None usual = Dashboard.TextClosed /\
     TestScraper.calculate_trend None usual = TestScraper.CLOSED_NO_DATA) /\
  (forall c : Z,
     Dashboard.getAnomalyClass (Some c) None = "anomaly-normal"%string /\
     Dashboard.getAnomalyClass (Some c) (Some 0%Z) = "anomaly-normal"%string /\
     Dashboard.getAnomalyText (Some c) None = Dashboard.TextCurrent c /\
     Dashboard.getAnomalyText (Some c) (Some 0%Z) = Dashboard.TextCurrent c /\
     TestScraper.calculate_trend (Some c) None
     = TestScraper.LIVE_NO_BASELINE c /\
     TestScraper.calculate_trend (Some c) (Some 0%Z)
     = TestScraper.LIVE_NO_BASELINE c) /\
  (forall current usual : option Z,
     (Dashboard.getAnomalyClass current usual = "anomaly-closed"%string <->
      current = None) /\
     (Reading.text_pct (Dashboard.getAnomalyText current usual) = None <->
      current = None \/ usual = None \/ usual = Some 0%Z) /\
     (Reading.trend_pct (TestScraper.calculate_trend current usual) = None <->
      current = None \/ usual = None \/ usual = Some 0%Z)).
Proof.
  split; [|split].
  - intros usual. repeat split.
  - intros c. repeat split.
  - intros [c|] [u|]; repeat split; try discriminate; try tauto;
      try (intros [H | [H | H]]; discriminate).
    + cbn. destruct (Z.eqb_spec u 0); [discriminate|].
      destruct (50 <? _)%float; [discriminate|].
      destruct (25 <? _)%float; [discriminate|].
      destruct (_ <? -25)%float; discriminate.
    + cbn. destruct (Z.eqb_spec u 0) as [-> | Hne]; [auto|discriminate].
    + cbn. intros [H | [H | H]]; try discriminate.
      inversion H; subst. reflexivity.
    + cbn. destruct (Z.eqb_spec u 0) as [-> | Hne]; [auto|discriminate].
    + cbn. intros [H | [H | H]]; try discriminate.
      inversion H; subst. reflexivity.
Qed.

(** The scorer examples of the specification on the closed and the
    baseline-less sensor. *)
Lemma scorer_examples :
  Dashboard.getAnomalyClass None (Some 80%Z) = "anomaly-closed"%string /\
  TestScraper.calculate_trend None (Some 80%Z) = TestScraper.CLOSED_NO_DATA /\
  Reading.text_pct (Dashboard.getAnomalyText (Some 50%Z) (Some 0%Z)) = None /\
  Reading.trend_pct (TestScraper.calculate_trend (Some 50%Z) (Some 0%Z))
  = None.
Proof. repeat split. Qed.

End Scorer.

(* ================================================================== *)
(** * The Correlation Analyzer *)
(* ================================================================== *)

Section Correlation.
Import Dashboard.

Lemma tl_skipn {A} (l : list A) : tl l = skipn 1 l.
Proof. destruct l; reflexivity. Qed.

Lemma sum_of_ones {A} (l : list A) (acc : Z) :
  fold_left Z.add (map (fun _ => 1%Z) l) acc
  = (acc + Z.of_nat (List.length l))%Z.
Proof.
  revert acc. induction l as [| a l IH]; intros acc; simpl (fold_left _ _ _).
  - simpl. lia.
  - rewrite IH. simpl List.length. lia.
Qed.

(** The spike count is the number of entries strictly above 30. *)
Lemma count_spikes_length (xs : list float) :
  count_spikes xs
  = Z.of_nat (List.length (filter (fun v => (30 <? v)%float) xs)).
Proof. unfold count_spikes. rewrite sum_of_ones. reflexivity. Qed.

(** Clipping leaves a NaN or a number of [-1, 1]. *)
Lemma clip_unit (x : float) :
  Reading.undefined_or_unit (Numpy.clip (-1) 1 x).
Proof.
  unfold Reading.undefined_or_unit, Numpy.clip.
  destruct (x <? -1)%float eqn:Hlo; [right; split; reflexivity|].
  destruct (1 <? x)%float eqn:Hhi; [right; split; reflexivity|].
  destruct (x =? x)%float eqn:Hnan; [right | left; reflexivity].
  split.
  - apply (ltb_false_leb Hnan); [reflexivity | exact Hlo].
  - apply ltb_false_leb; [reflexivity | exact Hnan | exact Hhi].
Qed.

Lemma numpy_corrcoef_unit (xs ys : list float) :
  Reading.undefined_or_unit (Numpy.corrcoef_0_1 xs ys).
Proof. unfold Numpy.corrcoef_0_1. apply clip_unit. Qed.

(** C7, as stated, fails: the analyzer has no lag parameter and always
    aligns with lag 1.  On signal [1; 2; 4] and proxy [1; 3; 2] it
    correlates [1; 2] with [3; 2] (a negative coefficient), which is the
    alignment of lag 1 and neither that of lag 0, [1; 2; 4] with [1; 3; 2]
    (a positive coefficient), nor that of lag 2, [1] with [2]. *)
Lemma correlation_lag_is_fixed_at_one :
  let h := {| dates := []; pizza_index := [1; 2; 4]%float;
              vix_series := [1; 3; 2]%float; gold_series := [] |} in
  (pizza_arr h, vix_arr h) = ([1; 2]%float, [3; 2]%float) /\
  Spec.aligned (pizza_index h) (vix_series h) 0
  = ([1; 2; 4]%float, [1; 3; 2]%float) /\
  Spec.aligned (pizza_index h) (vix_series h) 2 = ([1]%float, [2]%float) /\
  (@correlation Numpy.standin h <? 0)%float = true /\
  (Numpy.corrcoef_0_1 [1; 2; 4]%float [1; 3; 2]%float <? 0)%float = false.
Proof. repeat split; vm_compute; reflexivity. Qed.

(** C7 (amended): with the lag fixed at 1, the analyzer computes the
    coefficient of signal_series[0 : n-1] against proxy_series[1 : n], the
    coefficient, when defined, lying in [-1, 1] as [corrcoef] guarantees;
    the spike count is the number of elements of the full signal series
    strictly above 30. *)
Theorem correlation_is_lag_one_pearson (E : External) :
  (forall xs ys, Reading.undefined_or_unit (corrcoef xs ys)) ->
  forall h : historical,
    (pizza_arr h, vix_arr h)
    = Spec.aligned (pizza_index h) (vix_series h) 1 /\
    correlation h
    = corrcoef (firstn (List.length (pizza_index h) - 1) (pizza_index h))
               (skipn 1 (vix_series h)) /\
    Reading.undefined_or_unit (correlation h) /\
    spike_count h
    = Z.of_nat (List.length
                  (filter (fun v => (30 <? v)%float) (pizza_index h))).
Proof.
  intros Hunit h.
  assert (Hp : pizza_arr h
               = firstn (List.length (pizza_index h) - 1) (pizza_index h)).
  { unfold pizza_arr. rewrite removelast_firstn_len.
    f_equal. lia. }
  assert (Hv : vix_arr h = skipn 1 (vix_series h)) by apply tl_skipn.
  repeat split.
  - unfold Spec.aligned. rewrite Hp, Hv. reflexivity.
  - unfold correlation. rewrite Hp, Hv. reflexivity.
  - apply Hunit.
  - apply count_spikes_length.
Qed.

Lemma correlation_is_lag_one_pearson_witness :
  let h := {| dates := []; pizza_index := [0; 10; 0; 40; 0]%float;
              vix_series := [5; 5; 0; 5; 0]%float; gold_series := [] |} in
  (forall xs ys, Reading.undefined_or_unit (Numpy.corrcoef_0_1 xs ys)) /\
  @correlation Numpy.standin h
  = Numpy.corrcoef_0_1 [0; 10; 0; 40]%float [5; 0; 5; 0]%float /\
  spike_count h = 1%Z.
Proof.
  split; [exact numpy_corrcoef_unit|].
  pose proof (@correlation_is_lag_one_pearson Numpy.standin
                numpy_corrcoef_unit
                {| dates := []; pizza_index := [0; 10; 0; 40; 0]%float;
                   vix_series := [5; 5; 0; 5; 0]%float; gold_series := [] |})
    as (_ & Hc & _ & Hs).
  split; [exact Hc | exact Hs].
Defined.

(** Degenerate inputs under binary64, sums taken left to right: a constant
    series whose mean is exact (5.0) and series too short to have a
    variance give NaN, while a constant series whose mean is rounded (0.1)
    has a non-zero computed variance and gives the coefficient 1. *)
Lemma degenerate_series_in_binary64 :
  let nan_ (r : float) := (r =? r)%float = false in
  nan_ (Numpy.corrcoef_0_1 [5; 5; 5]%float [5; 5; 5]%float) /\
  nan_ (Numpy.corrcoef_0_1 [1]%float [3]%float) /\
  nan_ (Numpy.corrcoef_0_1 [] []) /\
  Numpy.corrcoef_0_1
    [0x1.999999999999ap-4; 0x1.999999999999ap-4; 0x1.999999999999ap-4]%float
    [0x1.999999999999ap-4; 0x1.999999999999ap-4; 0x1.999999999999ap-4]%float
  = 1%float.
Proof. repeat split; vm_compute; reflexivity. Qed.

(** The spike count needs nothing of [corrcoef]: it is computed from the
    signal series alone, whatever the coefficient is. *)
Lemma spike_count_total (h : historical) :
  (0 <= spike_count h <= Z.of_nat (List.length (pizza_index h)))%Z.
Proof.
  unfold spike_count. rewrite count_spikes_length.
  pose proof (filter_length_le (fun v => (30 <? v)%float) (pizza_index h)).
  lia.
Qed.

End Correlation.

(* ================================================================== *)
(** * Series without variance *)
(* ================================================================== *)

Section Degenerate.
Import Numpy Dashboard.


























End Degenerate.



(* ================================================================== *)
(** * Provider failures *)
(* ================================================================== *)

Section Failures.
Import Dashboard.
Context {E : External}.

(** [get_live_popularity] always returns a dict. *)
Lemma get_live_popularity_returns
    (fetched : Provider.outcome) (day_of_week hour : nat) :
  get_live_popularity fetched day_of_week hour
  = Exn.Return
      match fetched with
      | Exn.Return data => read_place data day_of_week hour
      | Exn.Raise e => NoData e
      end.
Proof. destruct fetched; reflexivity. Qed.

(** The loop over the sensors returns one row for each of them. *)
Lemma fetch_sensors_returns (w : world) (todo : list sensor) :
  exists rows, fetch_sensors w todo = Exn.Return rows /\
               List.length rows = List.length todo.
Proof.
  induction todo as [| s rest (rows & IH & Hlen)].
  - exists []. split; reflexivity.
  - simpl. rewrite get_live_popularity_returns. simpl. rewrite IH. simpl.
    eexists. split; [reflexivity|]. simpl. rewrite Hlen. reflexivity.
Qed.

(** Each ticker's block returns a result whatever its fetch does. *)
Lemma fetch_vix_returns (history : Exn.t (list Provider.bar))
    (result : market_result) :
  exists r, fetch_vix history result = Exn.Return r /\
            gold r = gold result /\ gold_change r = gold_change result /\
            gold_history r = gold_history result.
Proof.
  unfold fetch_vix, Exn.try_except, Exn.bind.
  destruct history as [hist | msg].
  - destruct (rev hist); eexists; (split; [reflexivity | auto]).
  - eexists; (split; [reflexivity | auto]).
Qed.

Lemma fetch_gold_returns (history : Exn.t (list Provider.bar))
    (result : market_result) :
  exists r, fetch_gold history result = Exn.Return r /\
            vix r = vix result /\ vix_change r = vix_change result /\
            vix_history r = vix_history result.
Proof.
  unfold fetch_gold, Exn.try_except, Exn.bind.
  destruct history as [hist | msg].
  - destruct (rev hist); eexists; (split; [reflexivity | auto]).
  - eexists; (split; [reflexivity | auto]).
Qed.

Lemma get_market_data_returns (yfinance : Exn.t unit)
    (vix_1mo gold_1mo : Exn.t (list Provider.bar)) :
  exists m, get_market_data yfinance vix_1mo gold_1mo = Exn.Return m.
Proof.
  unfold get_market_data. destruct yfinance as [[] | msg]; simpl.
  - destruct (fetch_vix_returns vix_1mo
                {| vix := None; gold := None; vix_change := None;
                   gold_change := None; vix_history := [];
                   gold_history := [] |}) as (r1 & -> & _).
    simpl. destruct (fetch_gold_returns gold_1mo r1) as (r2 & -> & _).
    simpl. eexists. reflexivity.
  - eexists. reflexivity.
Qed.





End Failures.

(* ================================================================== *)
(** * The simulated history behind the correlation figures *)
(* ================================================================== *)

Section Simulated.
Import Dashboard.
Context {E : External}.

Lemma draws_length (n : nat) (draw : rng -> float * rng) (g : rng) :
  List.length (fst (draws n draw g)) = n.
Proof.
  revert g. induction n as [| k IH]; intros g; simpl; [reflexivity|].
  destruct (draw g) as [x g1]. specialize (IH g1).
  destruct (draws k draw g1) as [xs g2]. simpl in *. congruence.
Qed.

Lemma add_at_length (a : list float) (i : nat) (d : float) :
  List.length (add_at a i d) = List.length a.
Proof.
  revert i. induction a as [| x rest IH]; intros i; [reflexivity|].
  destruct i; simpl; [reflexivity | rewrite IH; reflexivity].
Qed.

Lemma crisis_day_length (others : nat -> rng -> rng)
    (st : list float * rng * nat) (day : nat) :
  List.length (fst (fst (crisis_day others st day)))
  = List.length (fst (fst st)).
Proof.
  unfold crisis_day, call. destruct st as [[pizza g] k].
  destruct (uniform 30 60 g) as [a g1].
  destruct (day + 1 <? 30)%nat.
  - destruct (uniform 10 25 (others k g1)) as [b g2]. cbn [fst].
    rewrite !add_at_length. reflexivity.
  - cbn [fst]. rewrite !add_at_length. reflexivity.
Qed.

Lemma crisis_days_length (others : nat -> rng -> rng) (days : list nat)
    (st : list float * rng * nat) :
  List.length (fst (fst (fold_left (crisis_day others) days st)))
  = List.length (fst (fst st)).
Proof.
  revert st. induction days as [| d rest IH]; intros st; [reflexivity|].
  cbn [fold_left]. rewrite IH. apply crisis_day_length.
Qed.

(** One crisis day makes at most two calls to the generator. *)
Lemma crisis_day_calls (others : nat -> rng -> rng)
    (st : list float * rng * nat) (day : nat) :
  (snd (crisis_day others st day) <= snd st + 2)%nat.
Proof.
  unfold crisis_day, call. destruct st as [[pizza g] k].
  destruct (uniform 30 60 g) as [a g1].
  destruct (day + 1 <? 30)%nat.
  - destruct (uniform 10 25 (others k g1)) as [b g2]. cbn [snd]. lia.
  - cbn [snd]. lia.
Qed.

(** When the other requests leave the generator alone after the calls a
    crisis day makes, the day is the one of an invocation running
    alone. *)
Lemma crisis_day_undisturbed (others : nat -> rng -> rng)
    (st : list float * rng * nat) (day : nat) :
  (forall g, others (snd st) g = g) ->
  (forall g, others (snd st + 1)%nat g = g) ->
  crisis_day others st day = crisis_day alone st day.
Proof.
  unfold crisis_day, call, alone. destruct st as [[pizza g] k].
  cbn [snd]. intros H0 H1.
  destruct (uniform 30 60 g) as [a g1]. rewrite H0.
  destruct (day + 1 <? 30)%nat; [|reflexivity].
  destruct (uniform 10 25 g1) as [b g2]. rewrite H1. reflexivity.
Qed.

Lemma crisis_days_undisturbed (others : nat -> rng -> rng) (n : nat)
    (days : list nat) (st : list float * rng * nat) :
  (forall j g, (j < n)%nat -> others j g = g) ->
  (snd st + 2 * List.length days <= n)%nat ->
  fold_left (crisis_day others) days st
  = fold_left (crisis_day alone) days st.
Proof.
  intros Hquiet. revert st.
  induction days as [| d rest IH]; intros st Hn; [reflexivity|].
  cbn [fold_left List.length] in *.
  rewrite (@crisis_day_undisturbed others st d).
  - apply IH. pose proof (crisis_day_calls alone st d). lia.
  - intros g. apply Hquiet. lia.
  - intros g. apply Hquiet. lia.
Qed.

(** What an invocation running alone computes does not depend on the
    clock (the dates apart) or on the state [np.random] was in when it
    was called, and the state it leaves is always the same. *)
Lemma simulated_series_are_fixed (now now' : datetime) (g g' : rng) :
  let h := fst (generate_simulated_historical_data alone now g) in
  let h' := fst (generate_simulated_historical_data alone now' g') in
  pizza_index h = pizza_index h' /\
  vix_series h = vix_series h' /\
  gold_series h = gold_series h' /\
  snd (generate_simulated_historical_data alone now g)
  = snd (generate_simulated_historical_data alone now' g').
Proof.
  unfold generate_simulated_historical_data, call.
  destruct (draws 30 (normal 0 15) (alone 0%nat (seed 42))) as [pizza0 g1].
  destruct (fold_left (crisis_day alone) [5; 12; 22]%nat
              (pizza0, alone 1%nat g1, 2%nat)) as [[pizza_base g2] k].
  destruct (draws 30 (normal 0 2) g2) as [noise g3].
  destruct (draws 30 (normal 5 15) (alone k g3)) as [steps g4].
  cbn [fst snd pizza_index vix_series gold_series].
  repeat split.
Qed.

(** The simulated signal and the simulated VIX are those of an invocation
    running alone as long as no other request uses the generator between
    the seeding (call 0) and the draw of the VIX noise (call 8). *)
Lemma undisturbed_series (others : nat -> rng -> rng) (now : datetime)
    (g : rng) :
  (forall j g, (j < 8)%nat -> others j g = g) ->
  let h := fst (generate_simulated_historical_data others now g) in
  let h' := fst (generate_simulated_historical_data alone now g) in
  pizza_index h = pizza_index h' /\ vix_series h = vix_series h'.
Proof.
  intros Hquiet. cbv zeta.
  unfold generate_simulated_historical_data, call.
  rewrite (Hquiet 0%nat (seed 42)) by lia.
  change (alone 0%nat (seed 42)) with (seed 42).
  destruct (draws 30 (normal 0 15) (seed 42)) as [pizza0 g1].
  rewrite (Hquiet 1%nat g1) by lia.
  change (alone 1%nat g1) with g1.
  rewrite (@crisis_days_undisturbed others 8 [5; 12; 22]%nat
             (pizza0, g1, 2%nat) Hquiet) by (cbn; lia).
  destruct (fold_left (crisis_day alone) [5; 12; 22]%nat
              (pizza0, g1, 2%nat)) as [[pizza_base g2] k].
  destruct (draws 30 (normal 0 2) g2) as [noise g3].
  destruct (draws 30 (normal 5 15) (others k g3)) as [steps g4].
  destruct (draws 30 (normal 5 15) (alone k g3)) as [steps' g4'].
  cbn [fst pizza_index vix_series]. split; reflexivity.
Qed.

(** The simulated signal has 30 entries. *)
Lemma simulated_signal_has_30_days (others : nat -> rng -> rng)
    (now : datetime) (g : rng) :
  List.length
    (pizza_index (fst (generate_simulated_historical_data others now g)))
  = 30%nat.
Proof.
  unfold generate_simulated_historical_data, call.
  pose proof (draws_length 30 (normal 0 15) (others 0%nat (seed 42))) as H0.
  destruct (draws 30 (normal 0 15) (others 0%nat (seed 42)))
    as [pizza0 g1].
  pose proof (crisis_days_length others [5; 12; 22]%nat
                (pizza0, others 1%nat g1, 2%nat)) as H1.
  destruct (fold_left (crisis_day others) [5; 12; 22]%nat
              (pizza0, others 1%nat g1, 2%nat)) as [[pizza_base g2] k].
  destruct (draws 30 (normal 0 2) g2) as [noise g3].
  destruct (draws 30 (normal 5 15) (others k g3)) as [steps g4].
  cbn [fst snd pizza_index] in *. rewrite length_map. congruence.
Qed.

(** The response of [get_data], spelled out. *)
Lemma get_data_correlation (w : world) :
  exists r g,
    get_data w = Exn.Return (r, g) /\
    response_historical r
    = fst (generate_simulated_historical_data (other_requests w)
             (simulation_time w) (np_random w)) /\
    correlation_3 r = round (correlation (response_historical r)) 3 /\
    response_spike_count r = spike_count (response_historical r).
Proof.
  unfold get_data.
  destruct (fetch_sensors_returns w SENSORS) as (rows & -> & _).
  cbn [Exn.bind].
  destruct (get_market_data_returns (yfinance w) (vix_1mo w) (gold_1mo w))
    as (m & ->).
  cbn [Exn.bind].
  destruct (generate_simulated_historical_data (other_requests w)
              (simulation_time w) (np_random w)) as [h g].
  exists {| timestamp := isoformat (request_time w);
            current_hour := hour_of (request_time w);
            sensors := rows;
            market_data := m;
            response_composite_score := composite_score rows;
            response_historical := h;
            correlation_3 := round (correlation h) 3;
            response_spike_count := spike_count h;
            accuracy := 78;
            lead_time := "~18h" |}, g.
  cbn [fst response_historical correlation_3 response_spike_count].
  repeat split.
Qed.

(** C10 (amended): any two invocations of [get_data] during which no
    other request uses [np.random] between the seeding and the draw of
    the VIX noise (invocations that do not overlap, in particular) report
    the same correlation coefficient and the same spike count, whatever
    the sensor readings, the market data, the clock and the state of the
    generator they meet: both figures are computed from the simulated
    30-day series of seed 42 alone. *)
Theorem correlation_ignores_live_inputs (w1 w2 : world) :
  (forall k g, (k < 8)%nat -> other_requests w1 k g = g) ->
  (forall k g, (k < 8)%nat -> other_requests w2 k g = g) ->
  exists r1 g1 r2 g2,
    get_data w1 = Exn.Return (r1, g1) /\
    get_data w2 = Exn.Return (r2, g2) /\
    correlation_3 r1 = correlation_3 r2 /\
    response_spike_count r1 = response_spike_count r2 /\
    pizza_index (response_historical r1)
    = pizza_index (response_historical r2) /\
    vix_series (response_historical r1)
    = vix_series (response_historical r2) /\
    List.length (pizza_index (response_historical r1)) = 30%nat /\
    correlation_3 r1
    = round (corrcoef (removelast (pizza_index (response_historical r1)))
                      (tl (vix_series (response_historical r1)))) 3 /\
    response_spike_count r1
    = count_spikes (pizza_index (response_historical r1)).
Proof.
  intros Hquiet1 Hquiet2.
  destruct (get_data_correlation w1) as (r1 & g1 & H1 & Hh1 & Hc1 & Hs1).
  destruct (get_data_correlation w2) as (r2 & g2 & H2 & Hh2 & Hc2 & Hs2).
  destruct (@undisturbed_series (other_requests w1) (simulation_time w1)
              (np_random w1) Hquiet1) as (Hp1 & Hv1).
  destruct (@undisturbed_series (other_requests w2) (simulation_time w2)
              (np_random w2) Hquiet2) as (Hp2 & Hv2).
  destruct (simulated_series_are_fixed (simulation_time w1)
              (simulation_time w2) (np_random w1) (np_random w2))
    as (Hp & Hv & _ & _).
  rewrite <- Hp2, <- Hp1 in Hp. rewrite <- Hv2, <- Hv1 in Hv.
  rewrite <- Hh1, <- Hh2 in Hp, Hv.
  exists r1, g1, r2, g2. repeat split; try assumption.
  - rewrite Hc1, Hc2. unfold correlation, pizza_arr, vix_arr.
    rewrite Hp, Hv. reflexivity.
  - rewrite Hs1, Hs2. unfold spike_count. rewrite Hp. reflexivity.
  - rewrite Hh1. apply simulated_signal_has_30_days.
Qed.

End Simulated.

Lemma correlation_ignores_live_inputs_witness :
  let quiet := @Dashboard.Build_world Numpy.standin (2, 23)%nat
                 (fun _ => Exn.Raise "timeout") (fun _ => (2, 23)%nat)
                 (Exn.Return tt) (Exn.Return []) (Exn.Return [])
                 (2, 23)%nat 7%Z (@Dashboard.alone Numpy.standin) in
  let late := @Dashboard.Build_world Numpy.standin (5, 9)%nat
                (fun _ => Exn.Return None) (fun _ => (5, 9)%nat)
                (Exn.Raise "no yfinance") (Exn.Return []) (Exn.Return [])
                (5, 9)%nat 1234%Z
                (fun k g => if (8 <=? k)%nat then 42%Z else g) in
  exists r1 g1 r2 g2,
    Dashboard.get_data quiet = Exn.Return (r1, g1) /\
    Dashboard.get_data late = Exn.Return (r2, g2) /\
    Dashboard.correlation_3 r1 = Dashboard.correlation_3 r2 /\
    Dashboard.response_spike_count r1 = Dashboard.response_spike_count r2.
Proof.
  destruct (@correlation_ignores_live_inputs Numpy.standin
              (@Dashboard.Build_world Numpy.standin (2, 23)%nat
                 (fun _ => Exn.Raise "timeout") (fun _ => (2, 23)%nat)
                 (Exn.Return tt) (Exn.Return []) (Exn.Return [])
                 (2, 23)%nat 7%Z (@Dashboard.alone Numpy.standin))
              (@Dashboard.Build_world Numpy.standin (5, 9)%nat
                 (fun _ => Exn.Return None) (fun _ => (5, 9)%nat)
                 (Exn.Raise "no yfinance") (Exn.Return []) (Exn.Return [])
                 (5, 9)%nat 1234%Z
                 (fun k g => if (8 <=? k)%nat then 42%Z else g)))
    as (r1 & g1 & r2 & g2 & H1 & H2 & Hc & Hs & _).
  - intros k g _. reflexivity.
  - intros k g Hk. cbn [Dashboard.other_requests].
    destruct (Nat.leb_spec 8 k) as [Hle | Hlt]; [lia | reflexivity].
  - exists r1, g1, r2, g2. repeat split; assumption.
Defined.

(** C10, as stated, fails for invocations that overlap: the generator is
    shared by the threads of the server.  When another request's
    [np.random.seed(42)] lands between the first draw of an invocation
    and its crisis-day draws, these draws start again from the seed, and
    the coefficient reported differs from that of an invocation running
    alone (on the stand-in generator, about 0.657 against 0.387). *)
Lemma overlapping_request_changes_the_correlation :
  let w others :=
    @Dashboard.Build_world Numpy.standin (2, 23)%nat
      (fun _ => Exn.Raise "timeout") (fun _ => (2, 23)%nat)
      (Exn.Return tt) (Exn.Return []) (Exn.Return [])
      (2, 23)%nat 7%Z others in
  let reseeded : nat -> Z -> Z :=
    fun k g => if (k =? 1)%nat then @seed Numpy.standin 42 else g in
  exists c1 c2 n1 n2,
    Dashboard.correlation_figures
      (Dashboard.get_data (w (@Dashboard.alone Numpy.standin)))
    = Some (c1, n1) /\
    Dashboard.correlation_figures (Dashboard.get_data (w reseeded))
    = Some (c2, n2) /\
    (c1 <? c2)%float = true /\ c1 <> c2.
Proof.
  exists 0x1.8be29dbc6af32p-2%float, 0x1.505a3d58041d4p-1%float, 3%Z, 3%Z.
  split; [vm_compute; reflexivity|].
  split; [vm_compute; reflexivity|].
  split; [vm_compute; reflexivity|].
  intros H. apply (f_equal (fun c => (c <? 0x1.505a3d58041d4p-1)%float)) in H.
  vm_compute in H. discriminate.
Qed.

(* ================================================================== *)
(** * [get_data]: the sensor rows *)
(* ================================================================== *)

Section SensorRows.
Import Dashboard.
Context {E : External}.

Lemma Return_inj {A} (a b : A) : Exn.Return a = Exn.Return b -> a = b.
Proof. intros H. injection H. auto. Qed.

(** The rows the loop builds, sensor by sensor. *)
Lemma fetch_sensors_rows (w : world) (todo : list sensor) :
  fetch_sensors w todo
  = Exn.Return
      (map (fun s =>
              sensor_entry s
                match populartimes_by_address w (address s) with
                | Exn.Return data =>
                    read_place data (weekday (fetch_time w (address s)))
                      (hour_of (fetch_time w (address s)))
                | Exn.Raise e => NoData e
                end)
           todo).
Proof.
  induction todo as [| s rest IH]; [reflexivity|].
  cbn [fetch_sensors map]. rewrite get_live_popularity_returns, IH.
  reflexivity.
Qed.

Lemma sensor_entry_name_role (s : sensor) (data : popularity) :
  row_name (sensor_entry s data) = name s /\
  row_role (sensor_entry s data) = role s.
Proof. destruct data; split; reflexivity. Qed.

Lemma sensor_entry_no_reading (s : sensor) (o : Provider.outcome)
    (day_of_week hour : nat) :
  Reading.no_reading o = true ->
  let row := sensor_entry s
               match o with
               | Exn.Return data => read_place data day_of_week hour
               | Exn.Raise e => NoData e
               end in
  current row = None /\ usual row = None /\ is_active row = false.
Proof.
  destruct o as [[d|] | msg]; [discriminate | |]; intros _;
    repeat split.
Qed.

(** The response of [get_data], field by field. *)
Lemma get_data_shape (w : world) :
  exists rows m,
    fetch_sensors w SENSORS = Exn.Return rows /\
    get_market_data (yfinance w) (vix_1mo w) (gold_1mo w) = Exn.Return m /\
    get_data w
    = Exn.Return
        (let hg := generate_simulated_historical_data (other_requests w)
                     (simulation_time w) (np_random w) in
         ({| timestamp := isoformat (request_time w);
             current_hour := hour_of (request_time w);
             sensors := rows;
             market_data := m;
             response_composite_score := composite_score rows;
             response_historical := fst hg;
             correlation_3 := round (correlation (fst hg)) 3;
             response_spike_count := spike_count (fst hg);
             accuracy := 78;
             lead_time := "~18h" |},
          snd hg)).
Proof.
  unfold get_data.
  destruct (fetch_sensors_returns w SENSORS) as (rows & Hrows & _).
  destruct (get_market_data_returns (yfinance w) (vix_1mo w) (gold_1mo w))
    as (m & Hm).
  exists rows, m. rewrite Hrows, Hm. cbn [Exn.bind].
  destruct (generate_simulated_historical_data (other_requests w)
              (simulation_time w) (np_random w)) as [h g].
  repeat split.
Qed.

(** X1: whatever the providers do, the response lists one row for each
    entry of [SENSORS], in the order of [SENSORS] and under its name and
    role; the composite score it reports is the one of these rows, and the
    hour it reports is that of the request. *)
Theorem get_data_reports_every_sensor_in_order (w : world) :
  exists r g,
    get_data w = Exn.Return (r, g) /\
    map row_name (sensors r) = map name SENSORS /\
    map row_role (sensors r) = map role SENSORS /\
    List.length (sensors r) = 9%nat /\
    response_composite_score r = composite_score (sensors r) /\
    current_hour r = hour_of (request_time w).
Proof.
  destruct (get_data_shape w) as (rows & m & Hrows & _ & Hget).
  rewrite fetch_sensors_rows in Hrows. apply Return_inj in Hrows.
  eexists. eexists. split; [exact Hget|].
  cbn [fst sensors response_composite_score current_hour].
  rewrite <- Hrows. rewrite !map_map, length_map.
  repeat split.
  - apply map_ext. intros s. apply sensor_entry_name_role.
  - apply map_ext. intros s. apply sensor_entry_name_role.
Qed.

(** X2: when every provider call raises or returns nothing, every row
    lacks current value and baseline, the composite score is absent, the
    banner reads SENSORS OFFLINE, the gauge is drawn at 0 and the
    interpretation is the offline one; the response is still produced. *)
Theorem all_providers_down_reads_offline (w : world) :
  (forall s, In s SENSORS ->
             Reading.no_reading (populartimes_by_address w (address s))
             = true) ->
  exists r g,
    get_data w = Exn.Return (r, g) /\
    Forall (fun row => current row = None /\ usual row = None) (sensors r) /\
    response_composite_score r = None /\
    title (updateAlertBanner (response_composite_score r))
    = "SENSORS OFFLINE"%string /\
    pizzaScore (response_composite_score r) = 0%float /\
    interpretation (response_composite_score r) = SensorsOffline.
Proof.
  intros Hdown.
  destruct (get_data_shape w) as (rows & m & Hrows & _ & Hget).
  rewrite fetch_sensors_rows in Hrows. apply Return_inj in Hrows.
  eexists. eexists. split; [exact Hget|].
  cbn [fst sensors response_composite_score].
  assert (Hall : Forall (fun row => current row = None /\ usual row = None /\
                                    is_active row = false) rows).
  { rewrite <- Hrows. apply Forall_forall. intros row Hin.
    apply in_map_iff in Hin. destruct Hin as (s & <- & Hs).
    apply sensor_entry_no_reading. apply Hdown. exact Hs. }
  assert (Hnone : composite_score rows = None).
  { apply composite_score_None. apply filter_empty_iff.
    intros row Hin. rewrite Forall_forall in Hall.
    apply (Hall row Hin). }
  rewrite Hnone. repeat split.
  eapply Forall_impl; [|exact Hall]. intros row (? & ? & _). auto.
Qed.

End SensorRows.

Lemma all_providers_down_reads_offline_witness :
  let w := @Dashboard.Build_world Numpy.standin (2, 23)%nat
             (fun _ => Exn.Raise "timeout") (fun _ => (2, 23)%nat)
             (Exn.Return tt) (Exn.Return []) (Exn.Return [])
             (2, 23)%nat 7%Z (@Dashboard.alone Numpy.standin) in
  exists r g,
    @Dashboard.get_data Numpy.standin w = Exn.Return (r, g) /\
    Dashboard.response_composite_score r = None.
Proof.
  destruct (@all_providers_down_reads_offline Numpy.standin
              (@Dashboard.Build_world Numpy.standin (2, 23)%nat
                 (fun _ => Exn.Raise "timeout") (fun _ => (2, 23)%nat)
                 (Exn.Return tt) (Exn.Return []) (Exn.Return [])
                 (2, 23)%nat 7%Z (@Dashboard.alone Numpy.standin))
              (fun _ _ => eq_refl))
    as (r & g & Hget & _ & Hnone & _).
  exists r, g. split; assumption.
Defined.


(* ================================================================== *)
(** * [get_live_popularity]: what a closed venue is given *)
(* ================================================================== *)

Section ClosedVenue.
Import Dashboard.

(** The loop finds the latest positive hour of a descending range. *)
Lemma scan_complete (data : list Z) (lowest count : nat) (v : Z) (h : nat) :
  (lowest <= h < lowest + count)%nat ->
  nth_error data h = Some v -> (0 < v)%Z ->
  (forall h' v', (h < h' < lowest + count)%nat ->
                 nth_error data h' = Some v' -> (v' <= 0)%Z) ->
  scan data (Py.range_down lowest count) = Some (v, h).
Proof.
  induction count as [| n IH]; [lia|].
  intros Hh Hv Hpos Hlater. rewrite range_down_S. cbn [scan].
  destruct (Nat.eq_dec h (lowest + n)) as [-> | Hne].
  - rewrite Hv. apply Z.ltb_lt in Hpos. rewrite Hpos. reflexivity.
  - assert (Hrec : scan data (Py.range_down lowest n) = Some (v, h)).
    { apply IH; auto; [lia|]. intros h' v' Hh'. apply Hlater. lia. }
    destruct (nth_error data (lowest + n)) as [v0|] eqn:Hn; [|exact Hrec].
    assert (Hv0 : (v0 <= 0)%Z) by (apply (Hlater (lowest + n)%nat); [lia|auto]).
    apply Z.ltb_ge in Hv0. rewrite Hv0. exact Hrec.
Qed.

(** The busyness scale is small enough to check a property of the
    percentage on all of it. *)
Lemma on_busyness_scale_spec (ok : Z -> Z -> bool) :
  Reading.on_busyness_scale ok = true ->
  forall c u, (0 <= c <= 100)%Z -> (0 < u <= 100)%Z -> ok c u = true.
Proof.
  unfold Reading.on_busyness_scale. intros H c u Hc Hu.
  rewrite forallb_forall in H.
  specialize (H (Z.to_nat c)). rewrite forallb_forall in H.
  specialize (H ltac:(apply in_seq; lia) (Z.to_nat u) ltac:(apply in_seq; lia)).
  rewrite !Z2Nat.id in H by lia. exact H.
Qed.

(** On the busyness scale a reading equal to its baseline scores exactly
    0, in Python and in the page. *)
Lemma pct_of_usual_is_zero (u : Z) :
  (0 < u <= 100)%Z -> pct u u = 0%float /\ js_pct u u = 0%float.
Proof.
  intros Hu.
  assert (H : Reading.on_busyness_scale
                (fun _ u => PrimFloat.Leibniz.eqb (pct u u) 0
                            && PrimFloat.Leibniz.eqb (js_pct u u) 0) = true)
    by (vm_compute; reflexivity).
  pose proof (@on_busyness_scale_spec _ H 0%Z u ltac:(lia) Hu) as Hok.
  apply andb_true_iff in Hok. destruct Hok as [H1 H2].
  split; apply FloatAxioms.Leibniz.eqb_spec; assumption.
Qed.

(** X3: a venue that reports no current value while its usual value for
    the hour is strictly positive is given that usual value, as a
    fallback found at the current hour itself: the row counts in the
    composite and, on the 0..100 scale, with a percentage of exactly 0. *)
Theorem closed_venue_is_imputed_its_usual_value
    (d : Provider.place) (s : sensor) (day_of_week hour : nat) (u : Z) :
  Provider.current_popularity d = None ->
  nth_error (Py.get (Provider.day_series (Provider.populartimes d)
                       day_of_week) []) hour = Some u ->
  (0 < u)%Z ->
  exists r,
    read_place (Some d) day_of_week hour = HasData r /\
    current_popularity r = Some u /\
    usual_popularity r = Some u /\
    is_fallback r = true /\
    reading_fallback_hour r = Some hour /\
    is_active (sensor_entry s (HasData r)) = true /\
    scores_of [sensor_entry s (HasData r)] = [pct u u] /\
    ((u <= 100)%Z -> pct u u = 0%float).
Proof.
  intros Hcur Husual Hpos. unfold read_place. rewrite Hcur.
  set (today_data := Py.get (Provider.day_series (Provider.populartimes d)
                               day_of_week) []) in *.
  assert (Hscan : scan today_data (Py.range_down 0 (S hour)) = Some (u, hour)).
  { apply scan_complete; auto; [lia|]. intros h' v' Hh'. lia. }
  unfold fallback. destruct today_data as [| x rest] eqn:Htoday.
  - destruct hour; discriminate.
  - rewrite Hscan. eexists. split; [reflexivity|].
    cbn [current_popularity usual_popularity is_fallback
         reading_fallback_hour current_pop is_using_fallback fallback_hour].
    assert (Hact : is_active
                     (sensor_entry s
                        (HasData
                           {| current_popularity := Some u;
                              usual_popularity := nth_error (x :: rest) hour;
                              today_hourly := x :: rest;
                              place_name := Provider.name d;
                              rating := Provider.rating d;
                              is_fallback := true;
                              reading_fallback_hour := Some hour |})) = true).
    { apply is_active_iff. exists u, u. cbn. auto. }
    repeat split; auto.
    + cbn. rewrite Husual. reflexivity.
    + intros Hle. apply pct_of_usual_is_zero. lia.
Qed.

Lemma closed_venue_is_imputed_its_usual_value_witness :
  let d := {| Provider.place_id := None; Provider.name := None;
              Provider.rating := None;
              Provider.current_popularity := None;
              Provider.populartimes :=
                Some [ {| Provider.day_data := Some [10; 20; 35]%Z |} ] |} in
  exists r,
    read_place (Some d) 0 2 = HasData r /\
    current_popularity r = Some 35%Z.
Proof.
  destruct (@closed_venue_is_imputed_its_usual_value
              {| Provider.place_id := None; Provider.name := None;
                 Provider.rating := None;
                 Provider.current_popularity := None;
                 Provider.populartimes :=
                   Some [ {| Provider.day_data := Some [10; 20; 35]%Z |} ] |}
              {| name := "s"; address := "a"; role := "Primary" |}
              0 2 35%Z eq_refl eq_refl eq_refl)
    as (r & Hr & Hc & _).
  exists r. split; assumption.
Defined.

(** X4: the evening consulted when today has nothing is yesterday's: for
    a weekday [0..6] it is the entry [(day + 6) mod 7] of [populartimes],
    Sunday's on a Monday.  With no current value, a non-empty series for
    today without a strictly positive entry up to the current hour, and
    yesterday's latest strictly positive entry among hours 18..23 being
    [v] at hour [h], the reading is [v], marked as a fallback from hour
    [h]. *)
Theorem fallback_consults_yesterday
    (d : Provider.place) (day_of_week hour : nat)
    (today evening : list Z) (v : Z) (h : nat) :
  (day_of_week < 7)%nat ->
  Provider.current_popularity d = None ->
  Provider.day_series (Provider.populartimes d) day_of_week = Some today ->
  today <> [] ->
  (forall h' v', (h' <= hour)%nat -> nth_error today h' = Some v' ->
                 (v' <= 0)%Z) ->
  Provider.day_series (Provider.populartimes d) ((day_of_week + 6) mod 7)
  = Some evening ->
  (18 <= h <= 23)%nat -> nth_error evening h = Some v -> (0 < v)%Z ->
  (forall h' v', (h < h' <= 23)%nat -> nth_error evening h' = Some v' ->
                 (v' <= 0)%Z) ->
  exists r,
    read_place (Some d) day_of_week hour = HasData r /\
    current_popularity r = Some v /\
    is_fallback r = true /\
    reading_fallback_hour r = Some h /\
    usual_popularity r = nth_error today hour /\
    today_hourly r = today.
Proof.
  intros Hday Hcur Htoday Hne Hnone Hprev Hh Hv Hpos Hlater.
  assert (Hpd : prev_day day_of_week = ((day_of_week + 6) mod 7)%nat).
  { unfold prev_day.
    do 7 (destruct day_of_week as [| day_of_week]; [reflexivity|]). lia. }
  unfold read_place. rewrite Hcur, Htoday, Hpd, Hprev. cbn [Py.get].
  unfold fallback. destruct today as [| x rest]; [contradiction|].
  replace (scan (x :: rest) (Py.range_down 0 (S hour)))
    with (@None (Z * nat)).
  - rewrite (@scan_complete evening 18 6 v h); auto; [|lia|].
    + eexists. repeat split.
    + intros h' v' Hh'. apply Hlater. lia.
  - symmetry. apply scan_None. intros h' v' Hin.
    apply In_range_down in Hin. apply Hnone. lia.
Qed.

Lemma fallback_consults_yesterday_witness :
  let week := repeat {| Provider.day_data := Some [0; 0; 0]%Z |} 6
              ++ [ {| Provider.day_data :=
                        Some (repeat 0%Z 21 ++ [40; 0; 0]%Z) |} ] in
  let d := {| Provider.place_id := None; Provider.name := None;
              Provider.rating := None;
              Provider.current_popularity := None;
              Provider.populartimes := Some week |} in
  exists r,
    read_place (Some d) 0 2 = HasData r /\
    current_popularity r = Some 40%Z /\
    reading_fallback_hour r = Some 21%nat.
Proof.
  destruct (@fallback_consults_yesterday
              {| Provider.place_id := None; Provider.name := None;
                 Provider.rating := None;
                 Provider.current_popularity := None;
                 Provider.populartimes :=
                   Some (repeat {| Provider.day_data := Some [0; 0; 0]%Z |} 6
                         ++ [ {| Provider.day_data :=
                                   Some (repeat 0%Z 21 ++ [40; 0; 0]%Z) |} ])
              |}
              0 2 [0; 0; 0]%Z (repeat 0%Z 21 ++ [40; 0; 0]%Z) 40%Z 21)
    as (r & Hr & Hc & _ & Hh & _).
  - lia.
  - reflexivity.
  - reflexivity.
  - discriminate.
  - intros h' v' Hle Hn.
    destruct h' as [| [| [| h']]]; try lia; cbn in Hn; inversion Hn; lia.
  - reflexivity.
  - lia.
  - reflexivity.
  - lia.
  - intros h' v' Hle Hn.
    assert (Hc : h' = 22%nat \/ h' = 23%nat) by lia.
    destruct Hc as [-> | ->]; cbn in Hn; inversion Hn; lia.
  - exists r. repeat split; assumption.
Defined.

End ClosedVenue.

(* ================================================================== *)
(** * The composite score: what it depends on *)
(* ================================================================== *)

Section CompositeFacts.
Import Dashboard.

(** X5: on sensors none of which is an inverse indicator, [get_data] and
    [generate_report] compute the same composite from the same current
    values and baselines. *)
Theorem composites_agree_without_inverse (sensors : list Spec.sensor) :
  Forall (fun s => Spec.polarity_of s = Spec.Normal) sensors ->
  composite_score (map Reading.dashboard_row sensors)
  = TestScraper.avg_anomaly_of
      (TestScraper.composite_index (map Reading.scraper_result sensors)).
Proof.
  intros Hnormal.
  rewrite dashboard_composite_is_raw_mean, scraper_composite_is_mean.
  f_equal. rewrite <- (map_id sensors) at 2. apply map_ext_in.
  intros s Hin. rewrite Forall_forall in Hnormal.
  specialize (Hnormal s Hin). destruct s as [c b p]. cbn in *.
  subst p. reflexivity.
Qed.

Lemma composites_agree_without_inverse_witness :
  let sensors :=
    [ {| Spec.current := Some 120%Z; Spec.baseline := Some 80%Z;
         Spec.polarity_of := Spec.Normal |};
      {| Spec.current := Some 30%Z; Spec.baseline := Some 60%Z;
         Spec.polarity_of := Spec.Normal |} ] in
  composite_score (map Reading.dashboard_row sensors)
  = TestScraper.avg_anomaly_of
      (TestScraper.composite_index (map Reading.scraper_result sensors)).
Proof.
  apply composites_agree_without_inverse.
  repeat constructor.
Defined.

End CompositeFacts.

(* ================================================================== *)
(** * [get_market_data]: the headline and the history *)
(* ================================================================== *)

Section MarketFacts.
Import Dashboard.
Context {E : External}.

Lemma last_history_point (bars : list Provider.bar) (last : Provider.bar)
    (rest : list Provider.bar) :
  rev bars = last :: rest ->
  hd_error (rev (history_points bars))
  = Some (Provider.date last, last_close last).
Proof.
  intros Hrev. unfold history_points. rewrite <- map_rev, Hrev. reflexivity.
Qed.

Lemma rev_nil_inv {A} (l : list A) : rev l = [] -> l = [].
Proof.
  intros H. apply (f_equal (@rev A)) in H. rewrite rev_involutive in H.
  exact H.
Qed.

(** X6: for each ticker, the headline price is the value of the last
    point of the history sent with it, and the two are absent together:
    no price without a history and no history without a price; the
    history has one point for each bar fetched, under the bar's date. *)
Theorem headline_is_the_last_history_point
    (vix_hist gold_hist : Exn.t (list Provider.bar)) :
  exists r,
    get_market_data (Exn.Return tt) vix_hist gold_hist
    = Exn.Return (MarketData r) /\
    vix r = option_map snd (hd_error (rev (vix_history r))) /\
    gold r = option_map snd (hd_error (rev (gold_history r))) /\
    (vix r = None <-> vix_history r = []) /\
    (gold r = None <-> gold_history r = []) /\
    (vix_change r = None <-> vix r = None) /\
    (gold_change r = None <-> gold r = None) /\
    map fst (vix_history r)
    = match vix_hist with
      | Exn.Return bars => map Provider.date bars
      | Exn.Raise _ => []
      end /\
    map fst (gold_history r)
    = match gold_hist with
      | Exn.Return bars => map Provider.date bars
      | Exn.Raise _ => []
      end.
Proof.
  unfold get_market_data, fetch_vix, fetch_gold, Exn.try_except, Exn.bind.
  destruct vix_hist as [vbars | vmsg], gold_hist as [gbars | gmsg].
  all: try (destruct (rev vbars) as [| vlast vrest] eqn:Hv;
            [apply rev_nil_inv in Hv; subst vbars|]).
  all: try (destruct (rev gbars) as [| glast grest] eqn:Hg;
            [apply rev_nil_inv in Hg; subst gbars|]).
  all: eexists; split; [reflexivity|];
    cbn [vix gold vix_change gold_change vix_history gold_history];
    try rewrite (last_history_point _ Hv);
    try rewrite (last_history_point _ Hg);
    unfold history_points; rewrite ?map_map; cbn [map fst snd option_map
                                                    hd_error rev];
    repeat split; try discriminate; try reflexivity; try congruence.
  all: try (intros H; apply map_eq_nil in H; subst;
            discriminate).
Qed.

End MarketFacts.

(* ================================================================== *)
(** * The simulated history: sizes and bounds *)
(* ================================================================== *)

Section SimulatedFacts.
Import Dashboard.
Context {E : External}.

Lemma vix_days_length (pizza_base : list float) (days : list nat)
    (vix_base : list float) :
  List.length (fold_left (vix_day pizza_base) days vix_base)
  = List.length vix_base.
Proof.
  revert vix_base. induction days as [| i rest IH]; intros vix_base;
    [reflexivity|].
  cbn [fold_left]. rewrite IH. unfold vix_day.
  destruct (25 <? _)%float; [apply add_at_length | reflexivity].
Qed.

Lemma gold_days_length (vix_base : list float) (days : list nat)
    (gold_base : list float) :
  List.length (fold_left (gold_day vix_base) days gold_base)
  = List.length gold_base.
Proof.
  revert gold_base. induction days as [| i rest IH]; intros gold_base;
    [reflexivity|].
  cbn [fold_left]. rewrite IH. unfold gold_day.
  destruct (20 <? _)%float; [apply add_at_length | reflexivity].
Qed.

Lemma cumsum_from_length (acc : float) (xs : list float) :
  List.length (cumsum_from acc xs) = List.length xs.
Proof.
  revert acc. induction xs as [| x rest IH]; intros acc; [reflexivity|].
  cbn. rewrite IH. reflexivity.
Qed.

Lemma cumsum_length (xs : list float) :
  List.length (cumsum xs) = List.length xs.
Proof.
  destruct xs as [| x rest]; [reflexivity|].
  cbn. rewrite cumsum_from_length. reflexivity.
Qed.

(** X7: the four series of the simulated history have 30 entries each,
    so that every point of a chart has its date; the spike count lies
    between 0 and 30.  This holds whatever the requests on other threads
    do to the generator meanwhile. *)
Theorem simulated_history_has_30_days (others : nat -> rng -> rng)
    (now : datetime) (g : rng) :
  let h := fst (generate_simulated_historical_data others now g) in
  List.length (dates h) = 30%nat /\
  List.length (pizza_index h) = 30%nat /\
  List.length (vix_series h) = 30%nat /\
  List.length (gold_series h) = 30%nat /\
  (0 <= spike_count h <= 30)%Z.
Proof.
  cbv zeta.
  assert (Hp : List.length
                 (pizza_index
                    (fst (generate_simulated_historical_data others now g)))
               = 30%nat) by apply simulated_signal_has_30_days.
  pose proof (spike_count_total
                (fst (generate_simulated_historical_data others now g)))
    as Hs.
  rewrite Hp in Hs. repeat split; try lia; try exact Hp.
  all: unfold generate_simulated_historical_data, call.
  all: destruct (draws 30 (normal 0 15) (others 0%nat (seed 42)))
         as [pizza0 g1].
  all: destruct (fold_left (crisis_day others) [5; 12; 22]%nat
                   (pizza0, others 1%nat g1, 2%nat))
         as [[pizza_base g2] k].
  all: pose proof (draws_length 30 (normal 0 2) g2) as Hn.
  all: destruct (draws 30 (normal 0 2) g2) as [noise g3].
  all: pose proof (draws_length 30 (normal 5 15) (others k g3)) as Hst.
  all: destruct (draws 30 (normal 5 15) (others k g3)) as [steps g4].
  all: cbn [fst snd dates vix_series gold_series] in *.
  - rewrite length_map. unfold Py.range_down.
    rewrite length_rev, length_seq. reflexivity.
  - rewrite length_map, vix_days_length, length_map. exact Hn.
  - rewrite length_map, gold_days_length, length_map, cumsum_length.
    exact Hst.
Qed.

(** Clamping gives a number of the interval, whatever it is given: a NaN
    or an infinity included. *)
Lemma clamp_in_range (lo hi v : float) :
  (lo <? hi)%float = true ->
  (lo <=? Py.max lo (Py.min hi v))%float = true /\
  (Py.max lo (Py.min hi v) <=? hi)%float = true.
Proof.
  intros Hlohi. unfold Py.max, Py.min.
  assert (Hlo : (lo <=? lo)%float = true).
  { apply ltb_leb in Hlohi. rewrite leb_spec in *. unfold SFleb in *.
    destruct (Prim2SF lo) as [s | s | | s m e]; try destruct s;
      cbn in *; try discriminate; try reflexivity.
    - rewrite Z.compare_refl, Pos.compare_cont_refl. reflexivity.
    - rewrite Z.compare_refl, Pos.compare_cont_refl. reflexivity. }
  assert (Hhi : (hi <=? hi)%float = true).
  { apply ltb_leb in Hlohi. rewrite leb_spec in *. unfold SFleb in *.
    destruct (Prim2SF hi) as [s | s | | s m e]; try destruct s;
      destruct (Prim2SF lo) as [s' | s' | | s' m' e']; try destruct s';
      cbn in *; try discriminate; try reflexivity.
    all: rewrite Z.compare_refl, Pos.compare_cont_refl; reflexivity. }
  destruct (v <? hi)%float eqn:Hv.
  - destruct (lo <? v)%float eqn:Hl.
    + split; apply ltb_leb; assumption.
    + split; [exact Hlo | apply ltb_leb; exact Hlohi].
  - rewrite Hlohi. split; [apply ltb_leb; exact Hlohi | exact Hhi].
Qed.

(** X8: every entry of the simulated pizza index is the rounding of a
    number between -50 and 100, and every entry of the simulated VIX the
    rounding of a number between 10 and 40, whatever the generator
    draws and whatever the requests on other threads do to it. *)
Theorem simulated_series_are_clamped (others : nat -> rng -> rng)
    (now : datetime) (g : rng) :
  let h := fst (generate_simulated_historical_data others now g) in
  Forall (fun v => exists c, v = round c 1 /\
                             (-50 <=? c)%float = true /\
                             (c <=? 100)%float = true)
         (pizza_index h) /\
  Forall (fun v => exists c, v = round c 2 /\
                             (10 <=? c)%float = true /\
                             (c <=? 40)%float = true)
         (vix_series h).
Proof.
  cbv zeta. unfold generate_simulated_historical_data, call.
  destruct (draws 30 (normal 0 15) (others 0%nat (seed 42)))
    as [pizza0 g1].
  destruct (fold_left (crisis_day others) [5; 12; 22]%nat
              (pizza0, others 1%nat g1, 2%nat)) as [[pizza_base g2] k].
  destruct (draws 30 (normal 0 2) g2) as [noise g3].
  destruct (draws 30 (normal 5 15) (others k g3)) as [steps g4].
  cbn [fst pizza_index vix_series].
  split; apply Forall_forall; intros v Hin; apply in_map_iff in Hin;
    destruct Hin as (x & <- & _); eexists; (split; [reflexivity|]);
    apply clamp_in_range; reflexivity.
Qed.

End SimulatedFacts.

(* ================================================================== *)
(** * The page: spike markers, banner, interpretation, hourly chart *)
(* ================================================================== *)

Section Page.
Import Dashboard.

Lemma spike_events_values (dates : list string) (i : nat)
    (pizza_index : list float) :
  map snd (spike_events dates i pizza_index)
  = filter (fun v => (30 <? v)%float) pizza_index.
Proof.
  revert i. induction pizza_index as [| val rest IH]; intros i;
    [reflexivity|].
  cbn [spike_events filter]. destruct (30 <? val)%float; cbn [map snd];
    rewrite IH; reflexivity.
Qed.

Lemma spike_events_dates (dates : list string) (i : nat)
    (pizza_index : list float) :
  (i + List.length pizza_index <= List.length dates)%nat ->
  Forall (fun x => x <> None) (map fst (spike_events dates i pizza_index)).
Proof.
  revert i. induction pizza_index as [| val rest IH]; intros i Hlen;
    [constructor|].
  cbn [spike_events]. cbn [List.length] in Hlen.
  destruct (30 <? val)%float; cbn [map fst].
  - constructor; [|apply IH; lia].
    apply nth_error_Some. lia.
  - apply IH. lia.
Qed.

(** X9: the spike markers of the correlation chart are the entries of
    the pizza index strictly above 30, in order, so their number is the
    spike count the response reports; there is one date for each marker,
    and none is missing when there are at least as many dates as
    entries. *)
Theorem spike_markers_match_the_spike_count (data : historical) :
  spikeY data = filter (fun v => (30 <? v)%float) (pizza_index data) /\
  Z.of_nat (List.length (spikeY data)) = spike_count data /\
  List.length (spikeX data) = List.length (spikeY data) /\
  Forall (fun y => (30 <? y)%float = true) (spikeY data) /\
  ((List.length (pizza_index data) <= List.length (dates data))%nat ->
   Forall (fun x => x <> None) (spikeX data)).
Proof.
  unfold spikeY, spikeX, spike_count. rewrite spike_events_values.
  repeat split.
  - rewrite count_spikes_length. reflexivity.
  - rewrite <- spike_events_values with (dates := dates data) (i := 0%nat).
    rewrite !length_map. reflexivity.
  - apply Forall_forall. intros y Hin. apply filter_In in Hin. tauto.
  - intros Hlen. apply spike_events_dates. lia.
Qed.

(** X10: the banner and the sentence under the gauge never disagree: the
    banner is critical exactly when the sentence announces a spike,
    elevated exactly when it announces elevated activity, offline exactly
    when it says the sensors are offline, and normal for the two other
    sentences; an absent score is drawn on the gauge as 0. *)
Theorem banner_and_interpretation_agree (score : option float) :
  (className (updateAlertBanner score) = "critical"%string <->
   interpretation score = SpikeActivity) /\
  (className (updateAlertBanner score) = "elevated"%string <->
   interpretation score = ElevatedActivity) /\
  (title (updateAlertBanner score) = "SENSORS OFFLINE"%string <->
   interpretation score = SensorsOffline) /\
  (title (updateAlertBanner score) = "NORMAL OPERATIONS"%string <->
   interpretation score = BelowNormalActivity \/
   interpretation score = NormalActivity) /\
  (interpretation score = SensorsOffline ->
   pizzaScore score = 0%float).
Proof.
  destruct score as [s|]; cbn.
  - destruct (50 <? s)%float; [|destruct (25 <? s)%float;
                                 [|destruct (s <? -25)%float]];
      cbn; repeat split; try discriminate; try reflexivity; auto;
      intros [H | H]; discriminate.
  - repeat split; try discriminate; try reflexivity;
      intros [H | H]; discriminate.
Qed.

Lemma colors_from_spec (i : nat) (hourlyData : list Z)
    (currentHour : option nat) (k : nat) :
  nth_error (colors_from i hourlyData currentHour) k = Some true <->
  currentHour = Some (i + k)%nat /\ (k < List.length hourlyData)%nat.
Proof.
  revert i k. induction hourlyData as [| x rest IH]; intros i k.
  - cbn. destruct k; split; try discriminate; intros [_ H]; lia.
  - destruct k as [| k]; cbn [colors_from nth_error List.length].
    + destruct currentHour as [h|].
      * split.
        -- intros H. injection H as Heq. apply Nat.eqb_eq in Heq. subst.
           split; [f_equal; lia | lia].
        -- intros [H _]. injection H as Heq. subst.
           replace (i + 0)%nat with i by lia. rewrite Nat.eqb_refl.
           reflexivity.
      * split; [discriminate | intros [H _]; discriminate].
    + rewrite IH. replace (S i + k)%nat with (i + S k)%nat by lia.
      split; intros [H1 H2]; split; auto; lia.
Qed.

(** X11: the hourly chart colours one bar for each entry and highlights
    the bar of the current hour and no other; none when the hour is
    absent or past the data.  The NOW mark stands at the current hour,
    at the height of that bar, or at 0 when the data has no such entry. *)
Theorem hourly_chart_highlights_the_current_hour
    (hourlyData : list Z) (currentHour : option nat) :
  List.length (colors hourlyData currentHour) = List.length hourlyData /\
  (forall k, nth_error (colors hourlyData currentHour) k = Some true <->
             currentHour = Some k /\ (k < List.length hourlyData)%nat) /\
  (currentHour = None -> annotations hourlyData currentHour = []) /\
  (forall h, currentHour = Some h ->
             annotations hourlyData currentHour
             = [(h, nth h hourlyData 0%Z)]).
Proof.
  split; [|split; [|split]].
  - unfold colors. generalize 0%nat.
    induction hourlyData as [| x rest IH]; intros i; [reflexivity|].
    cbn. rewrite IH. reflexivity.
  - intros k. apply (colors_from_spec 0).
  - intros ->. reflexivity.
  - intros h ->. unfold annotations. repeat f_equal.
    revert h. induction hourlyData as [| x rest IH]; intros h.
    + destruct h; reflexivity.
    + destruct h; [reflexivity|]. cbn. apply IH.
Qed.

End Page.

(* ================================================================== *)
(** * test_scraper.py: readings, market data, composite *)
(* ================================================================== *)

Section ScraperFacts.
Import TestScraper.

Lemma day_entry_of_returns
    (day_name : Provider.day_entry -> option string)
    (populartimes : option (list Provider.day_entry)) (day_of_week : nat) :
  (forall days, populartimes = Some days ->
                days = [] \/
                exists entry, nth_error days day_of_week = Some entry /\
                              day_name entry <> None) ->
  exists e, day_entry_of day_name populartimes day_of_week = Exn.Return e.
Proof.
  intros H. unfold day_entry_of.
  destruct populartimes as [[| e0 rest] |]; try (eexists; reflexivity).
  destruct (H _ eq_refl) as [Hnil | (entry & -> & Hname)]; [discriminate|].
  destruct (day_name entry); [eexists; reflexivity | contradiction].
Qed.

(** X12: [test_scraper.py]'s [get_live_popularity] never raises; without
    an address it reports no data whatever the provider would say; when
    the provider returns a place whose [populartimes] is empty or has a
    named entry for today, the reading carries the provider's current
    value as it is (never a fallback) and the same usual value as
    [dashboard.py]'s; when [populartimes] is not empty but stops before
    today, or today's entry has no name, it reports no data at all, where
    [dashboard.py] still reports the current value. *)
Theorem scraper_reading_is_never_imputed
    (day_name : Provider.day_entry -> option string) :
  (forall imports fetch address day_of_week hour,
     exists p,
       get_live_popularity day_name imports fetch address day_of_week hour
       = Exn.Return p) /\
  (forall fetch address day_of_week hour,
     address = None \/ address = Some ""%string ->
     get_live_popularity day_name (Exn.Return tt) fetch address day_of_week
       hour
     = Exn.Return
         (NoData "No address provided and API key required for Place ID lookup")) /\
  (forall fetch query d day_of_week hour,
     query <> ""%string -> fetch query = Exn.Return (Some d) ->
     (forall days, Provider.populartimes d = Some days ->
                   days = [] \/
                   exists entry, nth_error days day_of_week = Some entry /\
                                 day_name entry <> None) ->
     exists r r',
       get_live_popularity day_name (Exn.Return tt) fetch (Some query)
         day_of_week hour = Exn.Return (HasData r) /\
       Dashboard.read_place (Some d) day_of_week hour
       = Dashboard.HasData r' /\
       current_popularity r = Provider.current_popularity d /\
       usual_popularity r = Dashboard.usual_popularity r' /\
       (Dashboard.is_fallback r' = false ->
        Dashboard.current_popularity r' = current_popularity r)) /\
  (forall fetch query d days day_of_week hour,
     query <> ""%string -> fetch query = Exn.Return (Some d) ->
     Provider.populartimes d = Some days -> days <> [] ->
     (List.length days <= day_of_week)%nat ->
     get_live_popularity day_name (Exn.Return tt) fetch (Some query)
       day_of_week hour = Exn.Return (NoData "list index out of range") /\
     exists r',
       Dashboard.get_live_popularity (fetch query) day_of_week hour
       = Exn.Return (Dashboard.HasData r') /\
       Dashboard.current_popularity r' = Provider.current_popularity d /\
       Dashboard.usual_popularity r' = None) /\
  (forall fetch query d days entry day_of_week hour,
     query <> ""%string -> fetch query = Exn.Return (Some d) ->
     Provider.populartimes d = Some days ->
     nth_error days day_of_week = Some entry -> day_name entry = None ->
     Provider.current_popularity d <> None ->
     get_live_popularity day_name (Exn.Return tt) fetch (Some query)
       day_of_week hour = Exn.Return (NoData "'name'") /\
     exists r',
       Dashboard.get_live_popularity (fetch query) day_of_week hour
       = Exn.Return (Dashboard.HasData r') /\
       Dashboard.current_popularity r' = Provider.current_popularity d).
Proof.
  split; [|split; [|split; [|split]]].
  - intros imports fetch address day_of_week hour.
    unfold get_live_popularity.
    destruct imports as [[] | msg]; [|eexists; reflexivity].
    destruct address as [query|]; [|eexists; reflexivity].
    destruct (String.eqb query ""); [eexists; reflexivity|].
    destruct (fetch query) as [[d|] | msg]; cbn;
      try (eexists; reflexivity).
    destruct (day_entry_of day_name (Provider.populartimes d) day_of_week);
      cbn; eexists; reflexivity.
  - intros fetch address day_of_week hour [-> | ->]; reflexivity.
  - intros fetch query d day_of_week hour Hq Hfetch Hdays.
    unfold get_live_popularity.
    apply String.eqb_neq in Hq. rewrite Hq, Hfetch. cbn.
    destruct (@day_entry_of_returns day_name _ _ Hdays) as (e & ->). cbn.
    eexists. eexists. split; [reflexivity|]. split; [reflexivity|].
    cbn. split; [reflexivity|]. split.
    + destruct (Provider.day_series (Provider.populartimes d) day_of_week);
        [reflexivity|]. destruct hour; reflexivity.
    + unfold Dashboard.fallback.
      destruct (Provider.current_popularity d) as [c|]; [reflexivity|].
      destruct (Py.get _ _) as [| x rest]; [reflexivity|].
      destruct (Dashboard.scan (x :: rest) _) as [[v h]|];
        [discriminate|].
      destruct (Provider.day_series _ _) as [p|]; [|reflexivity].
      destruct (Dashboard.scan p _) as [[v h]|]; [discriminate|reflexivity].
  - intros fetch query d days day_of_week hour Hq Hfetch Hpt Hne Hlen.
    assert (Hnth : nth_error days day_of_week = None)
      by (apply nth_error_None; exact Hlen).
    split.
    + unfold get_live_popularity.
      apply String.eqb_neq in Hq. rewrite Hq, Hfetch. cbn.
      unfold day_entry_of. rewrite Hpt.
      destruct days as [| e0 rest]; [contradiction|].
      rewrite Hnth. reflexivity.
    + rewrite Hfetch. cbn. eexists. split; [reflexivity|].
      unfold Provider.day_series. rewrite Hpt, Hnth. cbn.
      split; [|destruct hour; reflexivity].
      destruct (Provider.current_popularity d); reflexivity.
  - intros fetch query d days entry day_of_week hour Hq Hfetch Hpt Hnth
      Hname Hcur.
    split.
    + unfold get_live_popularity.
      apply String.eqb_neq in Hq. rewrite Hq, Hfetch. cbn.
      unfold day_entry_of. rewrite Hpt.
      destruct days as [| e0 rest]; [destruct day_of_week; discriminate|].
      rewrite Hnth, Hname. reflexivity.
    + rewrite Hfetch. cbn. eexists. split; [reflexivity|].
      cbn. unfold Dashboard.fallback.
      destruct (Provider.current_popularity d); [reflexivity|].
      contradiction.
Qed.

Context {E : External}.

(** X13: [test_scraper.py]'s [get_market_data] records every exception it
    absorbs: the list of errors holds the message of the VIX fetch when it
    raised, then that of the gold fetch when it raised, and nothing else;
    a ticker has no price exactly when its fetch raised or came back
    empty; and the prices are those [dashboard.py] reports for the same
    frames. *)
Theorem scraper_market_errors_are_recorded
    (vix_hist gold_hist : Exn.t (list Provider.bar)) :
  exists r r',
    get_market_data (Exn.Return tt) vix_hist gold_hist
    = Exn.Return (MarketData r) /\
    Dashboard.get_market_data (Exn.Return tt) vix_hist gold_hist
    = Exn.Return (Dashboard.MarketData r') /\
    errors r
    = match vix_hist with
      | Exn.Raise e => [("VIX: " ++ e)%string]
      | Exn.Return _ => []
      end
      ++ match gold_hist with
         | Exn.Raise e => [("Gold: " ++ e)%string]
         | Exn.Return _ => []
         end /\
    (vix r = None <->
     (exists e, vix_hist = Exn.Raise e) \/ vix_hist = Exn.Return []) /\
    (gold r = None <->
     (exists e, gold_hist = Exn.Raise e) \/ gold_hist = Exn.Return []) /\
    vix r = Dashboard.vix r' /\
    gold r = Dashboard.gold r'.
Proof.
  unfold get_market_data, fetch_vix, fetch_gold, Dashboard.get_market_data,
    Dashboard.fetch_vix, Dashboard.fetch_gold, Exn.try_except, Exn.bind.
  destruct vix_hist as [vbars | vmsg], gold_hist as [gbars | gmsg].
  all: try (destruct vbars as [| vfirst vmore];
            [|destruct (rev (vfirst :: vmore)) as [| vlast vrest] eqn:Hv;
              [apply rev_nil_inv in Hv; discriminate|]]).
  all: try (destruct gbars as [| gfirst gmore];
            [|destruct (rev (gfirst :: gmore)) as [| glast grest] eqn:Hg;
              [apply rev_nil_inv in Hg; discriminate|]]).
  all: cbn [rev app]; eexists; eexists; split; [reflexivity|];
    split; [reflexivity|];
    cbn [errors vix gold Dashboard.vix Dashboard.gold app];
    repeat split; try reflexivity; try discriminate; eauto;
    try (intros [[e He] | He]; discriminate).
Qed.

Lemma composite_index_without_current (sensor_results : list sensor_result) :
  (forall s, In s sensor_results -> current s = None) ->
  composite_index sensor_results = NoLiveData.
Proof.
  intros H. unfold composite_index.
  assert (Hf : filter has_current sensor_results = []).
  { induction sensor_results as [| a l IH]; [reflexivity|].
    cbn [filter]. unfold has_current at 1.
    rewrite (H a (or_introl eq_refl)). apply IH.
    intros s Hin. apply H. right. exact Hin. }
  rewrite Hf. reflexivity.
Qed.

(** X14: what the composite section prints, case by case: the "no live
    data" notice exactly when no sensor has a current value; the "no
    baseline" notice exactly when some sensor has one but none has both a
    current value and a baseline strictly greater than 0; otherwise the
    score, with the status its value gives. *)
Theorem composite_section_outcomes (sensor_results : list sensor_result) :
  (composite_index sensor_results = NoLiveData <->
   forall s, In s sensor_results -> current s = None) /\
  (composite_index sensor_results = NoBaselineData <->
   (exists s, In s sensor_results /\ current s <> None) /\
   forall s, In s sensor_results -> anomaly_pct s = None) /\
  (forall avg status,
     composite_index sensor_results = Composite avg status ->
     status = status_of avg /\
     exists s c u, In s sensor_results /\ current s = Some c /\
                   usual s = Some u /\ (0 < u)%Z) /\
  (forall s, anomaly_pct s = None <->
             ~ exists c u, current s = Some c /\ usual s = Some u /\
                           (0 < u)%Z).
Proof.
  assert (Hpct : forall s, anomaly_pct s = None <->
                 ~ exists c u, current s = Some c /\ usual s = Some u /\
                               (0 < u)%Z).
  { intros s. unfold anomaly_pct.
    destruct (usual s) as [u|], (current s) as [c|].
    - destruct (Z.eqb_spec u 0) as [-> | Hne]; cbn.
      + split; [|reflexivity]. intros _ (c' & u' & _ & Hu & Hpos).
        inversion Hu; subst. lia.
      + destruct (Z.ltb_spec 0 u) as [Hpos | Hle]; cbn.
        * split; [discriminate|]. intros H. exfalso. apply H.
          exists c, u. auto.
        * split; [|reflexivity]. intros _ (c' & u' & _ & Hu & Hpos).
          inversion Hu; subst. lia.
    - split; [|reflexivity]. intros _ (? & ? & ? & _). discriminate.
    - split; [|reflexivity]. intros _ (? & ? & _ & ? & _). discriminate.
    - split; [|reflexivity]. intros _ (? & ? & ? & _). discriminate. }
  assert (Hscores : forall l, pizza_anomaly_scores l = [] <->
                              forall s, In s l -> anomaly_pct s = None).
  { induction l as [| a l IH]; cbn.
    - split; [intros _ s [] | reflexivity].
    - destruct (anomaly_pct a) eqn:Ha.
      + split; [discriminate|]. intros H.
        rewrite (H a (or_introl eq_refl)) in Ha. discriminate.
      + rewrite IH. split.
        * intros H s [<- | Hin]; auto.
        * intros H s Hin. apply H. auto. }
  assert (Hex : forall l, pizza_anomaly_scores l <> [] ->
                          exists s, In s l /\ anomaly_pct s <> None).
  { induction l as [| a l IH]; cbn; [congruence|].
    destruct (anomaly_pct a) eqn:Ha.
    - intros _. exists a. split; [auto | congruence].
    - intros H. destruct (IH H) as (s & Hin & Hs). exists s. auto. }
  assert (Hcur : forall s, has_current s = false <-> current s = None).
  { intros s. unfold has_current. destruct (current s); split;
      congruence. }
  assert (Hactive : forall s, In s (filter has_current sensor_results) <->
                              In s sensor_results /\ current s <> None).
  { intros s. rewrite filter_In. unfold has_current.
    destruct (current s); intuition congruence. }
  assert (Hskip : forall s, current s = None -> anomaly_pct s = None).
  { intros s Hs. unfold anomaly_pct. rewrite Hs.
    destruct (usual s); reflexivity. }
  unfold composite_index.
  split; [|split; [|split]]; [| | |exact Hpct].
  - destruct (filter has_current sensor_results) as [| a l] eqn:Hf.
    + split; [|reflexivity]. intros _ s Hin. apply Hcur.
      apply (proj1 (filter_empty_iff _ _) Hf s Hin).
    + split.
      * destruct (pizza_anomaly_scores (a :: l)); discriminate.
      * intros H. exfalso.
        assert (Hin : In a (a :: l)) by (left; reflexivity).
        apply Hactive in Hin. destruct Hin as [Hin Hne].
        apply Hne. apply H. exact Hin.
  - destruct (filter has_current sensor_results) as [| a l] eqn:Hf.
    + split; [discriminate|]. intros [(s & Hin & Hne) _]. exfalso.
      assert (Hin' : In s []) by (apply Hactive; auto).
      destruct Hin'.
    + destruct (pizza_anomaly_scores (a :: l)) as [| x xs] eqn:Hs.
      * split; [|reflexivity]. intros _. split.
        -- exists a. apply Hactive. left. reflexivity.
        -- intros s Hin. destruct (current s) eqn:Hc; [|auto].
           apply (proj1 (Hscores (a :: l)) Hs).
           apply Hactive. split; [exact Hin | congruence].
      * split; [discriminate|]. intros [_ H]. exfalso.
        assert (Hnil : pizza_anomaly_scores (a :: l) = []).
        { apply Hscores. intros s Hin. apply H.
          apply Hactive in Hin. tauto. }
        rewrite Hnil in Hs. discriminate.
  - intros avg status.
    destruct (filter has_current sensor_results) as [| a l] eqn:Hf;
      [discriminate|].
    destruct (pizza_anomaly_scores (a :: l)) as [| x xs] eqn:Hs;
      [discriminate|].
    intros H. inversion H; subst. split; [reflexivity|].
    destruct (Hex (a :: l)) as (s & Hin & Hsome);
      [rewrite Hs; discriminate|].
    apply Hactive in Hin. destruct Hin as [Hin _].
    destruct (anomaly_pct s) as [p|] eqn:Ha; [|contradiction].
    unfold anomaly_pct in Ha.
    destruct (usual s) as [u|] eqn:Hu; [|discriminate].
    destruct (current s) as [c|] eqn:Hc; [|discriminate].
    exists s, c, u. repeat split; auto.
    destruct (Z.ltb_spec 0 u) as [Hpos | Hle]; [exact Hpos|].
    rewrite andb_false_r in Ha. discriminate.
Qed.

End ScraperFacts.

(* ================================================================== *)
(** * The labels of the three programs *)
(* ================================================================== *)

Section Labels.

Lemma ltb_excludes_gt (x lo hi : float) :
  (lo <? hi)%float = true -> (x <? lo)%float = true ->
  (hi <? x)%float = false.
Proof.
  intros Hlohi Hx. apply leb_ltb_false, ltb_leb.
  apply (leb_ltb_trans (ltb_leb Hx) Hlohi).
Qed.

(** On the busyness scale the page computes the percentage Python
    computes. *)
Lemma js_pct_is_pct (c u : Z) :
  (0 <= c <= 100)%Z -> (0 < u <= 100)%Z ->
  Dashboard.js_pct c u = (Py.truediv (c - u) u * 100)%float.
Proof.
  intros Hc Hu.
  assert (H : Reading.on_busyness_scale
                (fun c u => PrimFloat.Leibniz.eqb (Dashboard.js_pct c u)
                              (Py.truediv (c - u) u * 100)%float) = true)
    by (vm_compute; reflexivity).
  apply FloatAxioms.Leibniz.eqb_spec.
  apply (@on_busyness_scale_spec _ H c u Hc Hu).
Qed.

(** X15: for a present current value and a baseline that is not negative,
    [fetch_sensor_data]'s signal and [calculate_trend]'s level stand for
    the same label, the two finer levels of [calculate_trend] around
    normal counting as normal; on the 0..100 scale the class the page
    gives the row stands for that label too. *)
Theorem labellers_agree (current usual : Z) :
  (0 <= usual)%Z ->
  Reading.label (fst (RobustScraper.determine_signal (Some current) usual))
  = Reading.trend_label
      (TestScraper.calculate_trend (Some current) (Some usual)) /\
  ((0 <= current <= 100)%Z -> (usual <= 100)%Z ->
   Reading.class_label
     (Dashboard.getAnomalyClass (Some current) (Some usual))
   = Reading.trend_label
       (TestScraper.calculate_trend (Some current) (Some usual))).
Proof.
  intros Hu.
  assert (Hcore : forall p : float,
            (if (50 <? p)%float then Spec.spike
             else if (25 <? p)%float then Spec.elevated
             else if (p <? -25)%float then Spec.low
             else Spec.normal)
            = Reading.trend_label
                (TestScraper.TREND p
                   (if (50 <? p)%float then TestScraper.SPIKE
                    else if (25 <? p)%float then TestScraper.ELEVATED
                    else if (10 <? p)%float then TestScraper.ABOVE_NORMAL
                    else if (p <? -25)%float then TestScraper.VERY_LOW
                    else if (p <? -10)%float then TestScraper.BELOW_NORMAL
                    else TestScraper.NORMAL))).
  { intros p.
    destruct (50 <? p)%float; [reflexivity|].
    destruct (25 <? p)%float; [reflexivity|].
    destruct (p <? -25)%float eqn:Hlow.
    - rewrite (@ltb_excludes_gt p (-25) 10 eq_refl Hlow). reflexivity.
    - destruct (10 <? p)%float; [reflexivity|].
      destruct (p <? -10)%float; reflexivity. }
  unfold RobustScraper.determine_signal, TestScraper.calculate_trend,
    Dashboard.getAnomalyClass.
  destruct (Z.eqb_spec usual 0) as [-> | Hne].
  - split; [reflexivity | intros; reflexivity].
  - assert (Hpos : (0 <? usual)%Z = true) by (apply Z.ltb_lt; lia).
    rewrite Hpos. cbn [fst]. split.
    + rewrite <- Hcore.
      destruct (50 <? _)%float; [reflexivity|].
      destruct (25 <? _)%float; [reflexivity|].
      destruct (_ <? -25)%float; reflexivity.
    + intros Hc Hle. rewrite <- Hcore.
      rewrite js_pct_is_pct by lia.
      destruct (50 <? _)%float; [reflexivity|].
      destruct (25 <? _)%float; [reflexivity|].
      destruct (_ <? -25)%float; reflexivity.
Qed.

Lemma labellers_agree_witness :
  Reading.label (fst (RobustScraper.determine_signal (Some 40%Z) 80%Z))
  = Reading.trend_label
      (TestScraper.calculate_trend (Some 40%Z) (Some 80%Z)).
Proof.
  refine (proj1 (@labellers_agree 40 80 _)). lia.
Defined.

(** X16: the status [generate_report] prints and the banner of the page
    agree on a score: red alert exactly when the banner is critical,
    elevated exactly when it is elevated, and one of watch, quiet and
    normal exactly when the banner reads normal operations. *)
Theorem status_and_banner_agree (avg_anomaly : float) :
  (TestScraper.status_of avg_anomaly = TestScraper.RED_ALERT <->
   Dashboard.className (Dashboard.updateAlertBanner (Some avg_anomaly))
   = "critical"%string) /\
  (TestScraper.status_of avg_anomaly = TestScraper.ELEVATED_ALERT <->
   Dashboard.className (Dashboard.updateAlertBanner (Some avg_anomaly))
   = "elevated"%string) /\
  (TestScraper.status_of avg_anomaly = TestScraper.WATCH \/
   TestScraper.status_of avg_anomaly = TestScraper.QUIET \/
   TestScraper.status_of avg_anomaly = TestScraper.NORMAL_ALERT <->
   Dashboard.title (Dashboard.updateAlertBanner (Some avg_anomaly))
   = "NORMAL OPERATIONS"%string) /\
  (TestScraper.status_of avg_anomaly = TestScraper.QUIET ->
   Dashboard.interpretation (Some avg_anomaly)
   = Dashboard.BelowNormalActivity).
Proof.
  unfold TestScraper.status_of, Dashboard.updateAlertBanner,
    Dashboard.interpretation.
  destruct (50 <? avg_anomaly)%float;
    [|destruct (25 <? avg_anomaly)%float;
      [|destruct (10 <? avg_anomaly)%float;
        [|destruct (avg_anomaly <? -25)%float]]];
    cbn; repeat split; try discriminate; try reflexivity; auto;
    try (intros [H | [H | H]]; discriminate).
Qed.

End Labels.

(* ================================================================== *)
(** * robust_scraper_poc.py: sensors, report, market data *)
(* ================================================================== *)

Section RobustFacts.
Import RobustScraper.

(** X17: [fetch_sensor_data] never raises and its status tells what the
    provider did: ERROR with the message when it raised, OFFLINE when it
    returned nothing, ONLINE otherwise, whatever the target.  An online
    result shows NO LIVE SIGNAL exactly when there is no current value; a
    current value without a strictly positive value for the hour is
    NORMAL however large it is; and a deviation signal carries a change
    beyond its threshold. *)
Theorem fetch_sensor_data_status
    (target : target) (fetched : Provider.outcome) (day_idx hour_idx : nat) :
  match fetched with
  | Exn.Raise msg =>
      fetch_sensor_data target fetched day_idx hour_idx
      = Exn.Return (ERROR msg)
  | Exn.Return None =>
      fetch_sensor_data target fetched day_idx hour_idx
      = Exn.Return (OFFLINE "No data returned by Google")
  | Exn.Return (Some d) =>
      exists o,
        fetch_sensor_data target fetched day_idx hour_idx
        = Exn.Return (ONLINE o) /\
        live o = Provider.current_popularity d /\
        historical o
        = historical_average (Provider.populartimes d) day_idx hour_idx /\
        (online_signal o = NO_LIVE_SIGNAL <-> live o = None) /\
        (live o <> None -> (historical o <= 0)%Z ->
         online_signal o = NORMAL) /\
        (forall x, online_signal o = SPIKE_DETECTED x ->
                   (50 <? x)%float = true) /\
        (forall x, online_signal o = ELEVATED x ->
                   (25 <? x)%float = true /\ (50 <? x)%float = false) /\
        (forall x, online_signal o = LOW_ACTION x ->
                   (x <? -25)%float = true /\ (25 <? x)%float = false)
  end.
Proof.
  destruct fetched as [[d|] | msg]; [|reflexivity|reflexivity].
  eexists. split; [reflexivity|].
  cbn [live historical online_signal].
  set (h := historical_average (Provider.populartimes d) day_idx hour_idx).
  unfold determine_signal.
  destruct (Provider.current_popularity d) as [c|].
  - destruct (Z.ltb_spec 0 h) as [Hpos | Hle]; cbn [fst].
    + set (change := (Py.truediv (c - h) h * 100)%float).
      destruct (50 <? change)%float eqn:H50;
        [|destruct (25 <? change)%float eqn:H25;
          [|destruct (change <? -25)%float eqn:Hlow]];
        repeat split; try discriminate; try reflexivity; try lia;
        try (intros; discriminate);
        try (intros;
             match goal with
             | H : _ = _ |- _ =>
                 injection H as Heq; rewrite <- Heq; assumption
             end).
    + repeat split; try discriminate; try reflexivity;
        try (intros; discriminate).
  - cbn [fst]. repeat split; try discriminate; try reflexivity;
      try (intros; discriminate); try contradiction.
Qed.

(** The loop of [main] returns one result for each target. *)
Lemma fetch_all_returns (fetch : string -> Provider.outcome)
    (clock : string -> nat * nat) (todo : list target) :
  exists results,
    fetch_all fetch clock todo = Exn.Return results /\
    Forall2 (fun t res =>
               fetch_sensor_data t (fetch (address_query t))
                 (fst (clock (address_query t)))
                 (snd (clock (address_query t)))
               = Exn.Return res)
            todo results.
Proof.
  induction todo as [| t rest (results & IH & Hall)].
  - exists []. split; [reflexivity | constructor].
  - cbn [fetch_all].
    assert (Hres : exists res,
               fetch_sensor_data t (fetch (address_query t))
                 (fst (clock (address_query t)))
                 (snd (clock (address_query t))) = Exn.Return res).
    { destruct (fetch (address_query t)) as [[d|] | msg];
        eexists; reflexivity. }
    destruct Hres as (res & Hres). rewrite Hres, IH. cbn.
    exists (res :: results). split; [reflexivity|].
    constructor; assumption.
Qed.

Lemma report_entries_combine (i : nat) (sensor_results : list result) :
  (i + List.length sensor_results <= List.length TARGETS)%nat ->
  report_entries i sensor_results
  = Exn.Return (combine (skipn i TARGETS) sensor_results).
Proof.
  revert i. induction sensor_results as [| res rest IH]; intros i Hlen.
  - cbn. destruct (skipn i TARGETS); reflexivity.
  - cbn [report_entries]. cbn [List.length] in Hlen.
    destruct (nth_error TARGETS i) as [t|] eqn:Hn.
    + rewrite IH by lia. cbn.
      assert (Hskip : skipn i TARGETS = t :: skipn (S i) TARGETS).
      { clear - Hn. revert Hn. generalize TARGETS. induction i as [| i IHi];
          intros [| a l] Hn; try discriminate.
        - inversion Hn. reflexivity.
        - cbn in Hn. cbn [skipn]. rewrite (IHi l Hn).
          destruct l; [destruct i; discriminate | reflexivity]. }
      rewrite Hskip. reflexivity.
    + apply nth_error_None in Hn. lia.
Qed.

(** X18: the report of [main] never fails on an index: it prints the
    three targets in order, each with the result fetched for it. *)
Theorem main_report_pairs_each_target_with_its_result
    (fetch : string -> Provider.outcome) (clock : string -> nat * nat) :
  exists entries,
    main_report fetch clock = Exn.Return entries /\
    map fst entries = TARGETS /\
    Forall (fun e =>
              fetch_sensor_data (fst e) (fetch (address_query (fst e)))
                (fst (clock (address_query (fst e))))
                (snd (clock (address_query (fst e))))
              = Exn.Return (snd e))
           entries.
Proof.
  unfold main_report.
  destruct (fetch_all_returns fetch clock TARGETS) as (results & -> & Hall).
  cbn [Exn.bind].
  assert (Hlen : List.length results = List.length TARGETS)
    by (symmetry; apply (Forall2_length Hall)).
  rewrite report_entries_combine by (rewrite Hlen; lia).
  cbn [skipn]. eexists. split; [reflexivity|]. split.
  - clear - Hall. induction Hall; [reflexivity|]. cbn. f_equal. assumption.
  - clear - Hall. induction Hall; constructor; assumption.
Qed.

Context {E : External}.

(** X19: [fetch_market_data] never raises, and its answer is all or
    nothing: the two prices when both tickers yield one, and otherwise the
    error of the first ticker that failed, so that a failed gold fetch
    discards a VIX price already obtained.  A quoted price that is not
    zero is used as it is, whatever the history would give. *)
Theorem market_report_is_all_or_nothing
    (vix_info gold_info : Exn.t (option float))
    (vix_1d gold_1d : Exn.t (list Provider.bar)) :
  fetch_market_data vix_info vix_1d gold_info gold_1d
  = Exn.Return
      match market_price vix_info vix_1d, market_price gold_info gold_1d with
      | Exn.Return v, Exn.Return g => Prices (round v 2) (round g 2)
      | Exn.Raise e, _ => MarketError e
      | Exn.Return _, Exn.Raise e => MarketError e
      end /\
  (forall price history,
     truthy price = true ->
     market_price (Exn.Return (Some price)) history = Exn.Return price) /\
  (forall e history, market_price (Exn.Raise e) history = Exn.Raise e) /\
  (forall quoted, quoted = None \/ quoted = Some 0%float ->
     market_price (Exn.Return quoted) (Exn.Return []) 
     = Exn.Raise "single positional indexer is out-of-bounds" /\
     forall bars last,
       market_price (Exn.Return quoted) (Exn.Return (bars ++ [last]))
       = Exn.Return (Provider.close last)).
Proof.
  split; [|split; [|split]].
  - unfold fetch_market_data.
    destruct (market_price vix_info vix_1d) as [v | e]; [|reflexivity].
    destruct (market_price gold_info gold_1d) as [g | e]; reflexivity.
  - intros price history Hp. cbn. rewrite Hp. reflexivity.
  - reflexivity.
  - intros quoted [-> | ->]; (split; [reflexivity|]);
      intros bars last; cbn; unfold last_close; cbn;
      rewrite rev_unit; reflexivity.
Qed.

End RobustFacts.

(* ================================================================== *)
(** * test_scraper.py: the sensor loop of the report *)
(* ================================================================== *)

Section ScraperLoop.
Import TestScraper.

Lemma scraper_reading_returns
    (day_name : Provider.day_entry -> option string) (imports : Exn.t unit)
    (fetch : string -> Provider.outcome) (address : option string)
    (day_of_week hour : nat) :
  exists p,
    get_live_popularity day_name imports fetch address day_of_week hour
    = Exn.Return p /\
    ((exists e, imports = Exn.Raise e) -> exists e, p = NoData e) /\
    ((forall q, address = Some q -> Reading.no_reading (fetch q) = true) ->
     exists e, p = NoData e).
Proof.
  unfold get_live_popularity.
  destruct imports as [[] | msg].
  - destruct address as [query|].
    + destruct (String.eqb query "").
      * eexists. split; [reflexivity|]. split; intros _; eexists; reflexivity.
      * destruct (fetch query) as [[d|] | msg] eqn:Hf; cbn.
        -- destruct (day_entry_of day_name (Provider.populartimes d)
                       day_of_week);
             cbn; eexists; (split; [reflexivity|]); split.
           ++ intros [e He]. discriminate.
           ++ intros H. specialize (H query eq_refl). rewrite Hf in H.
              discriminate.
           ++ intros _. eexists. reflexivity.
           ++ intros _. eexists. reflexivity.
        -- eexists. split; [reflexivity|].
           split; intros _; eexists; reflexivity.
        -- eexists. split; [reflexivity|].
           split; intros _; eexists; reflexivity.
    + eexists. split; [reflexivity|]. split; intros _; eexists; reflexivity.
  - eexists. split; [reflexivity|]. split; intros _; eexists; reflexivity.
Qed.

(** X20: the report lists one entry for each configured sensor, in
    order, under its name and role, whatever the fetches do; an entry
    with a current value carries the indicator type of its sensor; and
    when the import fails, or no provider call gives a reading, no entry
    has a current value and the composite section prints its "no live
    data" notice. *)
Theorem report_lists_every_sensor
    (day_name : Provider.day_entry -> option string)
    (imports : Exn.t unit) (fetch : string -> Provider.outcome)
    (clock : string -> nat * nat) :
  exists results,
    collect_sensor_results day_name imports fetch clock SENSORS
    = Exn.Return results /\
    map sensor results = map Sensor.name SENSORS /\
    map role results = map Sensor.role SENSORS /\
    Forall2 (fun s r => current r <> None ->
                        indicator_type r = Some (Sensor.indicator_type s))
            SENSORS results /\
    ((exists e, imports = Exn.Raise e) \/
     (forall s q, In s SENSORS -> Sensor.address s = Some q ->
                  Reading.no_reading (fetch q) = true) ->
     composite_index results = NoLiveData).
Proof.
  assert (Hgen : forall todo,
            exists results,
              collect_sensor_results day_name imports fetch clock todo
              = Exn.Return results /\
              map sensor results = map Sensor.name todo /\
              map role results = map Sensor.role todo /\
              Forall2 (fun s r =>
                         current r <> None ->
                         indicator_type r = Some (Sensor.indicator_type s))
                      todo results /\
              ((exists e, imports = Exn.Raise e) \/
               (forall s q, In s todo -> Sensor.address s = Some q ->
                            Reading.no_reading (fetch q) = true) ->
               forall r, In r results -> current r = None)).
  { induction todo as [| s rest (results & IH & Hn & Hr & Hi & Hc)].
    - exists []. repeat split; try constructor. intros _ r [].
    - cbn [collect_sensor_results].
      destruct (scraper_reading_returns day_name imports fetch
                  (Sensor.address s)
                  (fst (clock (Sensor.name s))) (snd (clock (Sensor.name s))))
        as (p & -> & Himp & Hdown).
      cbn [Exn.bind]. rewrite IH. cbn [Exn.bind].
      eexists. split; [reflexivity|]. cbn [map]. rewrite Hn, Hr.
      repeat split.
      + destruct p; reflexivity.
      + destruct p; reflexivity.
      + constructor; [|exact Hi]. destruct p; cbn; [congruence | auto].
      + intros Hfail r [<- | Hin].
        * assert (Hno : exists e, p = NoData e).
          { destruct Hfail as [Hfail | Hfail]; [apply Himp; exact Hfail|].
            apply Hdown. intros q Hq. apply (Hfail s q); [left|]; auto. }
          destruct Hno as (e & ->). reflexivity.
        * apply Hc; [|exact Hin].
          destruct Hfail as [Hfail | Hfail]; [left; exact Hfail|].
          right. intros s' q Hs'. apply Hfail. right. exact Hs'. }
  destruct (Hgen SENSORS) as (results & Hres & Hn & Hr & Hi & Hc).
  exists results. repeat split; auto.
  intros Hfail. apply composite_index_without_current. apply Hc. exact Hfail.
Qed.

End ScraperLoop.

(* ================================================================== *)
(** * find_places.py: the discovery *)
(* ================================================================== *)

Section Discovery.
Import FindPlaces.

Lemma search_place_returns (fetched : Exn.t (option place)) :
  exists result,
    search_place fetched = Exn.Return result /\
    match result with
    | Success n a r t =>
        exists d, fetched = Exn.Return (Some d) /\ has_name d = true /\
                  n = place_name d /\ a = place_address d /\
                  r = place_rating d /\ t = has_times d
    | Failure _ =>
        match fetched with
        | Exn.Return (Some d) => has_name d = false
        | _ => True
        end
    end.
Proof.
  unfold search_place.
  destruct fetched as [[d|] | msg]; cbn;
    try (eexists; split; [reflexivity | exact I]).
  destruct (has_name d) eqn:Hn, (has_times d) eqn:Ht; cbn;
    eexists; (split; [reflexivity|]); try reflexivity;
    exists d; repeat split; auto.
Qed.

(** X21: [find_places.py] keeps, in the order of the searches, exactly
    the searches whose provider call returned a place with a non-empty
    name; the counts it saves are consistent (sensors with timing data
    among the places found, among the 16 searches); and the sensors whose
    configuration it prints are at most 10, all with timing data. *)
Theorem discovery_counts_are_consistent
    (provider : string -> Exn.t (option place)) :
  exists out,
    main provider = Exn.Return out /\
    map (fun d => (search_name d, search_query d)) (locations out)
    = map (fun l => (name l, query l))
        (filter (fun l => match provider (query l) with
                          | Exn.Return (Some d) => has_name d
                          | _ => false
                          end)
                SEARCH_LOCATIONS) /\
    total_searched out = 16%Z /\
    total_found out = Py.len (locations out) /\
    (0 <= valid_sensors out <= total_found out)%Z /\
    (total_found out <= total_searched out)%Z /\
    (List.length (printed out) <= 10)%nat /\
    Forall (fun d => has_populartimes d = true) (printed out) /\
    Forall (fun d => exists n, found_name d = Some n /\ n <> ""%string)
           (locations out).
Proof.
  assert (Hgen : forall todo,
            exists ds,
              discover provider todo = Exn.Return ds /\
              map (fun d => (search_name d, search_query d)) ds
              = map (fun l => (name l, query l))
                  (filter (fun l => match provider (query l) with
                                    | Exn.Return (Some d) => has_name d
                                    | _ => false
                                    end) todo) /\
              Forall (fun d => exists n, found_name d = Some n /\
                                         n <> ""%string) ds).
  { induction todo as [| loc rest (ds & IH & Hkeys & Hnamed)].
    - exists []. repeat split. constructor.
    - cbn [discover filter].
      destruct (search_place_returns (provider (query loc)))
        as (result & -> & Hres).
      cbn [Exn.bind]. rewrite IH. cbn [Exn.bind].
      destruct result as [e | n a r t].
      + exists ds. split; [reflexivity|].
        destruct (provider (query loc)) as [[d|] | msg];
          try rewrite Hres; auto.
      + destruct Hres as (d & -> & Hname & -> & -> & -> & ->).
        rewrite Hname. eexists. split; [reflexivity|]. cbn [map].
        rewrite Hkeys. split; [reflexivity|]. constructor; [|exact Hnamed].
        cbn. unfold has_name in Hname.
        destruct (place_name d) as [n|]; [|discriminate].
        exists n. split; [reflexivity|].
        apply negb_true_iff in Hname. apply String.eqb_neq. exact Hname. }
  destruct (Hgen SEARCH_LOCATIONS) as (ds & Hds & Hkeys & Hnamed).
  unfold main. rewrite Hds. cbn [Exn.bind].
  eexists. split; [reflexivity|].
  cbn [locations total_searched total_found valid_sensors printed].
  assert (Hfound : (List.length ds <= 16)%nat).
  { rewrite <- (length_map (fun d => (search_name d, search_query d))).
    rewrite Hkeys, length_map.
    etransitivity; [apply filter_length_le | reflexivity]. }
  pose proof (filter_length_le has_populartimes ds) as Hvalid.
  unfold Py.len.
  split; [exact Hkeys|]. split; [reflexivity|]. split; [reflexivity|].
  split; [lia|].
  split; [change (List.length SEARCH_LOCATIONS) with 16%nat; lia|].
  split; [rewrite length_firstn; lia|]. split; [|exact Hnamed].
  apply Forall_forall. intros d Hin.
  assert (Hin' : In d (filter has_populartimes ds)).
  { rewrite <- (firstn_skipn 10 (filter has_populartimes ds)).
    apply in_or_app. left. exact Hin. }
  apply filter_In in Hin'. tauto.
Qed.

End Discovery.

(* ================================================================== *)
(** * setup_env.py: the dependency check *)
(* ================================================================== *)

Section SetupFacts.
Import SetupEnv.
Context {S : System}.

Lemma step_on_importable (st : progress) (pip_name import_name : string) :
  import_name <> ""%string ->
  importable (env st) import_name = true ->
  step st (pip_name, import_name) = st.
Proof.
  intros Hne Himp. unfold step, check_package.
  apply String.eqb_neq in Hne. rewrite Hne, Himp. reflexivity.
Qed.

(** X22: on an installation where the three required modules already
    import, the script hands nothing to pip, leaves the installation as
    it found it and exits with 0. *)
Theorem setup_on_ready_installation_installs_nothing
    (start : installation) :
  (forall m, In m ["livepopulartimes"; "yfinance"; "requests"]%string ->
             importable start m = true) ->
  run start = {| env := start; all_success := true; installed := [] |} /\
  main start = 0%Z.
Proof.
  intros Hready.
  assert (Hrun : run start
                 = {| env := start; all_success := true; installed := [] |}).
  { unfold run, required_packages. cbn [fold_left].
    set (st0 := {| env := start; all_success := true; installed := [] |}).
    rewrite (@step_on_importable st0 "livepopulartimes" "livepopulartimes");
      [|discriminate | apply Hready; cbn; auto].
    rewrite (@step_on_importable st0 "yfinance" "yfinance");
      [|discriminate | apply Hready; cbn; auto].
    rewrite (@step_on_importable st0 "requests" "requests");
      [|discriminate | apply Hready; cbn; auto].
    reflexivity. }
  split; [exact Hrun|]. unfold main. rewrite Hrun. reflexivity.
Qed.

Lemma step_keeps_failure (st : progress) (package : string * string) :
  all_success (step st package) = true -> all_success st = true.
Proof.
  unfold step. destruct package as [pip_name import_name].
  destruct (check_package (env st) pip_name (Some import_name)); [auto|].
  destruct (install_package (env st) pip_name) as [ok env'].
  destruct ok; cbn; [|discriminate].
  destruct (check_package env' pip_name (Some import_name)); cbn;
    [auto | discriminate].
Qed.

Lemma fold_keeps_failure (packages : list (string * string))
    (st : progress) :
  all_success (fold_left step packages st) = true -> all_success st = true.
Proof.
  revert st. induction packages as [| p rest IH]; intros st; [auto|].
  cbn [fold_left]. intros H. apply IH in H. apply (@step_keeps_failure _ _ H).
Qed.

Lemma step_importable (st : progress) (pip_name import_name : string) :
  (forall p e m, importable e m = true ->
                 importable (snd (pip_install p e)) m = true) ->
  import_name <> ""%string ->
  all_success (step st (pip_name, import_name)) = true ->
  importable (env (step st (pip_name, import_name))) import_name = true /\
  forall m, importable (env st) m = true ->
            importable (env (step st (pip_name, import_name))) m = true.
Proof.
  intros Hmono Hne. unfold step, check_package, install_package.
  apply String.eqb_neq in Hne. rewrite Hne.
  destruct (importable (env st) import_name) eqn:Himp; [auto|].
  pose proof (Hmono pip_name (env st)) as Hm.
  destruct (pip_install pip_name (env st)) as [ok env'].
  destruct ok; cbn; [|discriminate].
  destruct (importable env' import_name) eqn:Himp'; cbn; [|discriminate].
  intros _. split; [exact Himp' | exact Hm].
Qed.

Lemma fold_importable (packages : list (string * string))
    (st : progress) :
  (forall p e m, importable e m = true ->
                 importable (snd (pip_install p e)) m = true) ->
  Forall (fun p => snd p <> ""%string) packages ->
  all_success (fold_left step packages st) = true ->
  (forall m, In m (map snd packages) ->
             importable (env (fold_left step packages st)) m = true) /\
  (forall m, importable (env st) m = true ->
             importable (env (fold_left step packages st)) m = true).
Proof.
  intros Hmono. revert st.
  induction packages as [| [pip_name import_name] rest IH];
    intros st Hnames Hok.
  - split; [intros m [] | auto].
  - cbn [fold_left] in *. inversion Hnames as [| ? ? Hne Hrest]; subst.
    cbn [snd] in Hne.
    destruct (IH _ Hrest Hok) as [Hin Hkeep].
    pose proof (@fold_keeps_failure _ _ Hok) as Hstep.
    destruct (@step_importable st pip_name import_name Hmono Hne Hstep)
      as [Hthis Hold].
    split.
    + intros m [<- | Hm]; [apply Hkeep; exact Hthis | apply Hin; exact Hm].
    + intros m Hm. apply Hkeep, Hold, Hm.
Qed.

(** X23: when installing a package never makes a module stop importing,
    an exit code of 0 means that the three required modules import in the
    installation the script leaves; and every module that imported before
    still does. *)
Theorem setup_complete_means_importable (start : installation) :
  (forall p e m, importable e m = true ->
                 importable (snd (pip_install p e)) m = true) ->
  main start = 0%Z ->
  (forall m, In m ["livepopulartimes"; "yfinance"; "requests"]%string ->
             importable (env (run start)) m = true) /\
  (forall m, importable start m = true ->
             importable (env (run start)) m = true).
Proof.
  intros Hmono Hexit.
  assert (Hok : all_success (run start) = true).
  { unfold main in Hexit. destruct (all_success (run start));
      [reflexivity | discriminate]. }
  unfold run in *.
  exact (@fold_importable required_packages
           {| env := start; all_success := true; installed := [] |}
           Hmono
           ltac:(repeat constructor; discriminate) Hok).
Qed.

End SetupFacts.

Lemma setup_on_ready_installation_installs_nothing_witness :
  @SetupEnv.main SetupEnv.listed
    ["requests"; "yfinance"; "livepopulartimes"]%string = 0%Z.
Proof.
  refine (proj2 (@setup_on_ready_installation_installs_nothing
                   SetupEnv.listed
                   ["requests"; "yfinance"; "livepopulartimes"]%string _)).
  intros m [<- | [<- | [<- | []]]]; reflexivity.
Defined.

Lemma setup_complete_means_importable_witness :
  @importable SetupEnv.listed
    (SetupEnv.env (@SetupEnv.run SetupEnv.listed ["requests"]%string))
    "yfinance" = true.
Proof.
  refine (proj1 (@setup_complete_means_importable SetupEnv.listed
                   ["requests"]%string _ _) "yfinance"%string _).
  - intros p e m Hm. cbn in *. destruct (String.eqb p "broken"); cbn;
      [exact Hm|]. rewrite Hm. apply orb_true_r.
  - reflexivity.
  - cbn. auto.
Defined.
